(** * SwarmHack tracking server ([server.py]): model and verified properties

    The development embeds the tracking core of [server.py]: the tag
    resolver ([Tag.__init__]), the calibration and world-model loop
    ([Tracker.run]) and the websocket request handler ([handler]).

    Modelling conventions.
    - Python [int] is [Z].  Raw detector coordinates (numpy floats) are
      rationals [Q]; [int(f)] truncates toward zero.
    - Python [float] results of [math.dist], [math.atan2], [math.degrees]
      and of [/] are real numbers [R]: rounding is idealised away, the
      control flow and the raising of [ZeroDivisionError] are kept.
    - A Python [dict] is an insertion-ordered association list with unique
      keys; [d[k] = v] is [dict_set], [d[k]] is [dict_getitem].
    - An exception that leaves a function is a [Raise] result; the tracker
      thread that dies keeps the state it had reached ([Crashed]).
    - Drawing, windowing and camera acquisition do not touch the tracker's
      fields and are left out. *)

From Stdlib Require Import ZArith QArith List Bool String Ascii Lia.
From Stdlib Require Import Reals Lra.
Import ListNotations.

Set Warnings "-register-all".
Local Open Scope Z_scope.

(* ================================================================== *)
(** * Part I: definitions                                               *)
(* ================================================================== *)

(** ** Exceptions and fallible results *)

Inductive exn : Type :=
| IndexError
| ZeroDivisionError
| KeyError
| TypeError
| JSONDecodeError.

Inductive result (A : Type) : Type :=
| Ok (a : A)
| Raise (e : exn).

Arguments Ok {A} a.
Arguments Raise {A} e.

Definition bind {A B : Type} (r : result A) (k : A -> result B) : result B :=
  match r with
  | Ok a => k a
  | Raise e => Raise e
  end.

Notation "x <- r ;; k" := (bind r (fun x => k))
  (at level 61, r at next level, right associativity).

(** ** Python dictionaries *)

(** Keys are compared with [==]; [HashableLaws] says that the comparison
    decides equality of the modelled keys. *)
Class Hashable (K : Type) : Type := { key_eqb : K -> K -> bool }.

Class HashableLaws (K : Type) `{Hashable K} : Prop := {
  key_eqb_eq : forall a b : K, key_eqb a b = true <-> a = b
}.

#[export] Instance Hashable_Z : Hashable Z := {| key_eqb := Z.eqb |}.

#[export] Instance Hashable_string : Hashable string :=
  {| key_eqb := String.eqb |}.

Definition dict (K V : Type) : Type := list (K * V).

Fixpoint dict_get {K V : Type} `{Hashable K} (k : K) (d : dict K V) : option V :=
  match d with
  | [] => None
  | (k', v) :: d' => if key_eqb k k' then Some v else dict_get k d'
  end.

(** [d[k] = v]: an existing key keeps its place, a new key goes last. *)
Fixpoint dict_set {K V : Type} `{Hashable K} (k : K) (v : V) (d : dict K V)
  : dict K V :=
  match d with
  | [] => [(k, v)]
  | (k', v') :: d' =>
      if key_eqb k k' then (k, v) :: d' else (k', v') :: dict_set k v d'
  end.

Definition dict_keys {K V : Type} (d : dict K V) : list K := map fst d.

Definition dict_mem {K V : Type} `{Hashable K} (k : K) (d : dict K V) : bool :=
  match dict_get k d with
  | Some _ => true
  | None => false
  end.

(** [d[k]] raises [KeyError] on a missing key. *)
Definition dict_getitem {K V : Type} `{Hashable K} (k : K) (d : dict K V)
  : result V :=
  match dict_get k d with
  | Some v => Ok v
  | None => Raise KeyError
  end.

(** [l[i]] on a list raises [IndexError] out of range. *)
Definition list_getitem {A : Type} (l : list A) (i : nat) : result A :=
  match nth_error l i with
  | Some a => Ok a
  | None => Raise IndexError
  end.

(** ** Numbers and geometry *)

(** [int(f)] on a float: truncation toward zero. *)
Definition py_int (f : Q) : Z := Z.quot (Qnum f) (Z.pos (Qden f)).

(** [int(n / d)] on two ints: [n / d] is the true quotient (a float,
    exact for the divisors 2 and 4 and the magnitudes of pixel sums) and
    [int] truncates it toward zero. *)
Definition int_truediv (n d : Z) : Z := Z.quot n d.

(** [a / b] on floats raises [ZeroDivisionError] when [b] is zero. *)
Definition truediv (a b : R) : result R :=
  if Req_dec_T b 0%R then Raise ZeroDivisionError else Ok (a / b)%R.

(** [math.dist(p, q)] for two points of the plane. *)
Definition math_dist (p q : R * R) : R :=
  sqrt ((fst p - fst q) * (fst p - fst q) + (snd p - snd q) * (snd p - snd q))%R.

(** [math.atan2(y, x)]: the angle of the vector [(x, y)], in [(-pi, pi]],
    with [atan2(0, 0) = 0]. *)
Definition math_atan2 (y x : R) : R :=
  match total_order_T x 0%R with
  | inleft (left _) =>
      if Rle_dec 0%R y then (atan (y / x) + PI)%R else (atan (y / x) - PI)%R
  | inleft (right _) =>
      match total_order_T y 0%R with
      | inleft (left _) => (- (PI / 2))%R
      | inleft (right _) => 0%R
      | inright _ => (PI / 2)%R
      end
  | inright _ => atan (y / x)
  end.

(** [math.degrees(r)]. *)
Definition math_degrees (r : R) : R := (r * 180 / PI)%R.

(** Modelled from the spec: the class [Vector2D] of [virtual_objects.py],
    which is not among the sources.  It is the specification's 2D point,
    with the attributes [x] and [y] that [server.py] reads: of ints for
    pixel points, of floats for positions in metres. *)
Module Vector2D.
Record t (A : Type) : Type := mk { x : A; y : A }.

Arguments mk {A} x y.
Arguments x {A} t.
Arguments y {A} t.
End Vector2D.

(** ** Tag: one detected marker *)

Module Tag.
Record t : Type := mk {
  id : Z;
  raw_tag : list (list (list Q));
  corners : list (list Q);
  tl : Vector2D.t Z;
  tr : Vector2D.t Z;
  br : Vector2D.t Z;
  bl : Vector2D.t Z;
  centre : Vector2D.t Z;
  front : Vector2D.t Z;
  angle : R
}.
End Tag.

(** [self.corners[i][j]], then [int(...)]. *)
Definition corner_coord (corners : list (list Q)) (i j : nat) : result Z :=
  c <- list_getitem corners i ;;
  f <- list_getitem c j ;;
  Ok (py_int f).

Definition corner_point (corners : list (list Q)) (i : nat)
  : result (Vector2D.t Z) :=
  px <- corner_coord corners i 0 ;;
  py <- corner_coord corners i 1 ;;
  Ok (Vector2D.mk px py).

(** [Tag.__init__(self, id, raw_tag)]; [raw_tag.tolist()] is the nested
    list of the detector's array. *)
Definition Tag_init (id : Z) (raw_tag : list (list (list Q))) : result Tag.t :=
  corners <- list_getitem raw_tag 0 ;;
  tl <- corner_point corners 0 ;;
  tr <- corner_point corners 1 ;;
  br <- corner_point corners 2 ;;
  bl <- corner_point corners 3 ;;
  let centre :=
    Vector2D.mk
      (int_truediv
         (Vector2D.x tl + Vector2D.x tr + Vector2D.x br + Vector2D.x bl) 4)
      (int_truediv
         (Vector2D.y tl + Vector2D.y tr + Vector2D.y br + Vector2D.y bl) 4) in
  let front :=
    Vector2D.mk (int_truediv (Vector2D.x tl + Vector2D.x tr) 2)
                (int_truediv (Vector2D.y tl + Vector2D.y tr) 2) in
  let angle :=
    math_degrees (math_atan2 (IZR (Vector2D.y front - Vector2D.y centre))
                             (IZR (Vector2D.x front - Vector2D.x centre))) in
  Ok (Tag.mk id raw_tag corners tl tr br bl centre front angle).

(** ** SensorReading and Robot *)

Module SensorReading.
Record t : Type := mk {
  range : R;
  bearing : R;
  orientation : R
}.
End SensorReading.

Module Robot.
Record t : Type := mk {
  tag : Tag.t;
  id : Z;
  position : Vector2D.t R;
  orientation : R;
  sensor_range : R;
  neighbours : dict Z SensorReading.t
}.

(** [robot.neighbours = nb] on the object. *)
Definition set_neighbours (r : t) (nb : dict Z SensorReading.t) : t :=
  mk (tag r) (id r) (position r) (orientation r) (sensor_range r) nb.
End Robot.

(** [Robot.__init__(self, tag, position)]. *)
Definition Robot_init (tag : Tag.t) (position : Vector2D.t R) : Robot.t :=
  Robot.mk tag (Tag.id tag) position (Tag.angle tag) (3 / 10)%R [].

(** ** Tracker *)

Module Tracker.
Record t : Type := mk {
  calibrated : bool;
  num_corner_tags : Z;
  min_x : Z;
  min_y : Z;
  max_x : Z;
  max_y : Z;
  corner_distance_metres : R;
  corner_distance_pixels : R;
  scale_factor : R;
  robots : dict Z Robot.t
}.

Definition set_robots (s : t) (rs : dict Z Robot.t) : t :=
  mk (calibrated s) (num_corner_tags s) (min_x s) (min_y s) (max_x s)
     (max_y s) (corner_distance_metres s) (corner_distance_pixels s)
     (scale_factor s) rs.

Definition set_bounds (s : t) (x0 y0 x1 y1 : Z) : t :=
  mk (calibrated s) (num_corner_tags s) x0 y0 x1 y1
     (corner_distance_metres s) (corner_distance_pixels s)
     (scale_factor s) (robots s).

Definition set_corner_distance_pixels (s : t) (d : R) : t :=
  mk (calibrated s) (num_corner_tags s) (min_x s) (min_y s) (max_x s)
     (max_y s) (corner_distance_metres s) d (scale_factor s) (robots s).

Definition set_scale_factor (s : t) (f : R) : t :=
  mk (calibrated s) (num_corner_tags s) (min_x s) (min_y s) (max_x s)
     (max_y s) (corner_distance_metres s) (corner_distance_pixels s)
     f (robots s).

Definition set_calibrated (s : t) (b : bool) : t :=
  mk b (num_corner_tags s) (min_x s) (min_y s) (max_x s)
     (max_y s) (corner_distance_metres s) (corner_distance_pixels s)
     (scale_factor s) (robots s).

Definition set_num_corner_tags (s : t) (n : Z) : t :=
  mk (calibrated s) n (min_x s) (min_y s) (max_x s)
     (max_y s) (corner_distance_metres s) (corner_distance_pixels s)
     (scale_factor s) (robots s).
End Tracker.

(** [Tracker.__init__(self)]. *)
Definition Tracker_init : Tracker.t :=
  Tracker.mk false 0 0 0 0 0 (206 / 100)%R 0%R 0%R [].

(** What the tracker thread has done with its input: worked through it, or
    died on an exception, leaving the object as it was at that moment. *)
Inductive outcome : Type :=
| Done (s : Tracker.t)
| Crashed (e : exn) (s : Tracker.t).

Definition state_of (o : outcome) : Tracker.t :=
  match o with
  | Done s => s
  | Crashed _ s => s
  end.

(** One detection as the loop sees it: [(id, raw_tag)] of
    [zip(tag_ids, raw_tags)]. *)
Definition detection : Type := (Z * list (list (list Q)))%type.

(** Lines 108-128: the branch of an uncalibrated tracker on a corner tag. *)
Definition calibrate (st : Tracker.t) (tag : Tag.t) : outcome :=
  let cx := Vector2D.x (Tag.centre tag) in
  let cy := Vector2D.y (Tag.centre tag) in
  if Tracker.num_corner_tags st =? 0 then
    let st1 := Tracker.set_bounds st cx cy cx cy in
    Done (Tracker.set_num_corner_tags st1 (Tracker.num_corner_tags st1 + 1))
  else
    let x0 := if cx <? Tracker.min_x st then cx else Tracker.min_x st in
    let x1 := if cx >? Tracker.max_x st then cx else Tracker.max_x st in
    let y0 := if cy <? Tracker.min_y st then cy else Tracker.min_y st in
    let y1 := if cy >? Tracker.max_y st then cy else Tracker.max_y st in
    let st1 := Tracker.set_bounds st x0 y0 x1 y1 in
    let st2 :=
      Tracker.set_corner_distance_pixels st1
        (math_dist (IZR x0, IZR y0) (IZR x1, IZR y1)) in
    match truediv (Tracker.corner_distance_pixels st2)
                  (Tracker.corner_distance_metres st2) with
    | Raise e => Crashed e st2
    | Ok f =>
        let st3 := Tracker.set_scale_factor st2 f in
        let st4 := Tracker.set_calibrated st3 true in
        Done (Tracker.set_num_corner_tags st4 (Tracker.num_corner_tags st4 + 1))
    end.

(** Lines 101-103: the branch of a calibrated tracker. *)
Definition track (st : Tracker.t) (id : Z) (tag : Tag.t) : outcome :=
  if negb (Tag.id tag =? 0) then
    match
      (px <- truediv (IZR (Vector2D.x (Tag.centre tag)))
                     (Tracker.scale_factor st) ;;
       py <- truediv (IZR (Vector2D.y (Tag.centre tag)))
                     (Tracker.scale_factor st) ;;
       Ok (Vector2D.mk px py))
    with
    | Raise e => Crashed e st
    | Ok position =>
        Done (Tracker.set_robots st
                (dict_set id (Robot_init tag position) (Tracker.robots st)))
    end
  else Done st.

(** Lines 96-128: the body of the loop over the detections. *)
Definition process_detection (st : Tracker.t) (d : detection) : outcome :=
  let (id, raw_tag) := d in
  match Tag_init id raw_tag with
  | Raise e => Crashed e st
  | Ok tag =>
      if Tracker.calibrated st then track st id tag
      else if Tag.id tag =? 0 then calibrate st tag
      else Done st
  end.

Fixpoint process_tags (st : Tracker.t) (ds : list detection) : outcome :=
  match ds with
  | [] => Done st
  | d :: ds' =>
      match process_detection st d with
      | Done st' => process_tags st' ds'
      | Crashed e s => Crashed e s
      end
  end.

(** Lines 140-146: robot [id] senses robot [other_id].  The robots are the
    objects held by the dictionary; [robot.neighbours[other_id] = ...]
    changes the object found under [id]. *)
Definition sense (robots : dict Z Robot.t) (pair : Z * Z) : dict Z Robot.t :=
  let (id, other_id) := pair in
  match dict_get id robots, dict_get other_id robots with
  | Some robot, Some other_robot =>
      if negb (id =? other_id) then
        let p := Robot.position robot in
        let q := Robot.position other_robot in
        let range :=
          math_dist (Vector2D.x p, Vector2D.y p) (Vector2D.x q, Vector2D.y q) in
        if Rlt_dec range (Robot.sensor_range robot) then
          let bearing :=
            math_degrees
              (math_atan2 (Vector2D.y q - Vector2D.y p)
                          (Vector2D.x q - Vector2D.x p)) in
          dict_set id
            (Robot.set_neighbours robot
               (dict_set other_id
                  (SensorReading.mk range bearing
                     (Robot.orientation other_robot))
                  (Robot.neighbours robot)))
            robots
        else robots
      else robots
  | _, _ => robots
  end.

(** The pairs [(id, other_id)] in the order of the two nested loops over
    [self.robots.items()]. *)
Definition neighbour_pairs (robots : dict Z Robot.t) : list (Z * Z) :=
  list_prod (dict_keys robots) (dict_keys robots).

(** Lines 136-146. *)
Definition neighbour_pass (robots : dict Z Robot.t) : dict Z Robot.t :=
  fold_left sense (neighbour_pairs robots) robots.

(** One turn of the [while True] loop on one frame's detections; an empty
    list stands for a frame without tags ([tag_ids is None]). *)
Definition run_cycle (st : Tracker.t) (frame : list detection) : outcome :=
  let st0 := Tracker.set_robots st [] in
  match frame with
  | [] => Done st0
  | _ :: _ =>
      match process_tags st0 frame with
      | Crashed e s => Crashed e s
      | Done st1 =>
          if Tracker.calibrated st1
          then Done (Tracker.set_robots st1 (neighbour_pass (Tracker.robots st1)))
          else Done st1
      end
  end.

(** [Tracker.run] on the frames the camera delivers, one cycle each; a
    crashed thread processes no further frame. *)
Fixpoint run (st : Tracker.t) (frames : list (list detection)) : outcome :=
  match frames with
  | [] => Done st
  | f :: fs =>
      match run_cycle st f with
      | Done st' => run st' fs
      | Crashed e s => Crashed e s
      end
  end.

(** ** Protocol server *)

(** What [json.loads] returns. *)
Inductive json : Type :=
| JNull
| JBool (b : bool)
| JInt (n : Z)
| JFloat (f : Q)
| JStr (s : string)
| JArr (items : list json)
| JObj (fields : dict string json).

(** A packet of the websocket, taken by what [json.loads] does with its
    text: it raises [JSONDecodeError] or returns a value. *)
Inductive packet : Type :=
| NotJSON
| JSON (message : json).

Definition json_loads (p : packet) : result json :=
  match p with
  | NotJSON => Raise JSONDecodeError
  | JSON message => Ok message
  end.

(** The reply under construction: a dictionary with string and int keys. *)
Inductive pykey : Type :=
| KStr (s : string)
| KInt (n : Z).

Inductive pyval : Type :=
| VTrue
| VFloat (r : R)
| VIds (ids : list Z)
| VDict (d : list (pykey * pyval)).

Definition pykey_eqb (a b : pykey) : bool :=
  match a, b with
  | KStr s, KStr s' => String.eqb s s'
  | KInt n, KInt n' => Z.eqb n n'
  | _, _ => false
  end.

#[export] Instance Hashable_pykey : Hashable pykey :=
  {| key_eqb := pykey_eqb |}.

Definition reply_dict : Type := dict pykey pyval.

(** [key in message]: key lookup in a dict, element search in a list,
    substring search in a string, [TypeError] on anything else. *)
Definition py_in (key : string) (message : json) : result bool :=
  match message with
  | JObj fields => Ok (dict_mem key fields)
  | JArr items =>
      Ok (existsb (fun j => match j with
                            | JStr s => String.eqb key s
                            | _ => false
                            end) items)
  | JStr s =>
      Ok (match String.index 0 key s with Some _ => true | None => false end)
  | JNull | JBool _ | JInt _ | JFloat _ => Raise TypeError
  end.

(** [message[key]] with a string key: only a dict has string subscripts. *)
Definition py_subscript (message : json) (key : string) : result json :=
  match message with
  | JObj fields => dict_getitem key fields
  | _ => Raise TypeError
  end.

Definition is_integral (f : Q) : bool := Z.rem (Qnum f) (Z.pos (Qden f)) =? 0.

(** [tracker.robots[id]] for the decoded [id]: ints, bools and integral
    floats hash as ints; lists and dicts are unhashable. *)
Definition robots_getitem (robots : dict Z Robot.t) (id : json)
  : result Robot.t :=
  match id with
  | JInt n => dict_getitem n robots
  | JBool b => dict_getitem (if b then 1 else 0) robots
  | JFloat f =>
      if is_integral f then dict_getitem (py_int f) robots else Raise KeyError
  | JNull | JStr _ => Raise KeyError
  | JArr _ | JObj _ => Raise TypeError
  end.

Definition reading_reply (n : SensorReading.t) : pyval :=
  VDict (dict_set (KStr "orientation") (VFloat (SensorReading.orientation n))
        (dict_set (KStr "bearing") (VFloat (SensorReading.bearing n))
        (dict_set (KStr "range") (VFloat (SensorReading.range n)) []))).

(** The loop over [neighbours.items()] filling a fresh dictionary. *)
Definition neighbours_reply (nb : dict Z SensorReading.t) : reply_dict :=
  fold_left (fun acc (item : Z * SensorReading.t) =>
               dict_set (KInt (fst item)) (reading_reply (snd item)) acc)
            nb [].

Definition robot_reply (robot : Robot.t) : pyval :=
  VDict (dict_set (KStr "neighbours")
           (VDict (neighbours_reply (Robot.neighbours robot)))
        (dict_set (KStr "orientation") (VFloat (Robot.orientation robot)) [])).

(** Lines 220-231. *)
Definition get_robot (robots : dict Z Robot.t) (message : json)
  (reply : reply_dict) : result reply_dict :=
  id <- py_subscript message "get_robot" ;;
  r <- robots_getitem robots id ;;
  let reply := dict_set (KStr "orientation") (VFloat (Robot.orientation r)) reply in
  let reply := dict_set (KStr "neighbours") (VDict []) reply in
  r' <- robots_getitem robots id ;;
  Ok (dict_set (KStr "neighbours")
        (VDict (neighbours_reply (Robot.neighbours r'))) reply).

(** Lines 233-246. *)
Definition get_robots (robots : dict Z Robot.t) (reply : reply_dict)
  : reply_dict :=
  fold_left (fun acc (item : Z * Robot.t) =>
               dict_set (KInt (fst item)) (robot_reply (snd item)) acc)
            robots reply.

(** Lines 206-250, the body of the loop for one packet, with the mapping
    that [tracker.robots] denotes while the packet is handled: [Ok (Some r)]
    when [r] is sent, [Ok None] when nothing is sent, [Raise e] when the
    exception [e] leaves the handler. *)
Definition handle_packet (robots : dict Z Robot.t) (p : packet)
  : result (option reply_dict) :=
  message <- json_loads p ;;
  let reply : reply_dict := [] in
  let send_reply := false in
  awake <- py_in "check_awake" message ;;
  let reply := if awake then dict_set (KStr "awake") VTrue reply else reply in
  let send_reply := if awake then true else send_reply in
  ids <- py_in "get_ids" message ;;
  let reply :=
    if ids then dict_set (KStr "ids") (VIds (dict_keys robots)) reply
    else reply in
  let send_reply := if ids then true else send_reply in
  one <- py_in "get_robot" message ;;
  reply <- (if one then get_robot robots message reply else Ok reply) ;;
  let send_reply := if one then true else send_reply in
  all <- py_in "get_robots" message ;;
  let reply := if all then get_robots robots reply else reply in
  let send_reply := if all then true else send_reply in
  Ok (if send_reply then Some reply else None).

(** [handler(websocket)]: the packets of one connection in order, each with
    the robot mapping current while it is handled.  The result is the list
    of replies sent and how the coroutine ended: [None] when the client
    closed the connection after the last packet, [Some e] when [e] left the
    handler, which ends the connection and leaves later packets unread. *)
Fixpoint handler (conn : list (dict Z Robot.t * packet))
  : list reply_dict * option exn :=
  match conn with
  | [] => ([], None)
  | (robots, p) :: rest =>
      match handle_packet robots p with
      | Raise e => ([], Some e)
      | Ok None => handler rest
      | Ok (Some reply) =>
          let (sent, ending) := handler rest in (reply :: sent, ending)
      end
  end.

(** ** What a concurrent reader can see

    The tracker thread and the event loop of the handlers share
    [tracker.robots] without a lock; the interpreter may switch threads
    between any two statements of [Tracker.run].  The mapping changes only
    at line 87 (a fresh empty dictionary), at line 103 (one robot stored)
    and at line 146 (one reading stored), so the values a read of
    [tracker.robots] can return during a cycle are the mapping before the
    cycle and the mappings after each of these stores. *)

Fixpoint scan_left {A B : Type} (f : A -> B -> A) (l : list B) (a : A)
  : list A :=
  match l with
  | [] => []
  | b :: l' => f a b :: scan_left f l' (f a b)
  end.

(** The tracker after each detection of the loop, up to a crash. *)
Fixpoint tags_trace (st : Tracker.t) (ds : list detection) : list Tracker.t :=
  match ds with
  | [] => []
  | d :: ds' =>
      match process_detection st d with
      | Done st' => st' :: tags_trace st' ds'
      | Crashed _ s => [s]
      end
  end.

Definition cycle_trace (st : Tracker.t) (frame : list detection)
  : list (dict Z Robot.t) :=
  let st0 := Tracker.set_robots st [] in
  Tracker.robots st :: Tracker.robots st0 ::
  match frame with
  | [] => []
  | _ :: _ =>
      map Tracker.robots (tags_trace st0 frame) ++
      match process_tags st0 frame with
      | Crashed _ _ => []
      | Done st1 =>
          if Tracker.calibrated st1
          then scan_left sense (neighbour_pairs (Tracker.robots st1))
                 (Tracker.robots st1)
          else []
      end
  end.

(** A read of [tracker.robots] made while the cycle on [frame] runs from
    the state [st] returns one of the mappings of the trace. *)
Definition reads_during (st : Tracker.t) (frame : list detection)
  (m : dict Z Robot.t) : Prop :=
  In m (cycle_trace st frame).

(** ** Statements of the specification, as predicates on the model *)

(** The sums of the corner coordinates that [Tag.__init__] divides. *)
Definition corners_x (t : Tag.t) : Z :=
  Vector2D.x (Tag.tl t) + Vector2D.x (Tag.tr t)
  + Vector2D.x (Tag.br t) + Vector2D.x (Tag.bl t).

Definition corners_y (t : Tag.t) : Z :=
  Vector2D.y (Tag.tl t) + Vector2D.y (Tag.tr t)
  + Vector2D.y (Tag.br t) + Vector2D.y (Tag.bl t).

Definition top_x (t : Tag.t) : Z := Vector2D.x (Tag.tl t) + Vector2D.x (Tag.tr t).

Definition top_y (t : Tag.t) : Z := Vector2D.y (Tag.tl t) + Vector2D.y (Tag.tr t).

(** The centre of a tag as the exact mean of its four corner points, and
    the front as the exact midpoint of the top edge. *)
Definition centre_is_mean (t : Tag.t) : Prop :=
  (IZR (Vector2D.x (Tag.centre t)) = IZR (corners_x t) / 4)%R /\
  (IZR (Vector2D.y (Tag.centre t)) = IZR (corners_y t) / 4)%R.

Definition front_is_midpoint (t : Tag.t) : Prop :=
  (IZR (Vector2D.x (Tag.front t)) = IZR (top_x t) / 2)%R /\
  (IZR (Vector2D.y (Tag.front t)) = IZR (top_y t) / 2)%R.

Definition heading_is_angle (t : Tag.t) : Prop :=
  Tag.angle t =
  math_degrees
    (math_atan2
       (IZR (Vector2D.y (Tag.front t)) - IZR (Vector2D.y (Tag.centre t)))
       (IZR (Vector2D.x (Tag.front t)) - IZR (Vector2D.x (Tag.centre t)))).

(** [c] is [s / d] truncated toward zero, for a positive [d]. *)
Definition truncated_quotient (s d c : Z) : Prop :=
  (0 <= s -> d * c <= s < d * c + d) /\
  (s <= 0 -> d * c - d < s <= d * c).

(** The detection of a one-pixel square, and a corner tag whose four
    corners sit on the pixel [(px, py)]. *)
Definition unit_square : list (list (list Q)) :=
  [[[0#1; 0#1]; [1#1; 0#1]; [1#1; 1#1]; [0#1; 1#1]]]%Q.

Definition point_tag (px py : Z) : list (list (list Q)) :=
  [[[px#1; py#1]; [px#1; py#1]; [px#1; py#1]; [px#1; py#1]]]%Q.

Definition three_corners : list (list (list Q)) :=
  [[[0#1; 0#1]; [1#1; 0#1]; [1#1; 1#1]]]%Q.

(** The tag that [Tag(7, unit_square)] builds. *)
Definition unit_square_tag : Tag.t :=
  Tag.mk 7 unit_square
    [[0#1; 0#1]; [1#1; 0#1]; [1#1; 1#1]; [0#1; 1#1]]%Q
    (Vector2D.mk 0 0) (Vector2D.mk 1 0) (Vector2D.mk 1 1) (Vector2D.mk 0 1)
    (Vector2D.mk 0 0) (Vector2D.mk 0 0)
    (math_degrees (math_atan2 (IZR (0 - 0)) (IZR (0 - 0)))).

(** What [Tag.__init__] derives from the corner points it stored: centre
    and front are truncated quotients, the heading is the angle of the
    vector between these two pixel points. *)
Definition tag_derivation (t : Tag.t) : Prop :=
  truncated_quotient (corners_x t) 4 (Vector2D.x (Tag.centre t)) /\
  truncated_quotient (corners_y t) 4 (Vector2D.y (Tag.centre t)) /\
  truncated_quotient (top_x t) 2 (Vector2D.x (Tag.front t)) /\
  truncated_quotient (top_y t) 2 (Vector2D.y (Tag.front t)) /\
  heading_is_angle t.

(** Two tags with the same corner points and derived values. *)
Definition same_geometry (t t' : Tag.t) : Prop :=
  Tag.id t = Tag.id t' /\ Tag.tl t = Tag.tl t' /\ Tag.tr t = Tag.tr t' /\
  Tag.br t = Tag.br t' /\ Tag.bl t = Tag.bl t' /\
  Tag.centre t = Tag.centre t' /\ Tag.front t = Tag.front t' /\
  Tag.angle t = Tag.angle t'.

(** The specification's handling of a malformed detection: the detection
    is set aside and the rest of the cycle goes on as if it had not been
    there. *)
Definition skips_detection (st : Tracker.t) (d : detection)
  (rest : list detection) : Prop :=
  process_tags st (d :: rest) = process_tags st rest.

Definition five_corners : list (list (list Q)) :=
  [[[0#1; 0#1]; [1#1; 0#1]; [1#1; 1#1]; [0#1; 1#1]; [9#1; 9#1]]]%Q.

(** A detection from which [Tag.__init__] builds a tag. *)
Definition well_formed (d : detection) : bool :=
  match Tag_init (fst d) (snd d) with
  | Ok _ => true
  | Raise _ => false
  end.

(** The centres of the corner tags (id 0) among the detections, in the
    order in which the loop meets them. *)
Definition corner_sightings (ds : list detection) : list (Vector2D.t Z) :=
  flat_map (fun d : detection =>
              match Tag_init (fst d) (snd d) with
              | Ok t => if Tag.id t =? 0 then [Tag.centre t] else []
              | Raise _ => []
              end) ds.

(** A pixel point as the pair of floats handed to [math.dist]. *)
Definition pixel (p : Vector2D.t Z) : R * R := (IZR (Vector2D.x p), IZR (Vector2D.y p)).

(** Two tracker states with the same calibration data: every field but
    [robots]. *)
Definition same_calibration (s s' : Tracker.t) : Prop :=
  Tracker.calibrated s' = Tracker.calibrated s /\
  Tracker.num_corner_tags s' = Tracker.num_corner_tags s /\
  Tracker.min_x s' = Tracker.min_x s /\
  Tracker.min_y s' = Tracker.min_y s /\
  Tracker.max_x s' = Tracker.max_x s /\
  Tracker.max_y s' = Tracker.max_y s /\
  Tracker.corner_distance_metres s' = Tracker.corner_distance_metres s /\
  Tracker.corner_distance_pixels s' = Tracker.corner_distance_pixels s /\
  Tracker.scale_factor s' = Tracker.scale_factor s.

(** The tracker calibrated by corner tags seen at [p1], then at [p2]. *)
Definition calibrated_by (p1 p2 : Vector2D.t Z) (s : Tracker.t) : Prop :=
  Tracker.calibrated s = true /\
  Tracker.min_x s = Z.min (Vector2D.x p1) (Vector2D.x p2) /\
  Tracker.min_y s = Z.min (Vector2D.y p1) (Vector2D.y p2) /\
  Tracker.max_x s = Z.max (Vector2D.x p1) (Vector2D.x p2) /\
  Tracker.max_y s = Z.max (Vector2D.y p1) (Vector2D.y p2) /\
  Tracker.corner_distance_metres s = (206 / 100)%R /\
  Tracker.corner_distance_pixels s = math_dist (pixel p1) (pixel p2) /\
  Tracker.scale_factor s = (math_dist (pixel p1) (pixel p2) / (206 / 100))%R.

(** The stages of calibration, with the corner sightings still to come. *)
Definition calibration_stage (p1 p2 : Vector2D.t Z) (s : Tracker.t)
  (coming : list (Vector2D.t Z)) : Prop :=
  Tracker.corner_distance_metres s = (206 / 100)%R /\
  ((Tracker.calibrated s = false /\ Tracker.num_corner_tags s = 0 /\
    exists more, coming = p1 :: p2 :: more) \/
   (Tracker.calibrated s = false /\ Tracker.num_corner_tags s <> 0 /\
    Tracker.min_x s = Vector2D.x p1 /\ Tracker.max_x s = Vector2D.x p1 /\
    Tracker.min_y s = Vector2D.y p1 /\ Tracker.max_y s = Vector2D.y p1 /\
    exists more, coming = p2 :: more) \/
   calibrated_by p1 p2 s).

(** The end-to-end scenario of the specification: corner tags at pixels
    [(0, 0)] and [(1030, 0)], in two frames, then a robot. *)
Definition arena_frames : list (list detection) :=
  [[(0, point_tag 0 0)]; [(0, point_tag 1030 0); (5, point_tag 500 0)]].

(** The same corner tag seen twice at the same place. *)
Definition stuck_frames : list (list detection) :=
  [[(0, point_tag 3 4)]; [(0, point_tag 3 4)]].

(** A tracker calibrated at 500 pixels per metre. *)
Definition tracker_500 : Tracker.t :=
  Tracker.mk true 2 0 0 1030 0 (206 / 100)%R 1030%R 500%R [].

(** The two corner tags of the scenario met in the other order. *)
Definition arena_frames_swapped : list (list detection) :=
  [[(5, point_tag 500 0); (0, point_tag 1030 0)]; [(0, point_tag 0 0)]].

(** The Euclidean distance in metres between two robots, the bearing from
    one to the other, and the reading the first takes of the second. *)
Definition robot_distance (a b : Robot.t) : R :=
  math_dist (Vector2D.x (Robot.position a), Vector2D.y (Robot.position a))
            (Vector2D.x (Robot.position b), Vector2D.y (Robot.position b)).

Definition robot_bearing (a b : Robot.t) : R :=
  math_degrees
    (math_atan2 (Vector2D.y (Robot.position b) - Vector2D.y (Robot.position a))
                (Vector2D.x (Robot.position b) - Vector2D.x (Robot.position a))).

Definition reading_of (a b : Robot.t) : SensorReading.t :=
  SensorReading.mk (robot_distance a b) (robot_bearing a b)
                   (Robot.orientation b).

Definition in_range (a b : Robot.t) : Prop :=
  (robot_distance a b < Robot.sensor_range a)%R.

(** The same robot object up to the contents of its [neighbours]. *)
Definition same_robot (r r' : Robot.t) : Prop :=
  Robot.tag r' = Robot.tag r /\ Robot.id r' = Robot.id r /\
  Robot.position r' = Robot.position r /\
  Robot.orientation r' = Robot.orientation r /\
  Robot.sensor_range r' = Robot.sensor_range r.

(** Robots as line 103 stores them: under their own id, heading taken from
    the tag, no neighbour yet. *)
Definition fresh_robots (rs : dict Z Robot.t) : Prop :=
  forall k r, dict_get k rs = Some r ->
    Robot.id r = k /\ Robot.orientation r = Tag.angle (Robot.tag r) /\
    Robot.neighbours r = [].

(** The mapping [rs'] holds the robots of [rs] after the pairs [ps] have
    been through lines 140-146. *)
Definition sensed (ps : list (Z * Z)) (rs rs' : dict Z Robot.t) : Prop :=
  forall a,
    match dict_get a rs with
    | None => dict_get a rs' = None
    | Some ra =>
        exists ra', dict_get a rs' = Some ra' /\ same_robot ra ra' /\
          forall b rd,
            dict_get b (Robot.neighbours ra') = Some rd <->
            In (a, b) ps /\ a <> b /\
            exists rb, dict_get b rs = Some rb /\ in_range ra rb /\
                       rd = reading_of ra rb
    end.

(** No robot of the mapping is filed under another id or has itself among
    its neighbours. *)
Definition no_self_neighbour (rs : dict Z Robot.t) : Prop :=
  forall k r, dict_get k rs = Some r ->
    Robot.id r = k /\ dict_get (Robot.id r) (Robot.neighbours r) = None.

(** The scenario of the specification with two robots 0.2 m apart: the
    frame, the tags and robots that the cycle builds from it at 500 pixels
    per metre, and the snapshot at the end of the cycle. *)
Definition pair_frame : list detection :=
  [(5, point_tag 0 0); (6, point_tag 100 0)].

Definition tag_at (id px py : Z) : Tag.t :=
  Tag.mk id (point_tag px py)
    [[px#1; py#1]; [px#1; py#1]; [px#1; py#1]; [px#1; py#1]]%Q
    (Vector2D.mk px py) (Vector2D.mk px py) (Vector2D.mk px py) (Vector2D.mk px py)
    (Vector2D.mk px py) (Vector2D.mk px py)
    (math_degrees (math_atan2 (IZR (py - py)) (IZR (px - px)))).

Definition robot_at (id px py : Z) : Robot.t :=
  Robot_init (tag_at id px py) (Vector2D.mk (IZR px / 500)%R (IZR py / 500)%R).

Definition pair_snapshot : Tracker.t :=
  Tracker.set_robots tracker_500
    [(5, Robot.set_neighbours (robot_at 5 0 0)
           [(6, reading_of (robot_at 5 0 0) (robot_at 6 100 0))]);
     (6, Robot.set_neighbours (robot_at 6 100 0)
           [(5, reading_of (robot_at 6 100 0) (robot_at 5 0 0))])].

(** The specification's handling of a packet that cannot be decoded: the
    packet is dropped and the connection serves the packets after it as if
    it had not been sent. *)
Definition drops_packet (robots : dict Z Robot.t) (p : packet)
  (rest : list (dict Z Robot.t * packet)) : Prop :=
  handler ((robots, p) :: rest) = handler rest.

(** The specification's handling of a request: a reply is sent and the
    handler goes on (for an unknown id, a reply with an error indicator). *)
Definition is_answered (robots : dict Z Robot.t) (message : json) : Prop :=
  exists reply, handle_packet robots (JSON message) = Ok (Some reply).

(** JSON null, booleans and numbers. *)
Definition is_scalar (message : json) : bool :=
  match message with
  | JNull | JBool _ | JInt _ | JFloat _ => true
  | JStr _ | JArr _ | JObj _ => false
  end.

(** None of the four field names is found in the decoded message. *)
Definition finds_no_field (message : json) : Prop :=
  py_in "check_awake" message = Ok false /\
  py_in "get_ids" message = Ok false /\
  py_in "get_robot" message = Ok false /\
  py_in "get_robots" message = Ok false.

Definition awake_request : json :=
  JObj [("check_awake"%string, JBool true); ("get_ids"%string, JBool true)].

Definition robot_request (n : Z) : json := JObj [("get_robot"%string, JInt n)].

(** Snapshot atomicity as the specification states it: a read made while
    a cycle runs returns the complete mapping of the cycle before or the
    complete mapping of this cycle. *)
Definition atomic_reads (st : Tracker.t) (frame : list detection) : Prop :=
  forall m, reads_during st frame m ->
    m = Tracker.robots st \/
    m = Tracker.robots (state_of (run_cycle st frame)).

(** Every robot of [m] was built from a detection of [frame]. *)
Definition from_frame (frame : list detection) (m : dict Z Robot.t) : Prop :=
  forall k r, dict_get k m = Some r ->
    Robot.id r = k /\
    exists raw, In (k, raw) frame /\ Tag_init k raw = Ok (Robot.tag r).

(** [m] is the mapping of the cycle on [frame] under construction, [final]
    being the mapping the cycle ends with: its robots come from the frame,
    its ids are ids of [final], and its readings are readings of [final]. *)
Definition under_construction (frame : list detection)
  (m final : dict Z Robot.t) : Prop :=
  from_frame frame m /\
  (forall k, In k (dict_keys m) -> In k (dict_keys final)) /\
  (forall k r b rd,
     dict_get k m = Some r -> dict_get b (Robot.neighbours r) = Some rd ->
     exists r', dict_get k final = Some r' /\
                dict_get b (Robot.neighbours r') = Some rd).

(** ** Further code and statements *)

(** Lines 168-170: for each key of [robot.neighbours] the drawing code
    looks the neighbour up in [self.robots] and draws a line from the
    robot's tag centre to the neighbour's; the result is the list of these
    segments. *)
Fixpoint neighbour_lines (robots : dict Z Robot.t) (centre : Vector2D.t Z)
  (neighbour_ids : list Z) : result (list (Vector2D.t Z * Vector2D.t Z)) :=
  match neighbour_ids with
  | [] => Ok []
  | neighbour_id :: rest =>
      neighbour <- dict_getitem neighbour_id robots ;;
      lines <- neighbour_lines robots centre rest ;;
      Ok ((centre, Tag.centre (Robot.tag neighbour)) :: lines)
  end.

Definition draw_neighbours (robots : dict Z Robot.t) (robot : Robot.t)
  : result (list (Vector2D.t Z * Vector2D.t Z)) :=
  neighbour_lines robots (Tag.centre (Robot.tag robot))
    (dict_keys (Robot.neighbours robot)).

(** A robot as line 102-103 and [Robot.__init__] make it from its tag at
    the scale factor [sf], filed under [k]. *)
Definition posed (sf : R) (k : Z) (r : Robot.t) : Prop :=
  k <> 0 /\ Robot.id r = k /\ Tag.id (Robot.tag r) = k /\
  Robot.position r =
    Vector2D.mk (IZR (Vector2D.x (Tag.centre (Robot.tag r))) / sf)%R
                (IZR (Vector2D.y (Tag.centre (Robot.tag r))) / sf)%R /\
  Robot.orientation r = Tag.angle (Robot.tag r) /\
  Robot.sensor_range r = (3 / 10)%R.

(** The mapping [rs] as the loop over the detections of [frame] builds it
    in the tracker state [st]. *)
Definition tracked (frame : list detection) (st : Tracker.t)
  (rs : dict Z Robot.t) : Prop :=
  fresh_robots rs /\ from_frame frame rs /\ NoDup (dict_keys rs) /\
  (Tracker.calibrated st = false -> rs = []) /\
  (rs <> [] -> Tracker.scale_factor st <> 0%R) /\
  forall k r, dict_get k rs = Some r -> posed (Tracker.scale_factor st) k r.

(** An angle in degrees within the half-open turn [(-180, 180]]. *)
Definition in_half_turn (a : R) : Prop := (-180 < a <= 180)%R.

(** The calibration data of a tracker that started from
    [Tracker.__init__]. *)
Definition calibration_ok (st : Tracker.t) : Prop :=
  Tracker.corner_distance_metres st = (206 / 100)%R /\
  (0 <= Tracker.scale_factor st)%R /\
  Tracker.min_x st <= Tracker.max_x st /\
  Tracker.min_y st <= Tracker.max_y st /\
  ((Tracker.calibrated st = false /\ Tracker.scale_factor st = 0%R /\
    (Tracker.num_corner_tags st = 0 \/
     Tracker.num_corner_tags st = 1 /\
     Tracker.min_x st = Tracker.max_x st /\
     Tracker.min_y st = Tracker.max_y st)) \/
   (Tracker.calibrated st = true /\ Tracker.num_corner_tags st = 2 /\
    Tracker.scale_factor st =
      (math_dist (IZR (Tracker.min_x st), IZR (Tracker.min_y st))
                 (IZR (Tracker.max_x st), IZR (Tracker.max_y st))
       / (206 / 100))%R)).

(** The tracker cannot divide by zero on the detections to come: it is
    calibrated with a scale factor other than zero, or the corner sighting
    that will complete its calibration differs from the first one. *)
Definition division_safe (st : Tracker.t) (coming : list (Vector2D.t Z))
  : Prop :=
  Tracker.corner_distance_metres st = (206 / 100)%R /\
  if Tracker.calibrated st then Tracker.scale_factor st <> 0%R
  else if Tracker.num_corner_tags st =? 0 then
    forall p1 p2 more, coming = p1 :: p2 :: more -> p1 <> p2
  else
    Tracker.min_x st = Tracker.max_x st /\
    Tracker.min_y st = Tracker.max_y st /\
    forall p2 more, coming = p2 :: more ->
      p2 <> Vector2D.mk (Tracker.min_x st) (Tracker.min_y st).

(** An uncalibrated tracker without robots that the corner sightings to
    come cannot calibrate. *)
Definition short_of_corners (st : Tracker.t) (coming : list (Vector2D.t Z))
  : Prop :=
  Tracker.calibrated st = false /\ Tracker.robots st = [] /\
  Tracker.scale_factor st = 0%R /\
  (coming = [] \/
   Tracker.num_corner_tags st = 0 /\ exists p, coming = [p]).

(** One of the four field names is a key of the request object. *)
Definition recognized (fields : dict string json) : bool :=
  dict_mem "check_awake"%string fields || dict_mem "get_ids"%string fields
  || dict_mem "get_robot"%string fields || dict_mem "get_robots"%string fields.

(** Frames with robots and a single corner sighting. *)
Definition lone_corner_frames : list (list detection) :=
  [[(5, point_tag 500 0); (0, point_tag 3 4)]; [(6, point_tag 100 0)]].


Definition all_robots_request : dict string json :=
  [("get_robots"%string, JBool true)].


(* ================================================================== *)
(** * Part II: properties                                               *)
(* ================================================================== *)

(** ** Dictionaries *)

#[export] Instance HashableLaws_Z : HashableLaws Z.
Proof. constructor. exact Z.eqb_eq. Qed.

#[export] Instance HashableLaws_string : HashableLaws string.
Proof. constructor. exact String.eqb_eq. Qed.

#[export] Instance HashableLaws_pykey : HashableLaws pykey.
Proof.
  constructor. intros [s|n] [s'|n']; simpl.
  - rewrite String.eqb_eq. split; congruence.
  - split; discriminate.
  - split; discriminate.
  - rewrite Z.eqb_eq. split; congruence.
Qed.

Section DictFacts.
Context {K V : Type} `{HashableLaws K}.

Lemma key_eqb_refl (k : K) : key_eqb k k = true.
Proof. apply key_eqb_eq. reflexivity. Qed.

Lemma key_eqb_neq (k k' : K) : k <> k' -> key_eqb k k' = false.
Proof.
  intros Hne. destruct (key_eqb k k') eqn:E; [|reflexivity].
  apply key_eqb_eq in E. contradiction.
Qed.

Lemma dict_get_set_same (k : K) (v : V) (d : dict K V) :
  dict_get k (dict_set k v d) = Some v.
Proof.
  induction d as [|[k' v'] d IH]; simpl.
  - now rewrite key_eqb_refl.
  - destruct (key_eqb k k') eqn:E; simpl.
    + now rewrite key_eqb_refl.
    + now rewrite E.
Qed.

Lemma dict_get_set_other (k k' : K) (v : V) (d : dict K V) :
  k <> k' -> dict_get k' (dict_set k v d) = dict_get k' d.
Proof.
  intros Hne. induction d as [|[k0 v0] d IH]; simpl.
  - rewrite key_eqb_neq; [reflexivity | congruence].
  - destruct (key_eqb k k0) eqn:E; simpl.
    + apply key_eqb_eq in E. subst k0.
      rewrite key_eqb_neq; [reflexivity | congruence].
    + now rewrite IH.
Qed.

Lemma dict_get_in_keys (k : K) (d : dict K V) :
  In k (dict_keys d) <-> exists v, dict_get k d = Some v.
Proof.
  induction d as [|[k0 v0] d IH]; simpl.
  - split; [tauto | intros [v Hv]; discriminate].
  - destruct (key_eqb k k0) eqn:E.
    + apply key_eqb_eq in E. subst. split; eauto.
    + rewrite <- IH. split; [|tauto].
      intros [Heq | Hin]; [|assumption].
      subst. rewrite key_eqb_refl in E. discriminate.
Qed.

Lemma dict_keys_set_in (k k' : K) (v : V) (d : dict K V) :
  In k' (dict_keys (dict_set k v d)) <-> k' = k \/ In k' (dict_keys d).
Proof.
  rewrite !dict_get_in_keys.
  destruct (key_eqb k k') eqn:E.
  - apply key_eqb_eq in E. subst k'. rewrite dict_get_set_same.
    split; eauto.
  - assert (k <> k') as Hne by (intros ->; rewrite key_eqb_refl in E; discriminate).
    rewrite dict_get_set_other by assumption.
    split; [tauto | intros [Heq | Hv]; [congruence | assumption]].
Qed.
End DictFacts.

(** ** Fallible results *)

Lemma bind_Ok_inv {A B : Type} (r : result A) (k : A -> result B) (b : B) :
  bind r k = Ok b -> exists a, r = Ok a /\ k a = Ok b.
Proof. destruct r as [a|e]; simpl; [eauto | discriminate]. Qed.

Lemma bind_Raise_inv {A B : Type} (r : result A) (k : A -> result B) (e : exn) :
  bind r k = Raise e -> r = Raise e \/ exists a, r = Ok a /\ k a = Raise e.
Proof. destruct r as [a|e']; simpl; [eauto | intros [= ->]; now left]. Qed.

Ltac bind_inv H :=
  let a := fresh "a" in
  let Ha := fresh "Ha" in
  apply bind_Ok_inv in H; destruct H as (a & Ha & H).

(** ** Tag resolver *)

Lemma list_getitem_raises {A : Type} (l : list A) (i : nat) (e : exn) :
  list_getitem l i = Raise e -> e = IndexError.
Proof. unfold list_getitem. destruct (nth_error l i); congruence. Qed.

Lemma list_getitem_Ok {A : Type} (l : list A) (i : nat) (a : A) :
  list_getitem l i = Ok a -> nth_error l i = Some a.
Proof. unfold list_getitem. destruct (nth_error l i); congruence. Qed.

Lemma corner_coord_raises (cs : list (list Q)) (i j : nat) (e : exn) :
  corner_coord cs i j = Raise e -> e = IndexError.
Proof.
  unfold corner_coord. intros H.
  apply bind_Raise_inv in H as [H | (c & _ & H)];
    [now apply list_getitem_raises in H|].
  apply bind_Raise_inv in H as [H | (f & _ & H)];
    [now apply list_getitem_raises in H | discriminate].
Qed.

Lemma corner_point_raises (cs : list (list Q)) (i : nat) (e : exn) :
  corner_point cs i = Raise e -> e = IndexError.
Proof.
  unfold corner_point. intros H.
  apply bind_Raise_inv in H as [H | (px & _ & H)];
    [now apply corner_coord_raises in H|].
  apply bind_Raise_inv in H as [H | (py & _ & H)];
    [now apply corner_coord_raises in H | discriminate].
Qed.

Lemma corner_point_Ok (cs : list (list Q)) (i : nat) (p : Vector2D.t Z) :
  corner_point cs i = Ok p -> (i < List.length cs)%nat.
Proof.
  unfold corner_point, corner_coord. intros H.
  bind_inv H. bind_inv Ha. apply list_getitem_Ok in Ha0.
  apply nth_error_Some. congruence.
Qed.

(** The only exception of [Tag.__init__] is [IndexError]. *)
Lemma Tag_init_raises (id : Z) (raw : list (list (list Q))) (e : exn) :
  Tag_init id raw = Raise e -> e = IndexError.
Proof.
  unfold Tag_init. intros H.
  apply bind_Raise_inv in H as [H | (cs & _ & H)];
    [now apply list_getitem_raises in H|].
  repeat (apply bind_Raise_inv in H as [H | (? & _ & H)];
          [now apply corner_point_raises in H|]).
  discriminate.
Qed.

(** The fields of a tag that was built. *)
Lemma Tag_init_Ok (id : Z) (raw : list (list (list Q))) (t : Tag.t) :
  Tag_init id raw = Ok t ->
  exists cs,
    nth_error raw 0 = Some cs /\ (4 <= List.length cs)%nat /\
    corner_point cs 0 = Ok (Tag.tl t) /\ corner_point cs 1 = Ok (Tag.tr t) /\
    corner_point cs 2 = Ok (Tag.br t) /\ corner_point cs 3 = Ok (Tag.bl t) /\
    Tag.id t = id /\
    Tag.centre t =
      Vector2D.mk (int_truediv (corners_x t) 4) (int_truediv (corners_y t) 4) /\
    Tag.front t =
      Vector2D.mk (int_truediv (top_x t) 2) (int_truediv (top_y t) 2) /\
    Tag.angle t =
      math_degrees
        (math_atan2
           (IZR (Vector2D.y (Tag.front t) - Vector2D.y (Tag.centre t)))
           (IZR (Vector2D.x (Tag.front t) - Vector2D.x (Tag.centre t)))).
Proof.
  unfold Tag_init. intros H.
  apply bind_Ok_inv in H as (cs & Hcs & H).
  apply bind_Ok_inv in H as (p0 & H0 & H).
  apply bind_Ok_inv in H as (p1 & H1 & H).
  apply bind_Ok_inv in H as (p2 & H2 & H).
  apply bind_Ok_inv in H as (p3 & H3 & H).
  injection H as <-. simpl.
  exists cs. apply list_getitem_Ok in Hcs.
  pose proof (corner_point_Ok _ _ _ H3).
  repeat split; auto; lia.
Qed.

Lemma int_truediv_truncates (s d : Z) :
  0 < d -> truncated_quotient s d (int_truediv s d).
Proof.
  intros Hd. unfold truncated_quotient, int_truediv.
  pose proof (Z.quot_rem' s d) as Hqr.
  split; intros Hs.
  - pose proof (Z.rem_bound_pos s d Hs Hd). lia.
  - pose proof (Z.rem_bound_pos_neg s d Hd Hs). lia.
Qed.

Example Tag_init_unit_square : Tag_init 7 unit_square = Ok unit_square_tag.
Proof. reflexivity. Qed.

(** C9, as the code has it: for every tag that [Tag.__init__] builds, the
    centre is the mean of the four stored corner points with each
    coordinate truncated toward zero, the front is the midpoint of the top
    edge truncated toward zero, and the heading is the angle in degrees of
    the vector from that centre to that front. *)
Theorem Tag_init_derivation (id : Z) (raw : list (list (list Q))) (t : Tag.t) :
  Tag_init id raw = Ok t -> tag_derivation t.
Proof.
  intros H. apply Tag_init_Ok in H
    as (cs & _ & _ & _ & _ & _ & _ & _ & Hc & Hf & Ha).
  unfold tag_derivation, heading_is_angle.
  rewrite Ha, <- !minus_IZR.
  split; [rewrite Hc; apply int_truediv_truncates; lia|].
  split; [rewrite Hc; apply int_truediv_truncates; lia|].
  split; [rewrite Hf; apply int_truediv_truncates; lia|].
  split; [rewrite Hf; apply int_truediv_truncates; lia | reflexivity].
Qed.

Lemma Tag_init_derivation_witness :
  Tag_init 7 unit_square = Ok unit_square_tag /\
  tag_derivation unit_square_tag.
Proof.
  split; [reflexivity|].
  apply (Tag_init_derivation 7 unit_square). reflexivity.
Defined.

(** C9 as the specification states it fails on the one-pixel square: the
    exact mean of the corners is [(1/2, 1/2)] and the exact midpoint of the
    top edge is [(1/2, 0)], the tag has [(0, 0)] for both. *)
Lemma Tag_centre_not_mean :
  Tag_init 7 unit_square = Ok unit_square_tag /\
  ~ (centre_is_mean unit_square_tag /\ front_is_midpoint unit_square_tag /\
     heading_is_angle unit_square_tag).
Proof.
  split; [reflexivity|].
  intros [[Hx _] _]. unfold corners_x in Hx. simpl in Hx. lra.
Qed.

(** ** Malformed detections *)

Lemma process_tags_app (st : Tracker.t) (pre rest : list detection) :
  process_tags st (pre ++ rest) =
  match process_tags st pre with
  | Done st' => process_tags st' rest
  | Crashed e s => Crashed e s
  end.
Proof.
  revert st. induction pre as [|d pre IH]; intros st; simpl; [reflexivity|].
  destruct (process_detection st d); [apply IH | reflexivity].
Qed.

Lemma Tag_init_short (id : Z) (raw : list (list (list Q))) (cs : list (list Q)) :
  nth_error raw 0 = Some cs -> (List.length cs < 4)%nat ->
  Tag_init id raw = Raise IndexError.
Proof.
  intros Hraw Hlen. destruct (Tag_init id raw) as [t|e] eqn:E.
  - apply Tag_init_Ok in E as (cs' & Hcs' & Hlen' & _).
    rewrite Hraw in Hcs'. injection Hcs' as <-. lia.
  - now rewrite (Tag_init_raises _ _ _ E).
Qed.

Lemma Tag_init_firstn (id : Z) (raw : list (list (list Q)))
  (cs : list (list Q)) (t : Tag.t) :
  nth_error raw 0 = Some cs ->
  Tag_init id [firstn 4 cs] = Ok t ->
  exists t', Tag_init id raw = Ok t' /\ same_geometry t t'.
Proof.
  intros Hraw Ht.
  assert (forall i, (i < 4)%nat ->
            corner_point (firstn 4 cs) i = corner_point cs i) as Hpt.
  { intros i Hi. unfold corner_point, corner_coord, list_getitem.
    destruct cs as [|c0 [|c1 [|c2 [|c3 cs']]]]; try reflexivity.
    destruct i as [|[|[|[|i]]]]; try reflexivity. lia. }
  unfold Tag_init in *.
  assert (list_getitem raw 0 = Ok cs) as ->
    by (unfold list_getitem; now rewrite Hraw).
  simpl in Ht. simpl.
  rewrite !Hpt in Ht by lia.
  destruct (corner_point cs 0) as [p0|]; [simpl in *|discriminate].
  destruct (corner_point cs 1) as [p1|]; [simpl in *|discriminate].
  destruct (corner_point cs 2) as [p2|]; [simpl in *|discriminate].
  destruct (corner_point cs 3) as [p3|]; [simpl in *|discriminate].
  injection Ht as <-. eexists. split; [reflexivity|].
  unfold same_geometry. simpl. tauto.
Qed.

(** C3, as the code has it: a detection whose corner list has fewer than 4
    corners makes [Tag.__init__] raise [IndexError]; nothing catches it, so
    the loop stops at that detection with the state reached so far and the
    remaining detections of the cycle are not processed.  A corner list
    with more than 4 corners is not rejected: the tag is the one built from
    its first 4 corners. *)
Theorem malformed_detection_aborts (id : Z) (raw : list (list (list Q)))
  (cs : list (list Q)) :
  nth_error raw 0 = Some cs ->
  ((List.length cs < 4)%nat ->
   Tag_init id raw = Raise IndexError /\
   forall st pre st' rest,
     process_tags (Tracker.set_robots st []) pre = Done st' ->
     process_tags (Tracker.set_robots st []) (pre ++ (id, raw) :: rest)
       = Crashed IndexError st' /\
     run_cycle st (pre ++ (id, raw) :: rest) = Crashed IndexError st') /\
  (forall t, Tag_init id [firstn 4 cs] = Ok t ->
     exists t', Tag_init id raw = Ok t' /\ same_geometry t t').
Proof.
  intros Hraw. split.
  - intros Hlen. pose proof (Tag_init_short id raw cs Hraw Hlen) as Hinit.
    split; [assumption|]. intros st pre st' rest Hpre.
    assert (process_tags (Tracker.set_robots st []) (pre ++ (id, raw) :: rest)
            = Crashed IndexError st') as Hcrash.
    { rewrite process_tags_app, Hpre. simpl. now rewrite Hinit. }
    split; [assumption|].
    unfold run_cycle. rewrite Hcrash.
    destruct (pre ++ (id, raw) :: rest) eqn:E; [|reflexivity].
    now destruct pre.
  - intros t. now apply Tag_init_firstn.
Qed.

Lemma malformed_detection_aborts_witness :
  (Tag_init 5 three_corners = Raise IndexError /\
   run_cycle Tracker_init [(5, three_corners); (0, point_tag 0 0)]
     = Crashed IndexError Tracker_init) /\
  (exists t', Tag_init 5 five_corners = Ok t' /\ same_geometry
     (Tag.mk 5 unit_square [[0#1; 0#1]; [1#1; 0#1]; [1#1; 1#1]; [0#1; 1#1]]%Q
        (Vector2D.mk 0 0) (Vector2D.mk 1 0) (Vector2D.mk 1 1) (Vector2D.mk 0 1)
        (Vector2D.mk 0 0) (Vector2D.mk 0 0)
        (math_degrees (math_atan2 (IZR (0 - 0)) (IZR (0 - 0))))) t').
Proof.
  split.
  - destruct (malformed_detection_aborts 5 three_corners
                [[0#1; 0#1]; [1#1; 0#1]; [1#1; 1#1]]%Q eq_refl) as [H _].
    destruct (H ltac:(simpl; lia)) as [Hinit Hrun].
    split; [exact Hinit|].
    exact (proj2 (Hrun Tracker_init [] Tracker_init [(0, point_tag 0 0)] eq_refl)).
  - destruct (malformed_detection_aborts 5 five_corners
                [[0#1; 0#1]; [1#1; 0#1]; [1#1; 1#1]; [0#1; 1#1]; [9#1; 9#1]]%Q
                eq_refl) as [_ H].
    apply H. reflexivity.
Defined.

(** C3 as the specification states it fails: the three-corner detection is
    not set aside, the corner tag that follows it is never processed. *)
Lemma malformed_detection_not_skipped :
  ~ skips_detection Tracker_init (5, three_corners) [(0, point_tag 0 0)].
Proof.
  unfold skips_detection. simpl. discriminate.
Qed.

(** ** Calibration *)

Lemma math_dist_sym (p q : R * R) : math_dist p q = math_dist q p.
Proof. unfold math_dist. f_equal. ring. Qed.

(** The distance between the extreme points of the bounding box of two
    points is the distance between the points. *)
Lemma math_dist_bounding_box (p1 p2 : Vector2D.t Z) :
  math_dist
    (IZR (Z.min (Vector2D.x p1) (Vector2D.x p2)),
     IZR (Z.min (Vector2D.y p1) (Vector2D.y p2)))
    (IZR (Z.max (Vector2D.x p1) (Vector2D.x p2)),
     IZR (Z.max (Vector2D.y p1) (Vector2D.y p2)))
  = math_dist (pixel p1) (pixel p2).
Proof.
  unfold math_dist, pixel. simpl. f_equal.
  destruct (Z.le_ge_cases (Vector2D.x p1) (Vector2D.x p2)) as [Hx | Hx];
  destruct (Z.le_ge_cases (Vector2D.y p1) (Vector2D.y p2)) as [Hy | Hy];
    rewrite ?(Z.min_l _ _ Hx), ?(Z.max_r _ _ Hx), ?(Z.min_r _ _ Hx),
            ?(Z.max_l _ _ Hx), ?(Z.min_l _ _ Hy), ?(Z.max_r _ _ Hy),
            ?(Z.min_r _ _ Hy), ?(Z.max_l _ _ Hy);
    ring.
Qed.

Lemma math_dist_zero_iff (p1 p2 : Vector2D.t Z) :
  math_dist (pixel p1) (pixel p2) = 0%R <-> p1 = p2.
Proof.
  unfold math_dist, pixel. simpl. split.
  - intros H0.
    set (dx := (IZR (Vector2D.x p1) - IZR (Vector2D.x p2))%R) in *.
    set (dy := (IZR (Vector2D.y p1) - IZR (Vector2D.y p2))%R) in *.
    assert (0 <= dx * dx + dy * dy)%R as Hnn by nra.
    apply sqrt_eq_0 in H0; [|assumption].
    assert (dx = 0 /\ dy = 0)%R as [Hx Hy] by (split; nra).
    unfold dx in Hx. unfold dy in Hy.
    apply Rminus_diag_uniq in Hx, Hy. apply eq_IZR in Hx, Hy.
    destruct p1, p2. simpl in *. congruence.
  - intros ->.
    set (px := IZR (Vector2D.x p2)). set (py := IZR (Vector2D.y p2)).
    replace ((px - px) * (px - px) + (py - py) * (py - py))%R
      with 0%R by ring.
    apply sqrt_0.
Qed.

Lemma same_calibration_refl (s : Tracker.t) : same_calibration s s.
Proof. unfold same_calibration. tauto. Qed.

Lemma same_calibration_trans (s1 s2 s3 : Tracker.t) :
  same_calibration s1 s2 -> same_calibration s2 s3 -> same_calibration s1 s3.
Proof. unfold same_calibration. intuition congruence. Qed.

Lemma same_calibration_set_robots (s : Tracker.t) (rs : dict Z Robot.t) :
  same_calibration s (Tracker.set_robots s rs).
Proof. unfold same_calibration. simpl. tauto. Qed.

(** A calibrated tracker writes to [robots] only. *)
Lemma track_same_calibration (st : Tracker.t) (id : Z) (tag : Tag.t) :
  same_calibration st (state_of (track st id tag)).
Proof.
  unfold track. destruct (negb (Tag.id tag =? 0)).
  - destruct (bind _ _); simpl;
      [apply same_calibration_set_robots | apply same_calibration_refl].
  - apply same_calibration_refl.
Qed.

Lemma process_detection_calibrated (st : Tracker.t) (d : detection) :
  Tracker.calibrated st = true ->
  same_calibration st (state_of (process_detection st d)).
Proof.
  intros Hc. destruct d as [id raw]. unfold process_detection.
  destruct (Tag_init id raw) as [tag|e]; [|apply same_calibration_refl].
  rewrite Hc. apply track_same_calibration.
Qed.

Lemma process_tags_calibrated (ds : list detection) (st : Tracker.t) :
  Tracker.calibrated st = true ->
  same_calibration st (state_of (process_tags st ds)).
Proof.
  revert st. induction ds as [|d ds IH]; intros st Hc; simpl.
  - apply same_calibration_refl.
  - pose proof (process_detection_calibrated st d Hc) as Hd.
    destruct (process_detection st d) as [st'|e s]; simpl in *; [|assumption].
    apply (same_calibration_trans _ st'); [assumption|].
    apply IH. destruct Hd as [-> _]. assumption.
Qed.

Lemma run_cycle_calibrated (st : Tracker.t) (frame : list detection) :
  Tracker.calibrated st = true ->
  same_calibration st (state_of (run_cycle st frame)).
Proof.
  intros Hc. unfold run_cycle.
  destruct frame as [|d ds]; [apply same_calibration_set_robots|].
  pose proof (process_tags_calibrated (d :: ds) (Tracker.set_robots st [])
                Hc) as Hp.
  apply (same_calibration_trans _ _ _ (same_calibration_set_robots st [])) in Hp.
  destruct (process_tags _ _) as [st1|e s]; simpl in *; [|assumption].
  destruct (Tracker.calibrated st1); simpl; [|assumption].
  apply (same_calibration_trans _ st1); [assumption|].
  apply same_calibration_set_robots.
Qed.

Lemma run_calibrated (frames : list (list detection)) (st : Tracker.t) :
  Tracker.calibrated st = true ->
  same_calibration st (state_of (run st frames)).
Proof.
  revert st. induction frames as [|f fs IH]; intros st Hc; simpl.
  - apply same_calibration_refl.
  - pose proof (run_cycle_calibrated st f Hc) as Hf.
    destruct (run_cycle st f) as [st'|e s]; simpl in *; [|assumption].
    apply (same_calibration_trans _ st'); [assumption|].
    apply IH. destruct Hf as [-> _]. assumption.
Qed.

Lemma calibrated_by_same (p1 p2 : Vector2D.t Z) (s s' : Tracker.t) :
  same_calibration s s' -> calibrated_by p1 p2 s -> calibrated_by p1 p2 s'.
Proof.
  unfold same_calibration, calibrated_by.
  intros (-> & _ & -> & -> & -> & -> & -> & -> & ->). tauto.
Qed.

Lemma calibration_stage_same (p1 p2 : Vector2D.t Z) (s s' : Tracker.t)
  (coming : list (Vector2D.t Z)) :
  same_calibration s s' ->
  calibration_stage p1 p2 s coming -> calibration_stage p1 p2 s' coming.
Proof.
  intros Hs [Hm Hst]. split.
  { destruct Hs as (_ & _ & _ & _ & _ & _ & -> & _). exact Hm. }
  destruct Hst as [Ha | [Hb | Hc]].
  - left. destruct Hs as (-> & -> & _). exact Ha.
  - right; left. destruct Hs as (-> & -> & -> & -> & -> & -> & _). exact Hb.
  - right; right. now apply (calibrated_by_same p1 p2 s).
Qed.

Lemma calibration_stage_end (p1 p2 : Vector2D.t Z) (s : Tracker.t) :
  calibration_stage p1 p2 s [] -> calibrated_by p1 p2 s.
Proof.
  intros [_ [(_ & _ & more & H) | [(_ & _ & _ & _ & _ & _ & more & H) | H]]];
    [discriminate | discriminate | exact H].
Qed.

(** The four comparisons of lines 115-122 on a box that is one point. *)
Lemma widen_min (m c : Z) : (if c <? m then c else m) = Z.min m c.
Proof. destruct (Z.ltb_spec c m); lia. Qed.

Lemma widen_max (m c : Z) : (if c >? m then c else m) = Z.max m c.
Proof. rewrite Z.gtb_ltb. destruct (Z.ltb_spec m c); lia. Qed.

Lemma truediv_metres (a : R) : truediv a (206 / 100) = Ok (a / (206 / 100))%R.
Proof. unfold truediv. destruct (Req_dec_T (206 / 100) 0); [lra | reflexivity]. Qed.

(** One well-formed detection moves the calibration forward by the corner
    sighting it carries, if any; only a calibrated tracker can crash. *)
Lemma process_detection_stage (p1 p2 : Vector2D.t Z) (st : Tracker.t)
  (d : detection) (coming : list (Vector2D.t Z)) :
  well_formed d = true ->
  calibration_stage p1 p2 st (corner_sightings [d] ++ coming) ->
  match process_detection st d with
  | Done st' => calibration_stage p1 p2 st' coming
  | Crashed _ st' => calibrated_by p1 p2 st'
  end.
Proof.
  destruct d as [id raw]. unfold well_formed, corner_sightings, process_detection.
  simpl. destruct (Tag_init id raw) as [t|e]; [intros _ | discriminate].
  rewrite app_nil_r. intros [Hm Hst].
  destruct Hst as [(Hc & Hn & more & Hcoming) | [Hb | Hcal]].
  - (* no corner tag seen yet *)
    rewrite Hc. destruct (Tag.id t =? 0); simpl in *.
    + injection Hcoming as Hp1 Hrest.
      unfold calibrate. rewrite Hn. simpl.
      split; [exact Hm|]. right; left. simpl.
      rewrite Hc, Hn, Hp1. repeat split; try lia; eauto.
    + split; [exact Hm|]. left. eauto.
  - (* one corner tag seen *)
    destruct Hb as (Hc & Hn & Hx0 & Hx1 & Hy0 & Hy1 & more & Hcoming).
    rewrite Hc. destruct (Tag.id t =? 0); simpl in *.
    + injection Hcoming as Hp2 Hrest.
      unfold calibrate. apply Z.eqb_neq in Hn. rewrite Hn. simpl.
      rewrite Hm, truediv_metres. simpl.
      split; [exact Hm|]. right; right.
      unfold calibrated_by. simpl.
      rewrite Hx0, Hx1, Hy0, Hy1, Hp2, Hm, <- math_dist_bounding_box.
      rewrite !widen_min, !widen_max.
      repeat split; reflexivity.
    + split; [exact Hm|]. right; left. repeat split; eauto.
  - (* calibrated *)
    pose proof Hcal as (Hc & _). rewrite Hc.
    pose proof (track_same_calibration st id t) as Hs.
    destruct (track st id t) as [st'|e' st']; simpl in Hs.
    + apply (calibration_stage_same p1 p2 st); [exact Hs|].
      split; [exact Hm | now right; right].
    + now apply (calibrated_by_same p1 p2 st).
Qed.

Lemma corner_sightings_app (a b : list detection) :
  corner_sightings (a ++ b) = corner_sightings a ++ corner_sightings b.
Proof. unfold corner_sightings. apply flat_map_app. Qed.

Lemma process_tags_stage (p1 p2 : Vector2D.t Z) (ds : list detection)
  (st : Tracker.t) (coming : list (Vector2D.t Z)) :
  forallb well_formed ds = true ->
  calibration_stage p1 p2 st (corner_sightings ds ++ coming) ->
  match process_tags st ds with
  | Done st' => calibration_stage p1 p2 st' coming
  | Crashed _ st' => calibrated_by p1 p2 st'
  end.
Proof.
  revert st. induction ds as [|d ds IH]; intros st Hwf Hst; simpl.
  - exact Hst.
  - simpl in Hwf. apply andb_true_iff in Hwf as [Hd Hds].
    change (d :: ds) with ([d] ++ ds) in Hst.
    rewrite corner_sightings_app, <- app_assoc in Hst.
    pose proof (process_detection_stage p1 p2 st d _ Hd Hst) as Hstep.
    destruct (process_detection st d) as [st'|e s]; [|exact Hstep].
    now apply IH.
Qed.

Lemma run_cycle_stage (p1 p2 : Vector2D.t Z) (frame : list detection)
  (st : Tracker.t) (coming : list (Vector2D.t Z)) :
  forallb well_formed frame = true ->
  calibration_stage p1 p2 st (corner_sightings frame ++ coming) ->
  match run_cycle st frame with
  | Done st' => calibration_stage p1 p2 st' coming
  | Crashed _ st' => calibrated_by p1 p2 st'
  end.
Proof.
  intros Hwf Hst. unfold run_cycle.
  apply (calibration_stage_same _ _ _ _ _ (same_calibration_set_robots st []))
    in Hst.
  destruct frame as [|d ds]; [exact Hst|].
  pose proof (process_tags_stage p1 p2 (d :: ds) _ coming Hwf Hst) as Hp.
  destruct (process_tags _ _) as [st1|e s]; [|exact Hp].
  destruct (Tracker.calibrated st1); [|exact Hp].
  apply (calibration_stage_same p1 p2 st1); [|exact Hp].
  apply same_calibration_set_robots.
Qed.

Lemma run_stage (p1 p2 : Vector2D.t Z) (frames : list (list detection))
  (st : Tracker.t) :
  forallb well_formed (List.concat frames) = true ->
  calibration_stage p1 p2 st (corner_sightings (List.concat frames)) ->
  calibrated_by p1 p2 (state_of (run st frames)).
Proof.
  revert st. induction frames as [|f fs IH]; intros st Hwf Hst; simpl in *.
  - now apply calibration_stage_end.
  - rewrite forallb_app in Hwf. apply andb_true_iff in Hwf as [Hf Hfs].
    rewrite corner_sightings_app in Hst.
    pose proof (run_cycle_stage p1 p2 f st _ Hf Hst) as Hc.
    destruct (run_cycle st f) as [st'|e s]; [|exact Hc].
    now apply IH.
Qed.

(** From the start of the process: once the first two corner sightings are
    [p1] and [p2], the tracker is calibrated by them, whatever else the
    frames hold. *)
Lemma run_calibrates (frames : list (list detection)) (p1 p2 : Vector2D.t Z)
  (more : list (Vector2D.t Z)) :
  forallb well_formed (List.concat frames) = true ->
  corner_sightings (List.concat frames) = p1 :: p2 :: more ->
  calibrated_by p1 p2 (state_of (run Tracker_init frames)).
Proof.
  intros Hwf Hs. apply run_stage; [exact Hwf|].
  split; [reflexivity|]. left. rewrite Hs. repeat split. eauto.
Qed.

(** C5: when the first two corner-tag sightings of the process are at the
    pixel points [p1] and [p2], in whatever frames and among whatever other
    detections, the tracker becomes calibrated with a scale factor equal to
    the Euclidean distance between [p1] and [p2] divided by the reference
    distance in metres; the distance between the min point and the max
    point of the bounding box is that same distance; and a run that meets
    the two points in the other order gets the same scale factor. *)
Theorem calibration_determinism (frames frames' : list (list detection))
  (p1 p2 : Vector2D.t Z) (more more' : list (Vector2D.t Z)) :
  forallb well_formed (List.concat frames) = true ->
  forallb well_formed (List.concat frames') = true ->
  corner_sightings (List.concat frames) = p1 :: p2 :: more ->
  corner_sightings (List.concat frames') = p2 :: p1 :: more' ->
  let st := state_of (run Tracker_init frames) in
  let st' := state_of (run Tracker_init frames') in
  Tracker.calibrated st = true /\
  Tracker.scale_factor st =
    (math_dist (pixel p1) (pixel p2) / Tracker.corner_distance_metres st)%R /\
  math_dist (IZR (Tracker.min_x st), IZR (Tracker.min_y st))
            (IZR (Tracker.max_x st), IZR (Tracker.max_y st))
    = math_dist (pixel p1) (pixel p2) /\
  Tracker.scale_factor st' = Tracker.scale_factor st.
Proof.
  intros Hwf Hwf' Hs Hs' st st'.
  pose proof (run_calibrates frames p1 p2 more Hwf Hs)
    as (Hc & Hx0 & Hy0 & Hx1 & Hy1 & Hm & _ & Hf).
  pose proof (run_calibrates frames' p2 p1 more' Hwf' Hs')
    as (_ & _ & _ & _ & _ & _ & _ & Hf').
  fold st in Hc, Hx0, Hy0, Hx1, Hy1, Hm, Hf. fold st' in Hf'.
  repeat split.
  - exact Hc.
  - rewrite Hm. exact Hf.
  - rewrite Hx0, Hy0, Hx1, Hy1. apply math_dist_bounding_box.
  - rewrite Hf, Hf'. f_equal. apply math_dist_sym.
Qed.

Lemma calibration_determinism_witness :
  forallb well_formed (List.concat arena_frames) = true /\
  forallb well_formed (List.concat arena_frames_swapped) = true /\
  corner_sightings (List.concat arena_frames)
    = [Vector2D.mk 0 0; Vector2D.mk 1030 0] /\
  corner_sightings (List.concat arena_frames_swapped)
    = [Vector2D.mk 1030 0; Vector2D.mk 0 0] /\
  let st := state_of (run Tracker_init arena_frames) in
  let st' := state_of (run Tracker_init arena_frames_swapped) in
  Tracker.calibrated st = true /\
  Tracker.scale_factor st =
    (math_dist (pixel (Vector2D.mk 0%Z 0%Z)) (pixel (Vector2D.mk 1030%Z 0%Z))
     / Tracker.corner_distance_metres st)%R /\
  math_dist (IZR (Tracker.min_x st), IZR (Tracker.min_y st))
            (IZR (Tracker.max_x st), IZR (Tracker.max_y st))
    = math_dist (pixel (Vector2D.mk 0 0)) (pixel (Vector2D.mk 1030 0)) /\
  Tracker.scale_factor st' = Tracker.scale_factor st.
Proof.
  split; [reflexivity|]. split; [reflexivity|].
  split; [reflexivity|]. split; [reflexivity|].
  apply (calibration_determinism arena_frames arena_frames_swapped
           (Vector2D.mk 0 0) (Vector2D.mk 1030 0) [] []); reflexivity.
Defined.

(** The scenario of the specification: corner tags at [(0, 0)] and
    [(1030, 0)] with 2.06 m between them give 500 pixels per metre. *)
Example arena_scale_factor :
  Tracker.scale_factor (state_of (run Tracker_init arena_frames)) = 500%R.
Proof.
  pose proof (run_calibrates arena_frames (Vector2D.mk 0 0) (Vector2D.mk 1030 0)
                [] eq_refl eq_refl) as (_ & _ & _ & _ & _ & _ & _ & ->).
  unfold math_dist, pixel. simpl.
  replace ((0 - 1030) * (0 - 1030) + (0 - 0) * (0 - 0))%R
    with (1030 * 1030)%R by ring.
  rewrite sqrt_square by lra. lra.
Qed.

(** C6: a calibrated tracker stays calibrated and keeps its scale factor
    and its pixel bounds (and every other calibration field) through any
    further frames, crash or not; a corner-tag detection met by a
    calibrated tracker leaves the whole state as it was. *)
Theorem calibration_is_final (st : Tracker.t) (frames : list (list detection)) :
  Tracker.calibrated st = true ->
  same_calibration st (state_of (run st frames)) /\
  forall raw,
    state_of (process_detection st (0, raw)) = st /\
    (well_formed (0, raw) = true -> process_detection st (0, raw) = Done st).
Proof.
  intros Hc. split; [now apply run_calibrated|].
  intros raw. unfold well_formed, process_detection. simpl.
  destruct (Tag_init 0 raw) as [t|e] eqn:E; [|split; [reflexivity|discriminate]].
  apply Tag_init_Ok in E as (_ & _ & _ & _ & _ & _ & _ & Hid & _).
  rewrite Hc. unfold track. rewrite Hid. simpl. split; reflexivity.
Qed.

Lemma calibration_is_final_witness :
  Tracker.calibrated tracker_500 = true /\
  same_calibration tracker_500
    (state_of (run tracker_500 [[(0, point_tag 3 4); (5, point_tag 500 0)]])) /\
  process_detection tracker_500 (0, point_tag 3 4) = Done tracker_500.
Proof.
  split; [reflexivity|].
  destruct (calibration_is_final tracker_500
              [[(0, point_tag 3 4); (5, point_tag 500 0)]] eq_refl) as [Hs Hc].
  split; [exact Hs|].
  apply (proj2 (Hc (point_tag 3 4))). reflexivity.
Defined.

(** C10: when the two corner sightings that complete the calibration are at
    the same pixel, the scale factor is 0, and from then on the position
    computation of any robot tag divides by it: nothing guards the
    division, [ZeroDivisionError] leaves the loop.  When the two sightings
    differ, the scale factor is not 0 and the division yields the robot's
    position. *)
Theorem coincident_corners_divide_by_zero (frames : list (list detection))
  (p1 p2 : Vector2D.t Z) (more : list (Vector2D.t Z)) :
  forallb well_formed (List.concat frames) = true ->
  corner_sightings (List.concat frames) = p1 :: p2 :: more ->
  let st := state_of (run Tracker_init frames) in
  (p1 = p2 ->
   Tracker.scale_factor st = 0%R /\
   forall st' id raw t,
     same_calibration st st' -> id <> 0 -> Tag_init id raw = Ok t ->
     process_detection st' (id, raw) = Crashed ZeroDivisionError st') /\
  (p1 <> p2 ->
   Tracker.scale_factor st <> 0%R /\
   forall st' id raw t,
     same_calibration st st' -> id <> 0 -> Tag_init id raw = Ok t ->
     process_detection st' (id, raw) =
     Done (Tracker.set_robots st'
             (dict_set id
                (Robot_init t
                   (Vector2D.mk
                      (IZR (Vector2D.x (Tag.centre t)) / Tracker.scale_factor st)%R
                      (IZR (Vector2D.y (Tag.centre t)) / Tracker.scale_factor st)%R))
                (Tracker.robots st')))).
Proof.
  intros Hwf Hs st.
  pose proof (run_calibrates frames p1 p2 more Hwf Hs)
    as (Hc & _ & _ & _ & _ & _ & _ & Hf).
  fold st in Hc, Hf.
  assert (forall st' id raw t,
            same_calibration st st' -> id <> 0 -> Tag_init id raw = Ok t ->
            process_detection st' (id, raw) = track st' id t /\
            negb (Tag.id t =? 0) = true /\
            Tracker.scale_factor st' = Tracker.scale_factor st) as Hstep.
  { intros st' id raw t (Hc' & _ & _ & _ & _ & _ & _ & _ & Hf') Hid Ht.
    unfold process_detection. rewrite Ht, Hc', Hc.
    apply Tag_init_Ok in Ht as (_ & _ & _ & _ & _ & _ & _ & -> & _).
    repeat split; [|exact Hf'].
    apply negb_true_iff. now apply Z.eqb_neq. }
  split.
  - intros Heq.
    assert (Tracker.scale_factor st = 0%R) as H0.
    { rewrite Hf. apply (math_dist_zero_iff p1 p2) in Heq. rewrite Heq. lra. }
    split; [exact H0|]. intros st' id raw t Hs' Hid Ht.
    destruct (Hstep st' id raw t Hs' Hid Ht) as (-> & Hneg & Hf').
    unfold track, truediv. rewrite Hneg, Hf', H0.
    destruct (Req_dec_T 0 0) as [_|Hne]; [reflexivity | now destruct Hne].
  - intros Hne.
    assert (Tracker.scale_factor st <> 0%R) as H0.
    { rewrite Hf. intros Hz.
      assert (math_dist (pixel p1) (pixel p2) = 0)%R as Hd by lra.
      apply math_dist_zero_iff in Hd. contradiction. }
    split; [exact H0|]. intros st' id raw t Hs' Hid Ht.
    destruct (Hstep st' id raw t Hs' Hid Ht) as (-> & Hneg & Hf').
    unfold track, truediv. rewrite Hneg, Hf'.
    destruct (Req_dec_T (Tracker.scale_factor st) 0) as [Hz|_];
      [contradiction | reflexivity].
Qed.

Lemma coincident_corners_divide_by_zero_witness :
  (forallb well_formed (List.concat stuck_frames) = true /\
   corner_sightings (List.concat stuck_frames)
     = [Vector2D.mk 3 4; Vector2D.mk 3 4] /\
   Tracker.scale_factor (state_of (run Tracker_init stuck_frames)) = 0%R /\
   process_detection (state_of (run Tracker_init stuck_frames)) (7, unit_square)
     = Crashed ZeroDivisionError (state_of (run Tracker_init stuck_frames))) /\
  (forallb well_formed (List.concat arena_frames) = true /\
   corner_sightings (List.concat arena_frames)
     = [Vector2D.mk 0 0; Vector2D.mk 1030 0] /\
   Tracker.scale_factor (state_of (run Tracker_init arena_frames)) <> 0%R).
Proof.
  split.
  - split; [reflexivity|]. split; [reflexivity|].
    destruct (coincident_corners_divide_by_zero stuck_frames
                (Vector2D.mk 3 4) (Vector2D.mk 3 4) [] eq_refl eq_refl)
      as [Hsame _].
    destruct (Hsame eq_refl) as [H0 Hcrash].
    split; [exact H0|].
    apply (Hcrash _ 7 unit_square unit_square_tag).
    + apply same_calibration_refl.
    + discriminate.
    + reflexivity.
  - split; [reflexivity|]. split; [reflexivity|].
    destruct (coincident_corners_divide_by_zero arena_frames
                (Vector2D.mk 0 0) (Vector2D.mk 1030 0) [] eq_refl eq_refl)
      as [_ Hdiff].
    apply Hdiff. discriminate.
Defined.

(** ** Neighbour sensing *)

Lemma same_robot_refl (r : Robot.t) : same_robot r r.
Proof. unfold same_robot. tauto. Qed.

Lemma same_robot_reading (a a' b b' : Robot.t) :
  same_robot a a' -> same_robot b b' ->
  reading_of a' b' = reading_of a b /\
  robot_distance a' b' = robot_distance a b /\
  Robot.sensor_range a' = Robot.sensor_range a.
Proof.
  intros (_ & _ & Hpa & _ & Hsa) (_ & _ & Hpb & Hob & _).
  unfold reading_of, robot_distance, robot_bearing.
  rewrite Hpa, Hpb, Hob, Hsa. tauto.
Qed.

(** [sense] with both robots at hand. *)
Lemma sense_present (rs : dict Z Robot.t) (a b : Z) (ra rb : Robot.t) :
  dict_get a rs = Some ra -> dict_get b rs = Some rb ->
  sense rs (a, b) =
  if negb (a =? b) then
    if Rlt_dec (robot_distance ra rb) (Robot.sensor_range ra) then
      dict_set a
        (Robot.set_neighbours ra
           (dict_set b (reading_of ra rb) (Robot.neighbours ra))) rs
    else rs
  else rs.
Proof. intros Ha Hb. unfold sense. rewrite Ha, Hb. reflexivity. Qed.

Lemma sense_absent (rs : dict Z Robot.t) (a b : Z) :
  dict_get a rs = None \/ dict_get b rs = None -> sense rs (a, b) = rs.
Proof.
  intros [Ha | Hb]; unfold sense.
  - now rewrite Ha.
  - rewrite Hb. now destruct (dict_get a rs).
Qed.

Lemma sensed_nil (rs : dict Z Robot.t) :
  (forall k r, dict_get k rs = Some r -> Robot.neighbours r = []) ->
  sensed [] rs rs.
Proof.
  intros Hfresh a. destruct (dict_get a rs) as [ra|] eqn:Ha; [|reflexivity].
  exists ra. split; [reflexivity|]. split; [apply same_robot_refl|].
  intros b rd. rewrite (Hfresh a ra Ha). simpl. split.
  - discriminate.
  - intros [[] _].
Qed.

(** One more pair through lines 140-146. *)
Lemma sensed_snoc (ps : list (Z * Z)) (rs rs' : dict Z Robot.t) (a0 b0 : Z) :
  sensed ps rs rs' -> sensed (ps ++ [(a0, b0)]) rs (sense rs' (a0, b0)).
Proof.
  intros Hs.
  (* the pair changes nothing unless both robots exist, differ and are in
     range *)
  assert (sense rs' (a0, b0) = rs' ->
          (forall ra rb, dict_get a0 rs = Some ra -> dict_get b0 rs = Some rb ->
                         a0 <> b0 -> in_range ra rb -> False) ->
          sensed (ps ++ [(a0, b0)]) rs (sense rs' (a0, b0))) as Hidle.
  { intros -> Hno a. specialize (Hs a).
    destruct (dict_get a rs) as [ra|] eqn:Ha; [|exact Hs].
    destruct Hs as (ra' & Hra' & Hsame & Hnb).
    exists ra'. split; [exact Hra'|]. split; [exact Hsame|].
    intros b rd. rewrite Hnb, in_app_iff. simpl. split; [tauto|].
    intros ([Hin | [Heq | []]] & Hab & rb & Hb & Hr & Hrd); [eauto 8|].
    injection Heq as <- <-. exfalso. eauto. }
  pose proof (Hs a0) as Ha0. pose proof (Hs b0) as Hb0.
  destruct (dict_get a0 rs) as [ra|] eqn:Ea.
  2:{ apply Hidle; [apply sense_absent; now left | discriminate]. }
  destruct (dict_get b0 rs) as [rb|] eqn:Eb.
  2:{ apply Hidle; [apply sense_absent; now right | discriminate]. }
  destruct Ha0 as (ra' & Hra' & Hsa & Hnba).
  destruct Hb0 as (rb' & Hrb' & Hsb & _).
  destruct (same_robot_reading ra ra' rb rb' Hsa Hsb) as (Hrd & Hdist & Hrange).
  pose proof (sense_present rs' a0 b0 ra' rb' Hra' Hrb') as Hsense.
  rewrite Hdist, Hrange, Hrd in Hsense.
  destruct (Z.eqb_spec a0 b0) as [Heq | Hne]; cbn [negb] in Hsense.
  { apply Hidle; [exact Hsense | intros; contradiction]. }
  destruct (Rlt_dec (robot_distance ra rb) (Robot.sensor_range ra)) as [Hlt | Hge].
  2:{ apply Hidle; [exact Hsense|].
      intros ra1 rb1 [= <-] [= <-] _ Hr. contradiction. }
  rewrite Hsense. intros a. specialize (Hs a).
  destruct (Z.eq_dec a0 a) as [<- | Hna].
  - rewrite Ea, dict_get_set_same. eexists. split; [reflexivity|].
    split; [exact Hsa|]. intros b rd. simpl.
    destruct (Z.eq_dec b0 b) as [<- | Hnb].
    + rewrite dict_get_set_same. split.
      * intros [= <-]. split; [apply in_app_iff; right; now left|].
        split; [exact Hne|]. exists rb. auto.
      * intros (_ & _ & rb1 & Hb1 & _ & ->). congruence.
    + rewrite dict_get_set_other by exact Hnb.
      rewrite Hnba, in_app_iff. simpl. split; [tauto|].
      intros ([Hin | [Heq | []]] & Hrest); [tauto | congruence].
  - rewrite dict_get_set_other by exact Hna.
    destruct (dict_get a rs) as [r|]; [|exact Hs].
    destruct Hs as (r' & Hr' & Hsame & Hnb).
    exists r'. split; [exact Hr'|]. split; [exact Hsame|].
    intros b rd. rewrite Hnb, in_app_iff. simpl. split; [tauto|].
    intros ([Hin | [Heq | []]] & Hrest); [tauto | congruence].
Qed.

Lemma fold_sense_sensed (ps : list (Z * Z)) (rs : dict Z Robot.t) :
  (forall k r, dict_get k rs = Some r -> Robot.neighbours r = []) ->
  sensed ps rs (fold_left sense ps rs).
Proof.
  intros Hfresh. induction ps as [|p ps IH] using rev_ind.
  - now apply sensed_nil.
  - rewrite fold_left_app. simpl. destruct p as [a0 b0].
    now apply sensed_snoc.
Qed.

Lemma neighbour_pass_sensed (rs : dict Z Robot.t) :
  fresh_robots rs ->
  forall a,
    match dict_get a rs with
    | None => dict_get a (neighbour_pass rs) = None
    | Some ra =>
        exists ra', dict_get a (neighbour_pass rs) = Some ra' /\
          same_robot ra ra' /\
          forall b rd,
            dict_get b (Robot.neighbours ra') = Some rd <->
            a <> b /\
            exists rb, dict_get b rs = Some rb /\ in_range ra rb /\
                       rd = reading_of ra rb
    end.
Proof.
  intros Hfresh a.
  assert (sensed (neighbour_pairs rs) rs (neighbour_pass rs)) as Hs.
  { apply fold_sense_sensed. intros k r Hk. now apply (Hfresh k r). }
  specialize (Hs a). destruct (dict_get a rs) as [ra|] eqn:Ha; [|exact Hs].
  destruct Hs as (ra' & Hra' & Hsame & Hnb).
  exists ra'. split; [exact Hra'|]. split; [exact Hsame|].
  intros b rd. rewrite Hnb. split; [tauto|].
  intros (Hab & rb & Hb & Hrest). split; [|eauto].
  unfold neighbour_pairs. apply in_prod; apply dict_get_in_keys; eauto.
Qed.

(** The robots that the loop over the detections stores are fresh. *)
Lemma process_detection_fresh (st : Tracker.t) (d : detection) :
  fresh_robots (Tracker.robots st) ->
  fresh_robots (Tracker.robots (state_of (process_detection st d))).
Proof.
  intros Hfresh. destruct d as [id raw]. unfold process_detection.
  destruct (Tag_init id raw) as [t|e] eqn:Et; [|exact Hfresh].
  destruct (Tracker.calibrated st).
  - unfold track. destruct (negb (Tag.id t =? 0)); [|exact Hfresh].
    destruct (bind _ _) as [pos|e]; [|exact Hfresh]. simpl.
    intros k r. destruct (Z.eq_dec id k) as [<- | Hne].
    + rewrite dict_get_set_same. intros [= <-]. simpl.
      apply Tag_init_Ok in Et as (_ & _ & _ & _ & _ & _ & _ & -> & _).
      tauto.
    + rewrite dict_get_set_other by exact Hne. apply Hfresh.
  - destruct (Tag.id t =? 0); [|exact Hfresh].
    unfold calibrate. destruct (Tracker.num_corner_tags st =? 0); [exact Hfresh|].
    simpl. destruct (truediv _ _); exact Hfresh.
Qed.

Lemma process_tags_fresh (ds : list detection) (st : Tracker.t) :
  fresh_robots (Tracker.robots st) ->
  fresh_robots (Tracker.robots (state_of (process_tags st ds))).
Proof.
  revert st. induction ds as [|d ds IH]; intros st Hfresh; simpl;
    [exact Hfresh|].
  pose proof (process_detection_fresh st d Hfresh) as Hd.
  destruct (process_detection st d); [now apply IH | exact Hd].
Qed.

Lemma fresh_robots_nil : fresh_robots [].
Proof. intros k r. discriminate. Qed.

Lemma fresh_no_self_neighbour (rs : dict Z Robot.t) :
  fresh_robots rs -> no_self_neighbour rs.
Proof.
  intros Hfresh k r Hk. destruct (Hfresh k r Hk) as (Hid & _ & Hnb).
  rewrite Hnb. split; [exact Hid | reflexivity].
Qed.

Lemma neighbour_pass_no_self (rs : dict Z Robot.t) :
  fresh_robots rs -> no_self_neighbour (neighbour_pass rs).
Proof.
  intros Hfresh k r' Hk.
  pose proof (neighbour_pass_sensed rs Hfresh k) as Hs.
  destruct (dict_get k rs) as [r|] eqn:Hr; [|congruence].
  destruct Hs as (r1 & Hr1 & (_ & Hid & _) & Hnb).
  assert (r1 = r') as -> by congruence.
  destruct (Hfresh k r Hr) as (Hidr & _).
  assert (Robot.id r' = k) as Hk' by congruence.
  split; [exact Hk'|]. rewrite Hk'.
  destruct (dict_get k (Robot.neighbours r')) as [rd|] eqn:E; [|reflexivity].
  apply Hnb in E as (Hne & _). now destruct Hne.
Qed.

(** What one cycle leaves in [robots], however it ends. *)
Lemma run_cycle_robots (st : Tracker.t) (frame : list detection) :
  let rs := Tracker.robots (state_of (run_cycle st frame)) in
  fresh_robots rs \/
  exists st1, process_tags (Tracker.set_robots st []) frame = Done st1 /\
              Tracker.calibrated st1 = true /\
              fresh_robots (Tracker.robots st1) /\
              run_cycle st frame
                = Done (Tracker.set_robots st1 (neighbour_pass (Tracker.robots st1))).
Proof.
  unfold run_cycle. destruct frame as [|d ds]; [left; apply fresh_robots_nil|].
  pose proof (process_tags_fresh (d :: ds) (Tracker.set_robots st [])
                fresh_robots_nil) as Hfresh.
  destruct (process_tags _ _) as [st1|e s] eqn:E; [|now left].
  destruct (Tracker.calibrated st1) eqn:Hc; [|now left].
  right. exists st1. auto.
Qed.

Lemma run_cycle_no_self (st : Tracker.t) (frame : list detection) :
  no_self_neighbour (Tracker.robots (state_of (run_cycle st frame))).
Proof.
  destruct (run_cycle_robots st frame) as [Hf | (st1 & _ & _ & Hf & ->)].
  - now apply fresh_no_self_neighbour.
  - simpl. now apply neighbour_pass_no_self.
Qed.

Lemma run_no_self (frames : list (list detection)) (st : Tracker.t) :
  no_self_neighbour (Tracker.robots st) ->
  no_self_neighbour (Tracker.robots (state_of (run st frames))).
Proof.
  revert st. induction frames as [|f fs IH]; intros st Hst; simpl;
    [exact Hst|].
  pose proof (run_cycle_no_self st f) as Hf.
  destruct (run_cycle st f); [now apply IH | exact Hf].
Qed.

(** *** The two-robot scenario, evaluated *)

Lemma truediv_500 (a : R) : truediv a 500 = Ok (a / 500)%R.
Proof. unfold truediv. destruct (Req_dec_T 500 0); [lra | reflexivity]. Qed.

Lemma pair_distance :
  math_dist (0 / 500, 0 / 500)%R (100 / 500, 0 / 500)%R = (1 / 5)%R /\
  math_dist (100 / 500, 0 / 500)%R (0 / 500, 0 / 500)%R = (1 / 5)%R.
Proof.
  assert (math_dist (0 / 500, 0 / 500)%R (100 / 500, 0 / 500)%R = (1 / 5)%R)
    as H.
  { unfold math_dist. simpl.
    replace ((0 / 500 - 100 / 500) * (0 / 500 - 100 / 500) +
             (0 / 500 - 0 / 500) * (0 / 500 - 0 / 500))%R
      with ((1 / 5) * (1 / 5))%R by field.
    apply sqrt_square. lra. }
  split; [exact H | now rewrite math_dist_sym].
Qed.

Ltac evaluate_cycle :=
  cbn -[truediv math_dist math_degrees math_atan2 IZR Rlt_dec Rdiv
        neighbour_pass].

Example pair_cycle : run_cycle tracker_500 pair_frame = Done pair_snapshot.
Proof.
  unfold run_cycle, pair_frame, process_tags, process_detection, track.
  evaluate_cycle. rewrite !truediv_500.
  evaluate_cycle. rewrite !truediv_500.
  evaluate_cycle. unfold neighbour_pass, neighbour_pairs.
  destruct pair_distance as [H56 H65].
  evaluate_cycle. rewrite H56.
  destruct (Rlt_dec (1 / 5) (3 / 10)) as [_|Hn]; [|exfalso; lra].
  evaluate_cycle. rewrite H65.
  destruct (Rlt_dec (1 / 5) (3 / 10)) as [_|Hn]; [|exfalso; lra].
  unfold pair_snapshot, reading_of, robot_distance, robot_bearing.
  evaluate_cycle. rewrite H56, H65. reflexivity.
Qed.

(** Robots at [(0, 0)] m and [(0.2, 0)] m: range 0.2 both ways, bearing 0
    from the first to the second and 180 back. *)
Example pair_readings :
  reading_of (robot_at 5 0 0) (robot_at 6 100 0)
    = SensorReading.mk (1 / 5) 0 (Robot.orientation (robot_at 6 100 0)) /\
  reading_of (robot_at 6 100 0) (robot_at 5 0 0)
    = SensorReading.mk (1 / 5) 180 (Robot.orientation (robot_at 5 0 0)).
Proof.
  destruct pair_distance as [H56 H65].
  unfold reading_of, robot_distance, robot_bearing. simpl.
  rewrite H56, H65. split; f_equal.
  - unfold math_atan2, math_degrees.
    destruct (total_order_T (100 / 500 - 0 / 500) 0) as [[Hlt | Heq] | Hgt];
      try (exfalso; lra).
    replace ((0 / 500 - 0 / 500) / (100 / 500 - 0 / 500))%R with 0%R by field.
    rewrite atan_0. field. apply PI_neq0.
  - unfold math_atan2, math_degrees.
    destruct (total_order_T (0 / 500 - 100 / 500) 0) as [[Hlt | Heq] | Hgt];
      try (exfalso; lra).
    destruct (Rle_dec 0 (0 / 500 - 0 / 500)) as [_ | Hn]; [|exfalso; lra].
    replace ((0 / 500 - 0 / 500) / (0 / 500 - 100 / 500))%R with 0%R by field.
    rewrite atan_0. field. apply PI_neq0.
Qed.

(** C7: in the robot mapping at the start of the process, at the end of
    every cycle (completed or cut short by an exception) and after any
    number of cycles, every robot is filed under its own id and that id is
    not a key of its [neighbours]. *)
Theorem no_self_neighbouring :
  no_self_neighbour (Tracker.robots Tracker_init) /\
  (forall st frame,
     no_self_neighbour (Tracker.robots (state_of (run_cycle st frame)))) /\
  (forall frames,
     no_self_neighbour (Tracker.robots (state_of (run Tracker_init frames)))).
Proof.
  assert (no_self_neighbour (Tracker.robots Tracker_init)) as Hinit
    by (intros k r; discriminate).
  split; [exact Hinit|]. split.
  - apply run_cycle_no_self.
  - intros frames. now apply run_no_self.
Qed.

Lemma no_self_neighbouring_witness :
  dict_get 5 (Tracker.robots (state_of (run_cycle tracker_500 pair_frame)))
    = Some (Robot.set_neighbours (robot_at 5 0 0)
              [(6, reading_of (robot_at 5 0 0) (robot_at 6 100 0))]) /\
  dict_get 5 [(6, reading_of (robot_at 5 0 0) (robot_at 6 100 0))] = None.
Proof.
  assert (dict_get 5
            (Tracker.robots (state_of (run_cycle tracker_500 pair_frame)))
          = Some (Robot.set_neighbours (robot_at 5 0 0)
                    [(6, reading_of (robot_at 5 0 0) (robot_at 6 100 0))]))
    as Hget by (rewrite pair_cycle; reflexivity).
  split; [exact Hget|].
  exact (proj2 (proj1 (proj2 no_self_neighbouring) tracker_500 pair_frame
                  5 _ Hget)).
Defined.

Lemma process_tags_uncalibrated (ds : list detection) (s s1 : Tracker.t) :
  process_tags s ds = Done s1 -> Tracker.calibrated s1 = false ->
  Tracker.robots s1 = Tracker.robots s.
Proof.
  revert s. induction ds as [|d ds IH]; intros s Hp Hc1; simpl in Hp.
  - now injection Hp as <-.
  - destruct (process_detection s d) as [s'|] eqn:Ed; [|discriminate].
    rewrite (IH s' Hp Hc1).
    destruct (Tracker.calibrated s) eqn:Hcs.
    + (* a calibrated tracker could not end uncalibrated *)
      pose proof (process_detection_calibrated s d Hcs) as (Hs' & _).
      rewrite Ed in Hs'. simpl in Hs'. rewrite Hcs in Hs'.
      pose proof (process_tags_calibrated ds s' Hs') as (Hs1 & _).
      rewrite Hp in Hs1. simpl in Hs1. congruence.
    + destruct d as [id raw]. unfold process_detection in Ed.
      destruct (Tag_init id raw) as [t|]; [|discriminate].
      rewrite Hcs in Ed.
      destruct (Tag.id t =? 0); [|now injection Ed as <-].
      unfold calibrate in Ed.
      destruct (Tracker.num_corner_tags s =? 0); [now injection Ed as <-|].
      simpl in Ed. destruct (truediv _ _); [|discriminate].
      now injection Ed as <-.
Qed.

(** The mapping at the end of a completed cycle is empty or comes out of
    the neighbour pass on fresh robots. *)
Lemma run_cycle_Done (st st' : Tracker.t) (frame : list detection) :
  run_cycle st frame = Done st' ->
  Tracker.robots st' = [] \/
  exists rs, fresh_robots rs /\ Tracker.robots st' = neighbour_pass rs.
Proof.
  unfold run_cycle. destruct frame as [|d ds].
  - intros [= <-]. now left.
  - pose proof (process_tags_fresh (d :: ds) (Tracker.set_robots st [])
                  fresh_robots_nil) as Hfresh.
    destruct (process_tags _ _) as [st1|e s] eqn:E; [|discriminate].
    destruct (Tracker.calibrated st1) eqn:Hc; intros [= <-].
    + right. exists (Tracker.robots st1). split; [exact Hfresh | reflexivity].
    + left. now rewrite (process_tags_uncalibrated _ _ _ E Hc).
Qed.

(** C8: at the end of a completed cycle, for two robots [ra] and [rb] of
    the mapping filed under distinct ids [a] and [b], [b] is a key of
    [ra.neighbours] exactly when the distance in metres between them is
    strictly less than [ra.sensor_range]; the reading then has that
    distance as range, the angle in degrees of [atan2(rb.y - ra.y,
    rb.x - ra.x)] as bearing and [rb]'s own heading as orientation. *)
Theorem neighbour_relation (st st' : Tracker.t) (frame : list detection)
  (a b : Z) (ra rb : Robot.t) :
  run_cycle st frame = Done st' ->
  a <> b ->
  dict_get a (Tracker.robots st') = Some ra ->
  dict_get b (Tracker.robots st') = Some rb ->
  Robot.id rb = b /\
  (dict_mem b (Robot.neighbours ra) = true <->
   (robot_distance ra rb < Robot.sensor_range ra)%R) /\
  forall rd, dict_get b (Robot.neighbours ra) = Some rd ->
    SensorReading.range rd = robot_distance ra rb /\
    SensorReading.bearing rd =
      math_degrees
        (math_atan2
           (Vector2D.y (Robot.position rb) - Vector2D.y (Robot.position ra))
           (Vector2D.x (Robot.position rb) - Vector2D.x (Robot.position ra))) /\
    SensorReading.orientation rd = Robot.orientation rb /\
    Robot.orientation rb = Tag.angle (Robot.tag rb).
Proof.
  intros Hrun Hab Ha Hb.
  destruct (run_cycle_Done st st' frame Hrun) as [Hnil | (rs & Hfresh & Hrs)].
  { rewrite Hnil in Ha. discriminate. }
  rewrite Hrs in Ha, Hb.
  pose proof (neighbour_pass_sensed rs Hfresh a) as Hsa.
  pose proof (neighbour_pass_sensed rs Hfresh b) as Hsb.
  destruct (dict_get a rs) as [ra0|] eqn:Ea; [|congruence].
  destruct (dict_get b rs) as [rb0|] eqn:Eb; [|congruence].
  destruct Hsa as (ra' & Hra' & Hsame_a & Hnb).
  destruct Hsb as (rb' & Hrb' & Hsame_b & _).
  assert (ra' = ra) as -> by congruence.
  assert (rb' = rb) as -> by congruence.
  destruct (same_robot_reading ra0 ra rb0 rb Hsame_a Hsame_b)
    as (Hrd & Hdist & Hrange).
  destruct (Hfresh b rb0 Eb) as (Hidb & Hob & _).
  destruct Hsame_b as (Htag & Hid' & _ & Hor & _).
  split; [congruence|]. split.
  - unfold dict_mem. rewrite Hdist, Hrange. split.
    + destruct (dict_get b (Robot.neighbours ra)) as [rd|] eqn:Erd;
        [|discriminate].
      intros _. apply Hnb in Erd as (_ & rb1 & Hb1 & Hin & _).
      assert (rb1 = rb0) as -> by congruence. exact Hin.
    + intros Hin.
      assert (dict_get b (Robot.neighbours ra) = Some (reading_of ra0 rb0))
        as -> by (apply Hnb; split; [exact Hab | exists rb0; auto]).
      reflexivity.
  - intros rd Erd. apply Hnb in Erd as (_ & rb1 & Hb1 & _ & ->).
    assert (rb1 = rb0) as -> by congruence.
    rewrite <- Hrd. simpl. repeat split. congruence.
Qed.

Lemma neighbour_relation_witness :
  run_cycle tracker_500 pair_frame = Done pair_snapshot /\
  5 <> 6 /\
  dict_get 5 (Tracker.robots pair_snapshot)
    = Some (Robot.set_neighbours (robot_at 5 0 0)
              [(6, reading_of (robot_at 5 0 0) (robot_at 6 100 0))]) /\
  dict_get 6 (Tracker.robots pair_snapshot)
    = Some (Robot.set_neighbours (robot_at 6 100 0)
              [(5, reading_of (robot_at 6 100 0) (robot_at 5 0 0))]) /\
  (robot_distance (robot_at 5 0 0) (robot_at 6 100 0)
   < Robot.sensor_range (robot_at 5 0 0))%R.
Proof.
  split; [exact pair_cycle|]. split; [discriminate|].
  split; [reflexivity|]. split; [reflexivity|].
  pose proof (neighbour_relation tracker_500 pair_snapshot pair_frame 5 6
                _ _ pair_cycle ltac:(discriminate) eq_refl eq_refl)
    as (_ & Hiff & _).
  apply Hiff. reflexivity.
Defined.

(** ** Protocol server *)

Lemma handler_app (pre rest : list (dict Z Robot.t * packet)) :
  handler (pre ++ rest) =
  match handler pre with
  | (sent, None) => let (sent', ending) := handler rest in (sent ++ sent', ending)
  | (sent, Some e) => (sent, Some e)
  end.
Proof.
  induction pre as [|[robots p] pre IH]; simpl.
  - now destruct (handler rest).
  - destruct (handle_packet robots p) as [[reply|]|e]; [| exact IH | reflexivity].
    rewrite IH. destruct (handler pre) as [sent [e|]]; [reflexivity|].
    now destruct (handler rest).
Qed.

(** An exception raised on a packet ends the handler after the replies
    already sent; the packets behind it are not read. *)
Lemma handler_raise (pre rest : list (dict Z Robot.t * packet))
  (robots : dict Z Robot.t) (p : packet) (sent : list reply_dict) (e : exn) :
  handler pre = (sent, None) ->
  handle_packet robots p = Raise e ->
  handler (pre ++ (robots, p) :: rest) = (sent, Some e).
Proof.
  intros Hpre Hp. rewrite handler_app, Hpre. simpl. rewrite Hp.
  now rewrite app_nil_r.
Qed.

(** The query scenario of the specification: [check_awake] and [get_ids]
    in one request get one reply with both fields. *)
Example awake_and_ids (robots : dict Z Robot.t) :
  handle_packet robots (JSON awake_request)
  = Ok (Some [(KStr "awake", VTrue); (KStr "ids", VIds (dict_keys robots))]).
Proof. reflexivity. Qed.

(** C4, as the code has it: on a packet that is not valid JSON
    [json.loads] raises [JSONDecodeError], which nothing catches: no reply
    is sent for it, the handler of the connection ends and the packets
    after it are not served.  A JSON null, boolean or number ends the
    handler in the same way with [TypeError].  A decoded message in which
    none of the four field names is found, be it an object, a list or a
    string, gets no reply and the handler goes on with the next packet. *)
Theorem undecodable_packet_ends_handler
  (pre rest : list (dict Z Robot.t * packet)) (robots : dict Z Robot.t)
  (sent : list reply_dict) :
  handler pre = (sent, None) ->
  handler (pre ++ (robots, NotJSON) :: rest) = (sent, Some JSONDecodeError) /\
  (forall message, is_scalar message = true ->
     handler (pre ++ (robots, JSON message) :: rest) = (sent, Some TypeError)) /\
  (forall message, finds_no_field message ->
     handle_packet robots (JSON message) = Ok None /\
     handler (pre ++ (robots, JSON message) :: rest) = handler (pre ++ rest)).
Proof.
  intros Hpre. split; [|split].
  - now apply handler_raise.
  - intros message Hm. apply handler_raise; [exact Hpre|].
    destruct message; try discriminate; reflexivity.
  - intros message (Hawake & Hids & Hone & Hall).
    assert (handle_packet robots (JSON message) = Ok None) as Hnone.
    { unfold handle_packet. simpl. now rewrite Hawake, Hids, Hone, Hall. }
    split; [exact Hnone|].
    rewrite !handler_app, Hpre. simpl. now rewrite Hnone.
Qed.

Lemma undecodable_packet_ends_handler_witness :
  handler [([], JSON awake_request)]
    = ([[(KStr "awake", VTrue); (KStr "ids", VIds [])]], None) /\
  handler [([], JSON awake_request); ([], NotJSON); ([], JSON awake_request)]
    = ([[(KStr "awake", VTrue); (KStr "ids", VIds [])]], Some JSONDecodeError) /\
  handler [([], JSON awake_request); ([], JSON (JInt 3)); ([], JSON awake_request)]
    = ([[(KStr "awake", VTrue); (KStr "ids", VIds [])]], Some TypeError) /\
  finds_no_field (JArr [JInt 1; JStr "hello"]) /\
  handler [([], JSON awake_request); ([], JSON (JArr [JInt 1; JStr "hello"]));
           ([], JSON awake_request)]
    = handler [([], JSON awake_request); ([], JSON awake_request)].
Proof.
  split; [reflexivity|].
  destruct (undecodable_packet_ends_handler
              [([], JSON awake_request)] [([], JSON awake_request)] []
              [[(KStr "awake", VTrue); (KStr "ids", VIds [])]] eq_refl)
    as (Hbad & Hscalar & Hnone).
  split; [exact Hbad|]. split; [exact (Hscalar (JInt 3) eq_refl)|].
  assert (finds_no_field (JArr [JInt 1; JStr "hello"])) as Hno
    by (repeat split).
  split; [exact Hno | exact (proj2 (Hnone _ Hno))].
Defined.

(** C4 as the specification states it fails: the packet that is not JSON
    is not dropped, the request after it is never answered. *)
Lemma undecodable_packet_not_dropped :
  ~ drops_packet [] NotJSON [([], JSON awake_request)].
Proof. unfold drops_packet. simpl. discriminate. Qed.

(** C2, as the code has it: for a request object with a [get_robot] field
    whose id is not a key of the robot mapping, the lookup
    [tracker.robots[id]] raises ([KeyError]; [TypeError] for an unhashable
    id) and nothing catches it: no reply is sent for the request, whatever
    other fields it has, the handler of the connection ends and the packets
    after it are not served. *)
Theorem unknown_robot_ends_handler
  (pre rest : list (dict Z Robot.t * packet)) (robots : dict Z Robot.t)
  (fields : dict string json) (id : json) (sent : list reply_dict) :
  handler pre = (sent, None) ->
  dict_get "get_robot"%string fields = Some id ->
  (forall r, robots_getitem robots id <> Ok r) ->
  exists e,
    (e = KeyError \/ e = TypeError) /\
    (forall n, id = JInt n -> e = KeyError) /\
    handle_packet robots (JSON (JObj fields)) = Raise e /\
    handler (pre ++ (robots, JSON (JObj fields)) :: rest) = (sent, Some e).
Proof.
  intros Hpre Hfield Hmissing.
  destruct (robots_getitem robots id) as [r|e] eqn:Hget.
  { now destruct (Hmissing r). }
  assert (handle_packet robots (JSON (JObj fields)) = Raise e) as Hraise.
  { unfold handle_packet, get_robot. simpl.
    unfold dict_mem, dict_getitem. rewrite Hfield. simpl. now rewrite Hget. }
  exists e. split; [|split; [|split]].
  - destruct id; simpl in Hget; unfold dict_getitem in Hget;
      repeat match type of Hget with
             | context [match ?x with _ => _ end] => destruct x
             end; try discriminate; injection Hget as <-; auto.
  - intros n ->. simpl in Hget. unfold dict_getitem in Hget.
    destruct (dict_get n robots); congruence.
  - exact Hraise.
  - now apply handler_raise.
Qed.

Lemma unknown_robot_ends_handler_witness :
  handler [([], JSON awake_request)]
    = ([[(KStr "awake", VTrue); (KStr "ids", VIds [])]], None) /\
  dict_get "get_robot"%string [("get_robot"%string, JInt 7)] = Some (JInt 7) /\
  robots_getitem [] (JInt 7) = Raise KeyError /\
  exists e,
    (e = KeyError \/ e = TypeError) /\
    (forall n, JInt 7 = JInt n -> e = KeyError) /\
    handle_packet [] (JSON (robot_request 7)) = Raise e /\
    handler [([], JSON awake_request); ([], JSON (robot_request 7));
             ([], JSON awake_request)]
      = ([[(KStr "awake", VTrue); (KStr "ids", VIds [])]], Some e).
Proof.
  split; [reflexivity|]. split; [reflexivity|]. split; [reflexivity|].
  apply (unknown_robot_ends_handler
           [([], JSON awake_request)] [([], JSON awake_request)] []
           [("get_robot"%string, JInt 7)] (JInt 7)
           [[(KStr "awake", VTrue); (KStr "ids", VIds [])]]).
  - reflexivity.
  - reflexivity.
  - intros r. discriminate.
Defined.

(** C2 as the specification states it fails: the request for the untracked
    id 7 gets no reply, the handler ends with [KeyError]. *)
Lemma unknown_robot_not_answered :
  handle_packet [] (JSON (robot_request 7)) = Raise KeyError /\
  handler [([], JSON (robot_request 7)); ([], JSON awake_request)]
    = ([], Some KeyError) /\
  ~ is_answered [] (robot_request 7).
Proof.
  split; [reflexivity|]. split; [reflexivity|].
  intros [reply H]. discriminate.
Qed.

(** ** Reads of the shared mapping *)

Lemma scan_left_In {A B : Type} (f : A -> B -> A) (l : list B) (a x : A) :
  In x (scan_left f l a) ->
  exists pre post, l = pre ++ post /\ x = fold_left f pre a.
Proof.
  revert a. induction l as [|b l IH]; intros a; simpl; [tauto|].
  intros [<- | Hin].
  - exists [b], l. split; reflexivity.
  - destruct (IH _ Hin) as (pre & post & -> & ->).
    exists (b :: pre), post. split; reflexivity.
Qed.

Lemma scan_left_final {A B : Type} (f : A -> B -> A) (l : list B) (a : A) :
  l <> [] -> In (fold_left f l a) (scan_left f l a).
Proof.
  revert a. induction l as [|b l IH]; intros a Hne; [congruence|]. simpl.
  destruct l as [|b' l']; [now left|].
  right. apply IH. discriminate.
Qed.

Lemma tags_trace_final (ds : list detection) (st : Tracker.t) :
  ds <> [] -> In (state_of (process_tags st ds)) (tags_trace st ds).
Proof.
  revert st. induction ds as [|d ds IH]; intros st Hne; [congruence|]. simpl.
  destruct (process_detection st d) as [st'|e s]; [|now left].
  destruct ds as [|d' ds']; [now left|].
  right. apply IH. discriminate.
Qed.

(** The mapping a cycle ends with is the last one a reader can see. *)
Lemma cycle_trace_final (st : Tracker.t) (frame : list detection) :
  reads_during st frame (Tracker.robots (state_of (run_cycle st frame))).
Proof.
  unfold reads_during, cycle_trace, run_cycle.
  destruct frame as [|d ds]; [right; now left|].
  right; right. apply in_app_iff.
  pose proof (tags_trace_final (d :: ds) (Tracker.set_robots st [])
                ltac:(discriminate)) as Hlast.
  destruct (process_tags _ _) as [st1|e s]; simpl in Hlast.
  - destruct (Tracker.calibrated st1); [|left; now apply in_map].
    simpl. unfold neighbour_pass.
    destruct (neighbour_pairs (Tracker.robots st1)) as [|p ps] eqn:Ep.
    + left. simpl. now apply in_map.
    + right. apply scan_left_final. discriminate.
  - left. simpl. now apply in_map.
Qed.

Lemma process_detection_from_frame (frame : list detection) (st : Tracker.t)
  (d : detection) :
  In d frame -> from_frame frame (Tracker.robots st) ->
  from_frame frame (Tracker.robots (state_of (process_detection st d))).
Proof.
  intros Hin Hfrom. destruct d as [id raw]. unfold process_detection.
  destruct (Tag_init id raw) as [t|e] eqn:Et; [|exact Hfrom].
  destruct (Tracker.calibrated st).
  - unfold track. destruct (negb (Tag.id t =? 0)); [|exact Hfrom].
    destruct (bind _ _) as [pos|e]; [|exact Hfrom]. simpl.
    intros k r. destruct (Z.eq_dec id k) as [<- | Hne].
    + rewrite dict_get_set_same. intros [= <-]. simpl. split.
      * now apply Tag_init_Ok in Et as (_ & _ & _ & _ & _ & _ & _ & -> & _).
      * exists raw. split; assumption.
    + rewrite dict_get_set_other by exact Hne. apply Hfrom.
  - destruct (Tag.id t =? 0); [|exact Hfrom].
    unfold calibrate. destruct (Tracker.num_corner_tags st =? 0); [exact Hfrom|].
    simpl. destruct (truediv _ _); exact Hfrom.
Qed.

(** The loop over the detections only adds ids. *)
Lemma process_detection_keys (st : Tracker.t) (d : detection) (k : Z) :
  In k (dict_keys (Tracker.robots st)) ->
  In k (dict_keys (Tracker.robots (state_of (process_detection st d)))).
Proof.
  intros Hk. destruct d as [id raw]. unfold process_detection.
  destruct (Tag_init id raw) as [t|e]; [|exact Hk].
  destruct (Tracker.calibrated st).
  - unfold track. destruct (negb (Tag.id t =? 0)); [|exact Hk].
    destruct (bind _ _) as [pos|e]; [|exact Hk]. simpl.
    apply dict_keys_set_in. now right.
  - destruct (Tag.id t =? 0); [|exact Hk].
    unfold calibrate. destruct (Tracker.num_corner_tags st =? 0); [exact Hk|].
    simpl. destruct (truediv _ _); exact Hk.
Qed.

Lemma process_tags_keys (ds : list detection) (st : Tracker.t) (k : Z) :
  In k (dict_keys (Tracker.robots st)) ->
  In k (dict_keys (Tracker.robots (state_of (process_tags st ds)))).
Proof.
  revert st. induction ds as [|d ds IH]; intros st Hk; simpl; [exact Hk|].
  pose proof (process_detection_keys st d k Hk) as Hd.
  destruct (process_detection st d); [now apply IH | exact Hd].
Qed.

(** Every state of the loop over the detections holds fresh robots of the
    frame, under ids that the loop ends with. *)
Lemma tags_trace_built (frame ds : list detection) (st s : Tracker.t) :
  incl ds frame ->
  fresh_robots (Tracker.robots st) -> from_frame frame (Tracker.robots st) ->
  In s (tags_trace st ds) ->
  fresh_robots (Tracker.robots s) /\ from_frame frame (Tracker.robots s) /\
  forall k, In k (dict_keys (Tracker.robots s)) ->
            In k (dict_keys (Tracker.robots (state_of (process_tags st ds)))).
Proof.
  revert st. induction ds as [|d ds IH]; intros st Hincl Hfresh Hfrom Hin;
    simpl in *; [contradiction|].
  assert (In d frame) as Hd by (apply Hincl; now left).
  assert (incl ds frame) as Hds by (intros x Hx; apply Hincl; now right).
  pose proof (process_detection_fresh st d Hfresh) as Hfresh'.
  pose proof (process_detection_from_frame frame st d Hd Hfrom) as Hfrom'.
  destruct (process_detection st d) as [st'|e s']; simpl in *.
  - destruct Hin as [<- | Hin].
    + split; [exact Hfresh'|]. split; [exact Hfrom'|].
      intros k. apply process_tags_keys.
    + now apply IH.
  - destruct Hin as [<- | []]. auto.
Qed.

Lemma sensed_lookup (ps : list (Z * Z)) (rs rs' : dict Z Robot.t) (k : Z)
  (r' : Robot.t) :
  sensed ps rs rs' -> dict_get k rs' = Some r' ->
  exists r, dict_get k rs = Some r /\ same_robot r r' /\
    forall b rd,
      dict_get b (Robot.neighbours r') = Some rd <->
      In (k, b) ps /\ k <> b /\
      exists rb, dict_get b rs = Some rb /\ in_range r rb /\
                 rd = reading_of r rb.
Proof.
  intros Hs Hk. specialize (Hs k).
  destruct (dict_get k rs) as [r|]; [|congruence].
  destruct Hs as (r1 & Hr1 & Hsame & Hnb).
  assert (r1 = r') as -> by congruence. eauto.
Qed.

(** The mapping part of the way through the neighbour pass. *)
Lemma sense_under_construction (frame : list detection)
  (pre post : list (Z * Z)) (rs : dict Z Robot.t) :
  fresh_robots rs -> from_frame frame rs ->
  under_construction frame (fold_left sense pre rs)
    (fold_left sense (pre ++ post) rs).
Proof.
  intros Hfresh Hfrom.
  assert (forall k r, dict_get k rs = Some r -> Robot.neighbours r = [])
    as Hnone by (intros k r Hk; now apply (Hfresh k r)).
  pose proof (fold_sense_sensed pre rs Hnone) as Hpre.
  pose proof (fold_sense_sensed (pre ++ post) rs Hnone) as Hall.
  split; [|split].
  - intros k r' Hk.
    destruct (sensed_lookup _ _ _ _ _ Hpre Hk) as (r & Hr & Hsame & _).
    destruct Hsame as (Htag & Hid & _). rewrite Htag, Hid.
    now apply Hfrom.
  - intros k Hk. apply dict_get_in_keys in Hk as [r' Hk].
    destruct (sensed_lookup _ _ _ _ _ Hpre Hk) as (r & Hr & _).
    specialize (Hall k). rewrite Hr in Hall.
    destruct Hall as (r2 & Hr2 & _). apply dict_get_in_keys. eauto.
  - intros k r' b rd Hk Hrd.
    destruct (sensed_lookup _ _ _ _ _ Hpre Hk) as (r & Hr & _ & Hnb).
    specialize (Hall k). rewrite Hr in Hall.
    destruct Hall as (r2 & Hr2 & _ & Hnb2).
    exists r2. split; [exact Hr2|].
    apply Hnb2. apply Hnb in Hrd as (Hin & Hrest).
    split; [apply in_app_iff; now left | exact Hrest].
Qed.

(** C1, as the code has it: a read of [tracker.robots] made while a cycle
    runs returns the complete mapping of the cycle before, or the mapping
    of the running cycle under construction.  That mapping holds robots of
    the running cycle only, each built from a detection of its frame, under
    ids and with readings that the cycle's final mapping has too; it may be
    empty, lack robots or lack readings of the final mapping. *)
Theorem reads_see_cycle_under_construction (st : Tracker.t)
  (frame : list detection) (m : dict Z Robot.t) :
  reads_during st frame m ->
  m = Tracker.robots st \/
  under_construction frame m (Tracker.robots (state_of (run_cycle st frame))).
Proof.
  unfold reads_during, cycle_trace. intros [<- | [<- | Hin]]; [now left | |].
  { right. split; [|split].
    - intros k r. discriminate.
    - intros k [].
    - intros k r b rd. discriminate. }
  right. destruct frame as [|d ds]; [contradiction|].
  set (frame := d :: ds) in *. set (st0 := Tracker.set_robots st []) in *.
  assert (forall s, In s (tags_trace st0 frame) ->
            fresh_robots (Tracker.robots s) /\
            from_frame frame (Tracker.robots s) /\
            forall k, In k (dict_keys (Tracker.robots s)) ->
              In k (dict_keys (Tracker.robots (state_of (process_tags st0 frame)))))
    as Hbuilt.
  { intros s Hs. apply (tags_trace_built frame frame st0 s); auto.
    - apply incl_refl.
    - apply fresh_robots_nil.
    - intros k r. discriminate. }
  pose proof (tags_trace_final frame st0 ltac:(discriminate)) as Hlast.
  apply Hbuilt in Hlast as (Hfresh1 & Hfrom1 & _).
  assert (Tracker.robots (state_of (run_cycle st frame)) =
          match process_tags st0 frame with
          | Done st1 =>
              if Tracker.calibrated st1
              then fold_left sense (neighbour_pairs (Tracker.robots st1) ++ [])
                     (Tracker.robots st1)
              else Tracker.robots st1
          | Crashed _ s => Tracker.robots s
          end) as ->.
  { unfold run_cycle. fold st0. fold frame. unfold frame at 1.
    fold frame. destruct (process_tags st0 frame) as [st1|e s]; [|reflexivity].
    rewrite app_nil_r. now destruct (Tracker.calibrated st1). }
  apply in_app_iff in Hin as [Hin | Hin].
  - (* during the loop over the detections *)
    apply in_map_iff in Hin as (s & <- & Hs).
    destruct (Hbuilt s Hs) as (Hfresh & Hfrom & Hkeys).
    split; [exact Hfrom|]. split.
    + intros k Hk. apply Hkeys in Hk.
      destruct (process_tags st0 frame) as [st1|e s1]; [|exact Hk].
      simpl in *. destruct (Tracker.calibrated st1); [|exact Hk].
      destruct (sense_under_construction frame []
                  (neighbour_pairs (Tracker.robots st1) ++ [])
                  (Tracker.robots st1) Hfresh1 Hfrom1) as (_ & Hsub & _).
      now apply Hsub.
    + intros k r b rd Hk Hrd. destruct (Hfresh k r Hk) as (_ & _ & Hnb).
      rewrite Hnb in Hrd. discriminate.
  - (* during the neighbour pass *)
    destruct (process_tags st0 frame) as [st1|e s1]; [|contradiction].
    simpl in *. destruct (Tracker.calibrated st1); [|contradiction].
    apply scan_left_In in Hin as (pre & post & Hpairs & ->).
    rewrite app_nil_r, Hpairs.
    now apply sense_under_construction.
Qed.

Lemma reads_see_cycle_under_construction_witness :
  reads_during pair_snapshot pair_frame [(5, robot_at 5 0 0)] /\
  under_construction pair_frame [(5, robot_at 5 0 0)]
    (Tracker.robots (state_of (run_cycle pair_snapshot pair_frame))).
Proof.
  assert (reads_during pair_snapshot pair_frame [(5, robot_at 5 0 0)]) as Hread.
  { unfold reads_during, cycle_trace, pair_frame, tags_trace,
      process_detection, track.
    evaluate_cycle. rewrite !truediv_500. evaluate_cycle.
    right; right; left. reflexivity. }
  split; [exact Hread|].
  destruct (reads_see_cycle_under_construction pair_snapshot pair_frame
              [(5, robot_at 5 0 0)] Hread) as [Hold | Hpart].
  - discriminate Hold.
  - exact Hpart.
Defined.

(** C1 as the specification states it fails: while the cycle on the two
    robots runs, a read can return the mapping that holds robot 5 alone,
    which is neither the mapping before the cycle nor the one after it. *)
Lemma reads_not_atomic : ~ atomic_reads pair_snapshot pair_frame.
Proof.
  intros Hatomic.
  assert (reads_during pair_snapshot pair_frame [(5, robot_at 5 0 0)]) as Hread.
  { unfold reads_during, cycle_trace, pair_frame, tags_trace,
      process_detection, track.
    evaluate_cycle. rewrite !truediv_500. evaluate_cycle.
    right; right; left. reflexivity. }
  assert (run_cycle pair_snapshot pair_frame = Done pair_snapshot) as Hrun
    by exact pair_cycle.
  destruct (Hatomic _ Hread) as [Hold | Hnew].
  - discriminate Hold.
  - rewrite Hrun in Hnew. discriminate Hnew.
Qed.

(* ================================================================== *)
(** * Part III: further properties of the code                         *)
(* ================================================================== *)

(** ** Keys of dictionaries *)

Section DictKeys.
Context {K V : Type} `{HashableLaws K}.

Lemma dict_set_keys_present (k : K) (v v0 : V) (d : dict K V) :
  dict_get k d = Some v0 -> dict_keys (dict_set k v d) = dict_keys d.
Proof.
  induction d as [|[k' v'] d IH]; simpl; [discriminate|].
  destruct (key_eqb k k') eqn:E; simpl.
  - apply key_eqb_eq in E. now subst.
  - intros Hg. now rewrite IH.
Qed.

Lemma dict_set_NoDup (k : K) (v : V) (d : dict K V) :
  NoDup (dict_keys d) -> NoDup (dict_keys (dict_set k v d)).
Proof.
  induction d as [|[k' v'] d IH]; simpl; intros Hnd.
  - constructor; [intros [] | constructor].
  - inversion Hnd as [|? ? Hnotin Hnd']; subst.
    destruct (key_eqb k k') eqn:E; simpl.
    + apply key_eqb_eq in E. subst. now constructor.
    + constructor; [|now apply IH].
      intros Hin. apply dict_keys_set_in in Hin as [-> | Hin];
        [|contradiction].
      rewrite key_eqb_refl in E. discriminate.
Qed.

Lemma dict_get_not_in (k : K) (d : dict K V) :
  ~ In k (dict_keys d) -> dict_get k d = None.
Proof.
  intros Hnotin. destruct (dict_get k d) as [v|] eqn:E; [|reflexivity].
  destruct Hnotin. apply dict_get_in_keys. eauto.
Qed.
End DictKeys.

(** ** The robots of a cycle *)

Lemma tracked_nil (frame : list detection) (st : Tracker.t) :
  tracked frame st [].
Proof.
  split; [apply fresh_robots_nil|]. split; [intros k r; discriminate|].
  split; [constructor|]. split; [reflexivity|].
  split; [congruence | intros k r; discriminate].
Qed.

Lemma process_detection_tracked (frame : list detection) (st : Tracker.t)
  (d : detection) :
  In d frame -> tracked frame st (Tracker.robots st) ->
  tracked frame (state_of (process_detection st d))
    (Tracker.robots (state_of (process_detection st d))).
Proof.
  intros Hin (Hfresh & Hfrom & Hnd & Hempty & Hsf & Hposed).
  pose proof (process_detection_fresh st d Hfresh) as Hfresh'.
  pose proof (process_detection_from_frame frame st d Hin Hfrom) as Hfrom'.
  split; [exact Hfresh'|]. split; [exact Hfrom'|].
  clear Hfresh' Hfrom'.
  assert (forall s, s = st ->
            NoDup (dict_keys (Tracker.robots s)) /\
            (Tracker.calibrated s = false -> Tracker.robots s = []) /\
            (Tracker.robots s <> [] -> Tracker.scale_factor s <> 0%R) /\
            forall k r, dict_get k (Tracker.robots s) = Some r ->
                        posed (Tracker.scale_factor s) k r) as Hkeep
    by (intros s ->; auto).
  destruct d as [id raw]. unfold process_detection.
  destruct (Tag_init id raw) as [t|e] eqn:Et; [|exact (Hkeep st eq_refl)].
  destruct (Tracker.calibrated st) eqn:Hc.
  - (* calibrated: a robot may be stored *)
    unfold track. destruct (negb (Tag.id t =? 0)) eqn:Hid;
      [|exact (Hkeep st eq_refl)].
    unfold truediv.
    destruct (Req_dec_T (Tracker.scale_factor st) 0) as [Hz | Hnz]; simpl;
      [exact (Hkeep st eq_refl)|].
    split; [now apply dict_set_NoDup|]. split; [congruence|].
    split; [intros _; exact Hnz|].
    intros k r. destruct (Z.eq_dec id k) as [<- | Hne].
    + rewrite dict_get_set_same. intros [= <-].
      apply Tag_init_Ok in Et as (_ & _ & _ & _ & _ & _ & _ & Htid & _).
      apply negb_true_iff, Z.eqb_neq in Hid.
      unfold posed. simpl. repeat split; congruence.
    + rewrite dict_get_set_other by exact Hne. apply Hposed.
  - (* uncalibrated: the mapping is empty and stays so *)
    assert (forall s, Tracker.robots s = Tracker.robots st ->
              NoDup (dict_keys (Tracker.robots s)) /\
              (Tracker.calibrated s = false -> Tracker.robots s = []) /\
              (Tracker.robots s <> [] -> Tracker.scale_factor s <> 0%R) /\
              forall k r, dict_get k (Tracker.robots s) = Some r ->
                          posed (Tracker.scale_factor s) k r) as Hsame.
    { intros s ->. rewrite (Hempty eq_refl). split; [constructor|].
      split; [reflexivity|]. split; [congruence | intros k r; discriminate]. }
    destruct (Tag.id t =? 0); [|now apply Hsame].
    unfold calibrate. destruct (Tracker.num_corner_tags st =? 0);
      [now apply Hsame|].
    simpl. destruct (truediv _ _); now apply Hsame.
Qed.

Lemma process_tags_tracked (frame ds : list detection) (st : Tracker.t) :
  incl ds frame -> tracked frame st (Tracker.robots st) ->
  tracked frame (state_of (process_tags st ds))
    (Tracker.robots (state_of (process_tags st ds))).
Proof.
  revert st. induction ds as [|d ds IH]; intros st Hincl Htr; simpl;
    [exact Htr|].
  assert (In d frame) as Hd by (apply Hincl; now left).
  pose proof (process_detection_tracked frame st d Hd Htr) as Hstep.
  destruct (process_detection st d) as [st'|e s]; [|exact Hstep].
  apply IH; [|exact Hstep]. intros x Hx. apply Hincl. now right.
Qed.

(** The neighbour pass neither adds nor removes nor reorders ids. *)
Lemma sense_keys (rs : dict Z Robot.t) (p : Z * Z) :
  dict_keys (sense rs p) = dict_keys rs.
Proof.
  destruct p as [a b]. unfold sense.
  destruct (dict_get a rs) as [ra|] eqn:Ha; [|reflexivity].
  destruct (dict_get b rs) as [rb|]; [|reflexivity].
  destruct (negb (a =? b)); [|reflexivity].
  destruct (Rlt_dec _ _); [|reflexivity].
  now apply (dict_set_keys_present a _ ra).
Qed.

Lemma fold_sense_keys (ps : list (Z * Z)) (rs : dict Z Robot.t) :
  dict_keys (fold_left sense ps rs) = dict_keys rs.
Proof.
  revert rs. induction ps as [|p ps IH]; intros rs; simpl; [reflexivity|].
  now rewrite IH, sense_keys.
Qed.

(** The mapping a cycle ends with, completed or not: robots built from the
    frame, with the readings of the pairs that went through the pass. *)
Lemma run_cycle_shape (st : Tracker.t) (frame : list detection) :
  let st' := state_of (run_cycle st frame) in
  exists rs ps,
    tracked frame st' rs /\ sensed ps rs (Tracker.robots st') /\
    dict_keys (Tracker.robots st') = dict_keys rs /\
    (ps = [] \/ run_cycle st frame = Done st' /\ ps = neighbour_pairs rs).
Proof.
  assert (forall s, tracked frame s (Tracker.robots s) ->
            exists rs ps,
              tracked frame s rs /\ sensed ps rs (Tracker.robots s) /\
              dict_keys (Tracker.robots s) = dict_keys rs /\
              (ps = [] \/ False)) as Hplain.
  { intros s Hs. exists (Tracker.robots s), []. split; [exact Hs|].
    split; [|auto]. apply sensed_nil. intros k r Hk.
    destruct Hs as (Hfresh & _). now apply (Hfresh k r). }
  unfold run_cycle. destruct frame as [|d ds].
  - simpl. exists [], []. split; [apply tracked_nil|].
    split; [apply sensed_nil; intros k r; discriminate | auto].
  - pose proof (process_tags_tracked (d :: ds) (d :: ds)
                  (Tracker.set_robots st []) (incl_refl _)
                  (tracked_nil _ _)) as Htr.
    destruct (process_tags _ _) as [st1|e s] eqn:E; simpl in Htr.
    + destruct (Tracker.calibrated st1) eqn:Hc.
      * simpl. exists (Tracker.robots st1), (neighbour_pairs (Tracker.robots st1)).
        split.
        { destruct Htr as (H1 & H2 & H3 & H4 & H5 & H6).
          split; [exact H1|]. split; [exact H2|]. split; [exact H3|].
          split; [exact H4|]. split; [exact H5 | exact H6]. }
        split; [|split; [apply fold_sense_keys | right; auto]].
        apply fold_sense_sensed. intros k r Hk.
        destruct Htr as (Hfresh & _). now apply (Hfresh k r).
      * destruct (Hplain st1 Htr) as (rs & ps & H1 & H2 & H3 & [H4 | []]).
        exists rs, ps. auto.
    + destruct (Hplain s Htr) as (rs & ps & H1 & H2 & H3 & [H4 | []]).
      exists rs, ps. auto.
Qed.

(** ** Angles *)

Lemma atan_nonpos (q : R) : (q <= 0)%R -> (atan q <= 0)%R.
Proof.
  intros [Hlt | ->]; [|rewrite atan_0; lra].
  pose proof (atan_increasing q 0 Hlt) as H. rewrite atan_0 in H. lra.
Qed.

Lemma atan_pos (q : R) : (0 < q)%R -> (0 < atan q)%R.
Proof.
  intros Hlt. pose proof (atan_increasing 0 q Hlt) as H.
  rewrite atan_0 in H. exact H.
Qed.

(** [math.atan2] returns an angle in [(-pi, pi]]. *)
Lemma math_atan2_bound (y x : R) : (- PI < math_atan2 y x <= PI)%R.
Proof.
  pose proof PI_RGT_0 as Hpi. unfold math_atan2.
  destruct (total_order_T x 0) as [[Hneg | Hzero] | Hpos].
  - assert (/ x < 0)%R as Hinv by now apply Rinv_lt_0_compat.
    pose proof (atan_bound (y / x)) as [Hlo Hhi].
    destruct (Rle_dec 0 y) as [Hy | Hy].
    + assert (y / x <= 0)%R as Hq by (unfold Rdiv; nra).
      pose proof (atan_nonpos _ Hq). lra.
    + assert (0 < y / x)%R as Hq by (unfold Rdiv; nra).
      pose proof (atan_pos _ Hq). lra.
  - destruct (total_order_T y 0) as [[_ | _] | _]; lra.
  - pose proof (atan_bound (y / x)) as [Hlo Hhi]. lra.
Qed.

Lemma math_degrees_half_turn (r : R) :
  (- PI < r <= PI)%R -> in_half_turn (math_degrees r).
Proof.
  intros [Hlo Hhi]. pose proof PI_RGT_0 as Hpi.
  assert (0 < / PI)%R as Hinv by now apply Rinv_0_lt_compat.
  assert (PI * / PI = 1)%R as Hone by (apply Rinv_r; lra).
  unfold in_half_turn, math_degrees, Rdiv. split; nra.
Qed.

Lemma Tag_init_half_turn (id : Z) (raw : list (list (list Q))) (t : Tag.t) :
  Tag_init id raw = Ok t -> in_half_turn (Tag.angle t).
Proof.
  intros H. apply Tag_init_Ok in H
    as (cs & _ & _ & _ & _ & _ & _ & _ & _ & _ & ->).
  apply math_degrees_half_turn, math_atan2_bound.
Qed.



(** The centre of a tag lies within the bounding box of its four corner
    points and the front within the extent of its top edge: truncation
    toward zero never takes them outside. *)
Theorem Tag_centre_within_corners (id : Z) (raw : list (list (list Q)))
  (t : Tag.t) :
  Tag_init id raw = Ok t ->
  let x0 := Vector2D.x (Tag.tl t) in let x1 := Vector2D.x (Tag.tr t) in
  let x2 := Vector2D.x (Tag.br t) in let x3 := Vector2D.x (Tag.bl t) in
  let y0 := Vector2D.y (Tag.tl t) in let y1 := Vector2D.y (Tag.tr t) in
  let y2 := Vector2D.y (Tag.br t) in let y3 := Vector2D.y (Tag.bl t) in
  Z.min (Z.min x0 x1) (Z.min x2 x3) <= Vector2D.x (Tag.centre t)
    <= Z.max (Z.max x0 x1) (Z.max x2 x3) /\
  Z.min (Z.min y0 y1) (Z.min y2 y3) <= Vector2D.y (Tag.centre t)
    <= Z.max (Z.max y0 y1) (Z.max y2 y3) /\
  Z.min x0 x1 <= Vector2D.x (Tag.front t) <= Z.max x0 x1 /\
  Z.min y0 y1 <= Vector2D.y (Tag.front t) <= Z.max y0 y1.
Proof.
  intros H. apply Tag_init_Ok in H
    as (cs & _ & _ & _ & _ & _ & _ & _ & Hc & Hf & _).
  rewrite Hc, Hf. simpl.
  pose proof (int_truediv_truncates (corners_x t) 4 ltac:(lia)) as [Hx Hx'].
  pose proof (int_truediv_truncates (corners_y t) 4 ltac:(lia)) as [Hy Hy'].
  pose proof (int_truediv_truncates (top_x t) 2 ltac:(lia)) as [Hfx Hfx'].
  pose proof (int_truediv_truncates (top_y t) 2 ltac:(lia)) as [Hfy Hfy'].
  unfold corners_x, corners_y, top_x, top_y in *.
  repeat split; lia.
Qed.

Lemma Tag_centre_within_corners_witness :
  Tag_init 7 unit_square = Ok unit_square_tag /\
  0 <= Vector2D.x (Tag.centre unit_square_tag) <= 1 /\
  0 <= Vector2D.y (Tag.front unit_square_tag) <= 0.
Proof.
  split; [reflexivity|].
  pose proof (Tag_centre_within_corners 7 unit_square unit_square_tag eq_refl)
    as (Hx & _ & _ & Hy).
  split; [exact Hx | exact Hy].
Defined.

(** ** The mapping at the end of a cycle *)

Lemma posed_same_robot (sf : R) (k : Z) (r r' : Robot.t) :
  same_robot r r' -> posed sf k r -> posed sf k r'.
Proof.
  intros (Htag & Hid & Hpos & Hor & Hsr) (H0 & H1 & H2 & H3 & H4 & H5).
  unfold posed. rewrite Htag, Hid, Hpos, Hor, Hsr. auto 10.
Qed.

(** Rebuild from scratch: whatever the mapping held before, the ids at the
    end of a cycle are without duplicates, never the corner id 0, and each
    comes from a well-formed detection of the cycle's frame; an id that the
    frame does not hold is not tracked. *)
Theorem cycle_ids_from_detections (st : Tracker.t) (frame : list detection) :
  let rs := Tracker.robots (state_of (run_cycle st frame)) in
  NoDup (dict_keys rs) /\
  (forall k, In k (dict_keys rs) ->
     k <> 0 /\ exists raw, In (k, raw) frame /\ well_formed (k, raw) = true) /\
  (forall k, (forall raw, ~ In (k, raw) frame) -> dict_get k rs = None).
Proof.
  destruct (run_cycle_shape st frame)
    as (rs0 & ps & (_ & Hfrom & Hnd & _ & _ & Hposed) & _ & Hkeys & _).
  simpl. rewrite Hkeys.
  assert (forall k, In k (dict_keys rs0) ->
            k <> 0 /\ exists raw, In (k, raw) frame /\ well_formed (k, raw) = true)
    as Hids.
  { intros k Hk. apply dict_get_in_keys in Hk as [r Hr].
    destruct (Hposed k r Hr) as (Hk0 & _).
    destruct (Hfrom k r Hr) as (_ & raw & Hin & Hinit).
    split; [exact Hk0|]. exists raw. split; [exact Hin|].
    unfold well_formed. simpl. now rewrite Hinit. }
  split; [exact Hnd|]. split; [exact Hids|].
  intros k Habsent. apply dict_get_not_in. rewrite Hkeys. intros Hk.
  destruct (Hids k Hk) as (_ & raw & Hin & _). now apply (Habsent raw).
Qed.

(** Every robot at the end of a cycle stands in a calibrated tracker with a
    scale factor other than zero; its position is its tag's centre divided
    by that scale factor, its orientation its tag's heading, its sensor
    range 0.3 m, and it is filed under its tag's id, which is not 0. *)
Theorem robot_pose (st : Tracker.t) (frame : list detection) (k : Z)
  (r : Robot.t) :
  let st' := state_of (run_cycle st frame) in
  dict_get k (Tracker.robots st') = Some r ->
  Tracker.calibrated st' = true /\ Tracker.scale_factor st' <> 0%R /\
  posed (Tracker.scale_factor st') k r.
Proof.
  intros st' Hk. destruct (run_cycle_shape st frame)
    as (rs0 & ps & (_ & _ & _ & Hempty & Hsf & Hposed) & Hs & _ & _).
  fold st' in Hempty, Hsf, Hposed, Hs.
  destruct (sensed_lookup _ _ _ _ _ Hs Hk) as (r0 & Hr0 & Hsame & _).
  assert (rs0 <> []) as Hne by (intros ->; discriminate).
  split; [|split; [now apply Hsf|]].
  - destruct (Tracker.calibrated st'); [reflexivity|].
    now destruct Hne; apply Hempty.
  - apply (posed_same_robot _ _ r0); [exact Hsame | now apply Hposed].
Qed.

Lemma robot_pose_witness :
  dict_get 6 (Tracker.robots (state_of (run_cycle tracker_500 pair_frame)))
    = Some (Robot.set_neighbours (robot_at 6 100 0)
              [(5, reading_of (robot_at 6 100 0) (robot_at 5 0 0))]) /\
  Robot.position (robot_at 6 100 0)
    = Vector2D.mk (100 / Tracker.scale_factor tracker_500)%R
                  (0 / Tracker.scale_factor tracker_500)%R.
Proof.
  assert (dict_get 6
            (Tracker.robots (state_of (run_cycle tracker_500 pair_frame)))
          = Some (Robot.set_neighbours (robot_at 6 100 0)
                    [(5, reading_of (robot_at 6 100 0) (robot_at 5 0 0))]))
    as Hget by (rewrite pair_cycle; reflexivity).
  split; [exact Hget|].
  destruct (robot_pose tracker_500 pair_frame 6 _ Hget)
    as (_ & _ & _ & _ & _ & Hpos & _).
  rewrite pair_cycle in Hpos. exact Hpos.
Defined.

(** The readings of the robots at the end of a cycle, in terms of the final
    robots: either the neighbour pass ran over all pairs ([passed]) or no
    robot has a reading. *)
Lemma final_readings (st : Tracker.t) (frame : list detection) :
  let rs := Tracker.robots (state_of (run_cycle st frame)) in
  exists passed : bool,
  forall a b ra rb,
    dict_get a rs = Some ra -> dict_get b rs = Some rb ->
    Robot.sensor_range ra = (3 / 10)%R /\
    in_half_turn (Robot.orientation rb) /\
    forall rd, dict_get b (Robot.neighbours ra) = Some rd <->
      passed = true /\ a <> b /\ in_range ra rb /\ rd = reading_of ra rb.
Proof.
  intros rs. destruct (run_cycle_shape st frame)
    as (rs0 & ps & (_ & Hfrom & _ & _ & _ & Hposed) & Hs & _ & Hps).
  fold rs in Hs.
  exists (match ps with [] => false | _ :: _ => true end).
  intros a b ra rb Ha Hb.
  destruct (sensed_lookup _ _ _ _ _ Hs Ha) as (ra0 & Hra0 & Hsa & Hnb).
  destruct (sensed_lookup _ _ _ _ _ Hs Hb) as (rb0 & Hrb0 & Hsb & _).
  destruct (same_robot_reading ra0 ra rb0 rb Hsa Hsb) as (Hrd & Hdist & Hrange).
  destruct (Hposed a ra0 Hra0) as (_ & _ & _ & _ & _ & Hsr).
  split; [congruence|]. split.
  - destruct (Hposed b rb0 Hrb0) as (_ & _ & _ & _ & Hor & _).
    destruct (Hfrom b rb0 Hrb0) as (_ & raw & _ & Hinit).
    destruct Hsb as (_ & _ & _ & -> & _). rewrite Hor.
    now apply (Tag_init_half_turn b raw).
  - intros rd. rewrite Hnb. unfold in_range. rewrite Hdist, Hrange, Hrd.
    split.
    + intros (Hin & Hab & rb1 & Hb1 & Hr & ->).
      assert (rb1 = rb0) as -> by congruence.
      split; [now destruct ps|]. auto.
    + intros (Hpassed & Hab & Hr & ->).
      split; [|split; [exact Hab | exists rb0; auto]].
      destruct Hps as [-> | (_ & ->)]; [discriminate|].
      unfold neighbour_pairs. apply in_prod; apply dict_get_in_keys; eauto.
Qed.

Lemma sensed_neighbour_tracked (ps : list (Z * Z)) (rs m : dict Z Robot.t)
  (k b : Z) (r : Robot.t) :
  sensed ps rs m -> dict_get k m = Some r ->
  In b (dict_keys (Robot.neighbours r)) ->
  exists rb, dict_get b m = Some rb.
Proof.
  intros Hs Hk Hb. apply dict_get_in_keys in Hb as [rd Hrd].
  destruct (sensed_lookup _ _ _ _ _ Hs Hk) as (r0 & Hr0 & Hsame & Hnb).
  destruct (proj1 (Hnb b rd) Hrd) as (_ & _ & rb0 & Hrb0 & _).
  specialize (Hs b). rewrite Hrb0 in Hs.
  destruct Hs as (rb & Hrb & _). eauto.
Qed.

Lemma in_range_sym (ra rb : Robot.t) :
  Robot.sensor_range ra = (3 / 10)%R -> Robot.sensor_range rb = (3 / 10)%R ->
  in_range ra rb -> in_range rb ra.
Proof.
  unfold in_range, robot_distance. intros -> ->.
  now rewrite math_dist_sym.
Qed.

(** Sensing is symmetric at the end of a cycle, all sensor ranges being
    0.3 m: [b] is a key of the neighbours of [a] exactly when [a] is a key
    of the neighbours of [b], and the two readings carry the same range. *)
Theorem neighbours_symmetric (st : Tracker.t) (frame : list detection)
  (a b : Z) (ra rb : Robot.t) :
  let rs := Tracker.robots (state_of (run_cycle st frame)) in
  dict_get a rs = Some ra -> dict_get b rs = Some rb ->
  dict_mem b (Robot.neighbours ra) = dict_mem a (Robot.neighbours rb) /\
  forall rd rd',
    dict_get b (Robot.neighbours ra) = Some rd ->
    dict_get a (Robot.neighbours rb) = Some rd' ->
    SensorReading.range rd = SensorReading.range rd'.
Proof.
  intros rs Ha Hb. destruct (final_readings st frame) as (passed & Hfinal).
  fold rs in Hfinal.
  destruct (Hfinal a b ra rb Ha Hb) as (Hsa & _ & Hab).
  destruct (Hfinal b a rb ra Hb Ha) as (Hsb & _ & Hba).
  assert (forall rd, dict_get b (Robot.neighbours ra) = Some rd ->
            dict_get a (Robot.neighbours rb) = Some (reading_of rb ra)) as Hto.
  { intros rd Hrd. apply Hab in Hrd as (Hp & Hne & Hr & _).
    apply Hba. repeat split; auto. now apply in_range_sym. }
  assert (forall rd, dict_get a (Robot.neighbours rb) = Some rd ->
            dict_get b (Robot.neighbours ra) = Some (reading_of ra rb)) as Hfrom.
  { intros rd Hrd. apply Hba in Hrd as (Hp & Hne & Hr & _).
    apply Hab. repeat split; auto. now apply in_range_sym. }
  split.
  - unfold dict_mem.
    destruct (dict_get b (Robot.neighbours ra)) as [rd|] eqn:E1.
    + now rewrite (Hto rd eq_refl).
    + destruct (dict_get a (Robot.neighbours rb)) as [rd'|] eqn:E2;
        [|reflexivity].
      specialize (Hfrom rd' eq_refl). discriminate.
  - intros rd rd' Hrd Hrd'.
    apply Hab in Hrd as (_ & _ & _ & ->).
    apply Hba in Hrd' as (_ & _ & _ & ->).
    simpl. unfold robot_distance. apply math_dist_sym.
Qed.

Lemma neighbours_symmetric_witness :
  dict_get 5 (Tracker.robots (state_of (run_cycle tracker_500 pair_frame)))
    = Some (Robot.set_neighbours (robot_at 5 0 0)
              [(6, reading_of (robot_at 5 0 0) (robot_at 6 100 0))]) /\
  dict_get 6 (Tracker.robots (state_of (run_cycle tracker_500 pair_frame)))
    = Some (Robot.set_neighbours (robot_at 6 100 0)
              [(5, reading_of (robot_at 6 100 0) (robot_at 5 0 0))]) /\
  dict_mem 6 [(6, reading_of (robot_at 5 0 0) (robot_at 6 100 0))]
    = dict_mem 5 [(5, reading_of (robot_at 6 100 0) (robot_at 5 0 0))].
Proof.
  assert (run_cycle tracker_500 pair_frame = Done pair_snapshot) as Hrun
    by exact pair_cycle.
  assert (dict_get 5
            (Tracker.robots (state_of (run_cycle tracker_500 pair_frame)))
          = Some (Robot.set_neighbours (robot_at 5 0 0)
                    [(6, reading_of (robot_at 5 0 0) (robot_at 6 100 0))]))
    as H5 by (rewrite Hrun; reflexivity).
  assert (dict_get 6
            (Tracker.robots (state_of (run_cycle tracker_500 pair_frame)))
          = Some (Robot.set_neighbours (robot_at 6 100 0)
                    [(5, reading_of (robot_at 6 100 0) (robot_at 5 0 0))]))
    as H6 by (rewrite Hrun; reflexivity).
  split; [exact H5|]. split; [exact H6|].
  exact (proj1 (neighbours_symmetric tracker_500 pair_frame 5 6 _ _ H5 H6)).
Defined.

(** Every reading at the end of a cycle is of another robot of the same
    mapping, at a range of at least 0 and strictly less than 0.3 m, with a
    bearing and an orientation in [(-180, 180]] degrees. *)
Theorem reading_bounds (st : Tracker.t) (frame : list detection) (k b : Z)
  (r : Robot.t) (rd : SensorReading.t) :
  let rs := Tracker.robots (state_of (run_cycle st frame)) in
  dict_get k rs = Some r ->
  dict_get b (Robot.neighbours r) = Some rd ->
  b <> k /\
  (exists rb, dict_get b rs = Some rb /\ rd = reading_of r rb) /\
  (0 <= SensorReading.range rd < 3 / 10)%R /\
  in_half_turn (SensorReading.bearing rd) /\
  in_half_turn (SensorReading.orientation rd).
Proof.
  intros rs Hk Hrd.
  destruct (run_cycle_shape st frame) as (rs0 & ps & _ & Hs & _ & _).
  fold rs in Hs.
  assert (In b (dict_keys (Robot.neighbours r))) as Hb
    by (apply dict_get_in_keys; eauto).
  destruct (sensed_neighbour_tracked _ _ _ _ _ _ Hs Hk Hb) as (rb & Hrb).
  destruct (final_readings st frame) as (passed & Hfinal). fold rs in Hfinal.
  destruct (Hfinal k b r rb Hk Hrb) as (Hsr & Hor & Hiff).
  apply Hiff in Hrd as (_ & Hne & Hin & ->).
  split; [congruence|]. split; [eauto|]. simpl.
  split; [|split; [|exact Hor]].
  - unfold in_range in Hin. rewrite Hsr in Hin.
    split; [apply sqrt_pos | exact Hin].
  - apply math_degrees_half_turn, math_atan2_bound.
Qed.

Lemma reading_bounds_witness :
  dict_get 5 (Tracker.robots (state_of (run_cycle tracker_500 pair_frame)))
    = Some (Robot.set_neighbours (robot_at 5 0 0)
              [(6, reading_of (robot_at 5 0 0) (robot_at 6 100 0))]) /\
  (0 <= robot_distance (robot_at 5 0 0) (robot_at 6 100 0) < 3 / 10)%R.
Proof.
  assert (dict_get 5
            (Tracker.robots (state_of (run_cycle tracker_500 pair_frame)))
          = Some (Robot.set_neighbours (robot_at 5 0 0)
                    [(6, reading_of (robot_at 5 0 0) (robot_at 6 100 0))]))
    as H5 by (rewrite pair_cycle; reflexivity).
  split; [exact H5|].
  destruct (reading_bounds tracker_500 pair_frame 5 6 _
              (reading_of (robot_at 5 0 0) (robot_at 6 100 0)) H5 eq_refl)
    as (_ & _ & Hrange & _).
  exact Hrange.
Defined.

(** ** The drawing lookups *)

(** Every mapping a cycle goes through after line 87 holds fresh robots
    with the readings of the pairs sensed so far. *)
Lemma cycle_trace_sensed (st : Tracker.t) (frame : list detection)
  (m : dict Z Robot.t) :
  In m (tl (cycle_trace st frame)) -> exists rs ps, sensed ps rs m.
Proof.
  unfold cycle_trace. simpl. intros [<- | Hin].
  { exists [], []. apply sensed_nil. intros k r. discriminate. }
  destruct frame as [|d ds]; [contradiction|].
  apply in_app_iff in Hin as [Hin | Hin].
  - apply in_map_iff in Hin as (s & <- & Hs).
    destruct (tags_trace_built (d :: ds) (d :: ds)
                (Tracker.set_robots st []) s (incl_refl _)
                fresh_robots_nil ltac:(intros k r; discriminate) Hs)
      as (Hfresh & _).
    exists (Tracker.robots s), []. apply sensed_nil.
    intros k r Hk. now apply (Hfresh k r).
  - pose proof (process_tags_fresh (d :: ds) (Tracker.set_robots st [])
                  fresh_robots_nil) as Hfresh.
    destruct (process_tags _ _) as [st1|e s1]; [|contradiction].
    simpl in Hfresh. destruct (Tracker.calibrated st1); [|contradiction].
    apply scan_left_In in Hin as (pre & post & _ & ->).
    exists (Tracker.robots st1), pre. apply fold_sense_sensed.
    intros k r Hk. now apply (Hfresh k r).
Qed.

Lemma neighbour_lines_Ok (robots : dict Z Robot.t) (centre : Vector2D.t Z)
  (ids : list Z) :
  (forall i, In i ids -> exists r, dict_get i robots = Some r) ->
  exists lines,
    neighbour_lines robots centre ids = Ok lines /\
    List.length lines = List.length ids.
Proof.
  induction ids as [|i ids IH]; intros Hall; simpl.
  - exists []. split; reflexivity.
  - destruct (Hall i (or_introl eq_refl)) as (r & Hr).
    destruct IH as (lines & Hlines & Hlen);
      [intros j Hj; apply Hall; now right|].
    unfold dict_getitem. rewrite Hr. simpl. rewrite Hlines. simpl.
    eexists. split; [reflexivity|]. simpl. now rewrite Hlen.
Qed.

(** The lookup [self.robots[neighbour_id]] of the drawing code never raises
    [KeyError]: in every mapping a cycle goes through, each key of a
    robot's [neighbours] is a key of the mapping, and one line is drawn per
    neighbour. *)
Theorem draw_neighbours_never_raises (st : Tracker.t)
  (frame : list detection) (m : dict Z Robot.t) (k : Z) (r : Robot.t) :
  In m (tl (cycle_trace st frame)) ->
  dict_get k m = Some r ->
  (forall b, In b (dict_keys (Robot.neighbours r)) -> In b (dict_keys m)) /\
  exists lines,
    draw_neighbours m r = Ok lines /\
    List.length lines = List.length (dict_keys (Robot.neighbours r)).
Proof.
  intros Hm Hk. destruct (cycle_trace_sensed st frame m Hm) as (rs & ps & Hs).
  assert (forall b, In b (dict_keys (Robot.neighbours r)) ->
            exists rb, dict_get b m = Some rb) as Hall
    by (intros b; apply (sensed_neighbour_tracked ps rs m k b r Hs Hk)).
  split.
  - intros b Hb. apply dict_get_in_keys. now apply Hall.
  - now apply neighbour_lines_Ok.
Qed.

Lemma draw_neighbours_never_raises_witness :
  In (Tracker.robots pair_snapshot)
     (tl (cycle_trace tracker_500 pair_frame)) /\
  dict_get 5 (Tracker.robots pair_snapshot)
    = Some (Robot.set_neighbours (robot_at 5 0 0)
              [(6, reading_of (robot_at 5 0 0) (robot_at 6 100 0))]) /\
  draw_neighbours (Tracker.robots pair_snapshot)
    (Robot.set_neighbours (robot_at 5 0 0)
       [(6, reading_of (robot_at 5 0 0) (robot_at 6 100 0))])
    = Ok [(Vector2D.mk 0 0, Vector2D.mk 100 0)].
Proof.
  assert (In (Tracker.robots pair_snapshot)
             (tl (cycle_trace tracker_500 pair_frame))) as Hin.
  { pose proof (cycle_trace_final tracker_500 pair_frame) as Hfinal.
    rewrite pair_cycle in Hfinal. destruct Hfinal as [Hfirst | Hrest];
      [discriminate Hfirst | exact Hrest]. }
  split; [exact Hin|]. split; [reflexivity|].
  destruct (draw_neighbours_never_raises tracker_500 pair_frame _ 5 _
              Hin eq_refl) as (_ & lines & Hlines & _).
  reflexivity.
Defined.

(** ** The calibration state machine *)

Lemma calibration_ok_same (s s' : Tracker.t) :
  same_calibration s s' -> calibration_ok s -> calibration_ok s'.
Proof.
  unfold same_calibration, calibration_ok.
  intros (-> & -> & -> & -> & -> & -> & -> & _ & ->). tauto.
Qed.

Lemma math_dist_nonneg (p q : R * R) : (0 <= math_dist p q)%R.
Proof. unfold math_dist. apply sqrt_pos. Qed.

Lemma process_detection_calibration_ok (st : Tracker.t) (d : detection) :
  calibration_ok st -> calibration_ok (state_of (process_detection st d)).
Proof.
  intros Hok. destruct d as [id raw]. unfold process_detection.
  destruct (Tag_init id raw) as [t|e]; [|exact Hok].
  destruct (Tracker.calibrated st) eqn:Hc.
  { apply (calibration_ok_same st); [apply track_same_calibration | exact Hok]. }
  destruct (Tag.id t =? 0); [|exact Hok].
  destruct Hok as (Hm & Hsf & Hx & Hy & [(_ & Hz & Hn) | (Hc' & _)]);
    [|congruence].
  unfold calibrate. destruct Hn as [Hn | (Hn & Hbx & Hby)]; rewrite Hn; simpl.
  - unfold calibration_ok. simpl. rewrite Hc, Hn.
    repeat split; auto; try lia; left; repeat split; auto.
  - rewrite Hm, truediv_metres. simpl. unfold calibration_ok. simpl.
    pose proof (math_dist_nonneg
      (IZR (if Vector2D.x (Tag.centre t) <? Tracker.min_x st
            then Vector2D.x (Tag.centre t) else Tracker.min_x st),
       IZR (if Vector2D.y (Tag.centre t) <? Tracker.min_y st
            then Vector2D.y (Tag.centre t) else Tracker.min_y st))
      (IZR (if Vector2D.x (Tag.centre t) >? Tracker.max_x st
            then Vector2D.x (Tag.centre t) else Tracker.max_x st),
       IZR (if Vector2D.y (Tag.centre t) >? Tracker.max_y st
            then Vector2D.y (Tag.centre t) else Tracker.max_y st))) as Hd.
    rewrite !widen_min, !widen_max in *.
    split; [exact Hm|]. split; [lra|]. split; [lia|]. split; [lia|].
    right. rewrite Hn. repeat split; reflexivity.
Qed.

Lemma run_cycle_calibration_ok (st : Tracker.t) (frame : list detection) :
  calibration_ok st -> calibration_ok (state_of (run_cycle st frame)).
Proof.
  intros Hok.
  assert (calibration_ok (Tracker.set_robots st [])) as Hok0
    by (apply (calibration_ok_same st);
        [apply same_calibration_set_robots | exact Hok]).
  unfold run_cycle. destruct frame as [|d ds]; [exact Hok0|].
  assert (forall ds' s, calibration_ok s ->
            calibration_ok (state_of (process_tags s ds'))) as Htags.
  { induction ds' as [|d' ds' IH]; intros s Hs; simpl; [exact Hs|].
    pose proof (process_detection_calibration_ok s d' Hs) as Hd.
    destruct (process_detection s d'); [now apply IH | exact Hd]. }
  specialize (Htags (d :: ds) _ Hok0).
  destruct (process_tags _ _) as [st1|e s]; [|exact Htags].
  destruct (Tracker.calibrated st1); [|exact Htags].
  apply (calibration_ok_same st1);
    [apply same_calibration_set_robots | exact Htags].
Qed.

(** The calibration state machine from the start of the process: the
    number of corner tags counted never exceeds 2 and is 2 exactly when the
    tracker is calibrated; the pixel bounds are ordered; the scale factor
    is 0 until calibration and from then on the distance between the
    bounds divided by 2.06, which is never negative. *)
Theorem calibration_state_machine (frames : list (list detection)) :
  let st := state_of (run Tracker_init frames) in
  0 <= Tracker.num_corner_tags st <= 2 /\
  (Tracker.calibrated st = true <-> Tracker.num_corner_tags st = 2) /\
  Tracker.min_x st <= Tracker.max_x st /\
  Tracker.min_y st <= Tracker.max_y st /\
  (0 <= Tracker.scale_factor st)%R /\
  (Tracker.calibrated st = false -> Tracker.scale_factor st = 0%R) /\
  (Tracker.calibrated st = true ->
   Tracker.scale_factor st =
     (math_dist (IZR (Tracker.min_x st), IZR (Tracker.min_y st))
                (IZR (Tracker.max_x st), IZR (Tracker.max_y st))
      / (206 / 100))%R).
Proof.
  assert (forall fs s, calibration_ok s ->
            calibration_ok (state_of (run s fs))) as Hrun.
  { induction fs as [|f fs IH]; intros s Hs; simpl; [exact Hs|].
    pose proof (run_cycle_calibration_ok s f Hs) as Hf.
    destruct (run_cycle s f); [now apply IH | exact Hf]. }
  assert (calibration_ok Tracker_init) as Hinit.
  { unfold calibration_ok. simpl. repeat split; try lra; try lia.
    left. auto. }
  intros st. destruct (Hrun frames _ Hinit)
    as (_ & Hsf & Hx & Hy & [(Hc & Hz & Hn) | (Hc & Hn & Hscale)]);
    fold st in Hsf, Hx, Hy, Hc, Hn; rewrite Hc.
  - fold st in Hz. repeat split; auto; try lia; try discriminate.
  - fold st in Hscale. repeat split; auto; try lia; try discriminate.
Qed.

(** *** Fewer than two corner sightings *)

Lemma process_detection_short (st : Tracker.t) (d : detection)
  (coming : list (Vector2D.t Z)) :
  short_of_corners st (corner_sightings [d] ++ coming) ->
  match process_detection st d with
  | Done st' => short_of_corners st' coming
  | Crashed _ st' => short_of_corners st' []
  end.
Proof.
  intros (Hc & Hr & Hz & Hcoming).
  assert (short_of_corners st []) as Hnone by (repeat split; auto).
  destruct d as [id raw]. unfold corner_sightings in Hcoming.
  unfold process_detection. simpl in *.
  destruct (Tag_init id raw) as [t|e]; [|exact Hnone].
  rewrite Hc. rewrite app_nil_r in Hcoming.
  destruct (Tag.id t =? 0); simpl in Hcoming.
  - destruct Hcoming as [Habs | (Hn & p & Hp)]; [discriminate|].
    injection Hp as _ ->. unfold calibrate. rewrite Hn. simpl.
    repeat split; auto.
  - repeat split; auto.
Qed.

Lemma process_tags_short (ds : list detection) (st : Tracker.t)
  (coming : list (Vector2D.t Z)) :
  short_of_corners st (corner_sightings ds ++ coming) ->
  match process_tags st ds with
  | Done st' => short_of_corners st' coming
  | Crashed _ st' => short_of_corners st' []
  end.
Proof.
  revert st. induction ds as [|d ds IH]; intros st Hst; simpl; [exact Hst|].
  change (d :: ds) with ([d] ++ ds) in Hst.
  rewrite corner_sightings_app, <- app_assoc in Hst.
  pose proof (process_detection_short st d _ Hst) as Hd.
  destruct (process_detection st d) as [st'|e s]; [now apply IH | exact Hd].
Qed.

Lemma run_short (frames : list (list detection)) (st : Tracker.t) :
  short_of_corners st (corner_sightings (List.concat frames)) ->
  short_of_corners (state_of (run st frames)) [].
Proof.
  revert st. induction frames as [|f fs IH]; intros st Hst; simpl in *;
    [exact Hst|].
  rewrite corner_sightings_app in Hst.
  assert (match run_cycle st f with
          | Done st' => short_of_corners st' (corner_sightings (List.concat fs))
          | Crashed _ st' => short_of_corners st' []
          end) as Hf.
  { unfold run_cycle.
    assert (short_of_corners (Tracker.set_robots st [])
              (corner_sightings f ++ corner_sightings (List.concat fs)))
      as Hst0 by (destruct Hst as (H1 & _ & H3 & H4); repeat split; auto).
    destruct f as [|d ds]; [exact Hst0|].
    pose proof (process_tags_short (d :: ds) _ _ Hst0) as Hp.
    destruct (process_tags _ _) as [st1|e s]; [|exact Hp].
    destruct Hp as (Hc & Hrest). rewrite Hc. split; assumption. }
  destruct (run_cycle st f) as [st'|e s]; [now apply IH | exact Hf].
Qed.

(** As long as the process has seen fewer than two corner tags, whatever
    else the frames hold, the tracker is not calibrated, its scale factor
    is 0 and it tracks no robot. *)
Theorem fewer_than_two_corners (frames : list (list detection)) :
  (List.length (corner_sightings (List.concat frames)) < 2)%nat ->
  let st := state_of (run Tracker_init frames) in
  Tracker.calibrated st = false /\ Tracker.scale_factor st = 0%R /\
  Tracker.robots st = [].
Proof.
  intros Hlen st.
  assert (short_of_corners Tracker_init (corner_sightings (List.concat frames)))
    as Hinit.
  { repeat split.
    destruct (corner_sightings (List.concat frames)) as [|p [|q more]];
      simpl in Hlen; [now left | right; eauto | lia]. }
  destruct (run_short frames _ Hinit) as (Hc & Hr & Hz & _). auto.
Qed.

Lemma fewer_than_two_corners_witness :
  (List.length (corner_sightings (List.concat lone_corner_frames)) < 2)%nat /\
  Tracker.robots (state_of (run Tracker_init lone_corner_frames)) = [].
Proof.
  assert (List.length (corner_sightings (List.concat lone_corner_frames)) < 2)%nat
    as Hlen by (simpl; lia).
  split; [exact Hlen|].
  exact (proj2 (proj2 (fewer_than_two_corners _ Hlen))).
Defined.

(** *** No division by zero *)

Lemma Vector2D_eta (p : Vector2D.t Z) :
  Vector2D.mk (Vector2D.x p) (Vector2D.y p) = p.
Proof. now destruct p. Qed.

Lemma process_detection_safe (st : Tracker.t) (d : detection)
  (coming : list (Vector2D.t Z)) :
  well_formed d = true ->
  division_safe st (corner_sightings [d] ++ coming) ->
  exists st', process_detection st d = Done st' /\ division_safe st' coming.
Proof.
  destruct d as [id raw]. unfold well_formed, corner_sightings, process_detection.
  simpl. destruct (Tag_init id raw) as [t|e]; [intros _ | discriminate].
  rewrite app_nil_r. intros (Hm & Hsafe).
  destruct (Tracker.calibrated st) eqn:Hc.
  - (* calibrated: the scale factor is not zero *)
    unfold track, truediv. destruct (negb (Tag.id t =? 0)).
    + destruct (Req_dec_T (Tracker.scale_factor st) 0) as [Hz | _];
        [contradiction|].
      simpl. eexists. split; [reflexivity|].
      split; [exact Hm|]. simpl. now rewrite Hc.
    + exists st. split; [reflexivity|]. split; [exact Hm|]. now rewrite Hc.
  - destruct (Tag.id t =? 0); simpl in Hsafe.
    2:{ exists st. split; [reflexivity|]. split; [exact Hm|]. now rewrite Hc. }
    unfold calibrate.
    destruct (Tracker.num_corner_tags st =? 0) eqn:Hn.
    + (* first corner tag *)
      eexists. split; [reflexivity|]. split; [exact Hm|]. simpl.
      rewrite Hc. apply Z.eqb_eq in Hn. rewrite Hn. simpl.
      split; [reflexivity|]. split; [reflexivity|].
      intros p2 more ->. rewrite Vector2D_eta.
      intros ->. now apply (Hsafe (Tag.centre t) (Tag.centre t) more).
    + (* second corner tag, away from the first *)
      destruct Hsafe as (Hbx & Hby & Hdiff).
      specialize (Hdiff (Tag.centre t) coming eq_refl).
      simpl. rewrite Hm, truediv_metres.
      eexists. split; [reflexivity|]. split; [exact Hm|]. simpl.
      rewrite !widen_min, !widen_max, <- Hbx, <- Hby.
      pose proof (math_dist_bounding_box
                    (Vector2D.mk (Tracker.min_x st) (Tracker.min_y st))
                    (Tag.centre t)) as Hbox.
      simpl in Hbox. rewrite Hbox. intros Hzero.
      assert (math_dist
                (pixel (Vector2D.mk (Tracker.min_x st) (Tracker.min_y st)))
                (pixel (Tag.centre t)) = 0%R) as Hd by lra.
      apply math_dist_zero_iff in Hd. congruence.
Qed.

Lemma process_tags_safe (ds : list detection) (st : Tracker.t)
  (coming : list (Vector2D.t Z)) :
  forallb well_formed ds = true ->
  division_safe st (corner_sightings ds ++ coming) ->
  exists st', process_tags st ds = Done st' /\ division_safe st' coming.
Proof.
  revert st. induction ds as [|d ds IH]; intros st Hwf Hst; simpl.
  - exists st. auto.
  - simpl in Hwf. apply andb_true_iff in Hwf as [Hd Hds].
    change (d :: ds) with ([d] ++ ds) in Hst.
    rewrite corner_sightings_app, <- app_assoc in Hst.
    destruct (process_detection_safe st d _ Hd Hst) as (st' & -> & Hst').
    now apply IH.
Qed.

Lemma division_safe_set_robots (st : Tracker.t) (rs : dict Z Robot.t)
  (coming : list (Vector2D.t Z)) :
  division_safe st coming -> division_safe (Tracker.set_robots st rs) coming.
Proof. intros H. exact H. Qed.

Lemma run_safe (frames : list (list detection)) (st : Tracker.t) :
  forallb well_formed (List.concat frames) = true ->
  division_safe st (corner_sightings (List.concat frames)) ->
  exists st', run st frames = Done st'.
Proof.
  revert st. induction frames as [|f fs IH]; intros st Hwf Hst; simpl in *.
  - eauto.
  - rewrite forallb_app in Hwf. apply andb_true_iff in Hwf as [Hf Hfs].
    rewrite corner_sightings_app in Hst.
    assert (exists st', run_cycle st f = Done st' /\
              division_safe st' (corner_sightings (List.concat fs))) as Hc.
    { unfold run_cycle. destruct f as [|d ds].
      - eexists. split; [reflexivity|].
        now apply division_safe_set_robots.
      - destruct (process_tags_safe (d :: ds) (Tracker.set_robots st []) _
                    Hf (division_safe_set_robots _ _ _ Hst))
          as (st1 & -> & Hst1).
        destruct (Tracker.calibrated st1); eexists; split;
          try reflexivity; [|exact Hst1].
        now apply division_safe_set_robots. }
    destruct Hc as (st' & -> & Hst'). now apply IH.
Qed.

(** The tracker thread survives every sequence of frames whose detections
    are all well-formed and whose first two corner sightings, if there are
    two, are at different pixels: no exception leaves [Tracker.run]. *)
Theorem run_completes (frames : list (list detection)) :
  forallb well_formed (List.concat frames) = true ->
  (forall p1 p2 more,
     corner_sightings (List.concat frames) = p1 :: p2 :: more -> p1 <> p2) ->
  exists st', run Tracker_init frames = Done st'.
Proof.
  intros Hwf Hdiff. apply run_safe; [exact Hwf|].
  split; [reflexivity|]. exact Hdiff.
Qed.

Lemma run_completes_witness :
  forallb well_formed (List.concat arena_frames) = true /\
  corner_sightings (List.concat arena_frames)
    = [Vector2D.mk 0 0; Vector2D.mk 1030 0] /\
  exists st', run Tracker_init arena_frames = Done st'.
Proof.
  split; [reflexivity|]. split; [reflexivity|].
  apply (run_completes arena_frames); [reflexivity|].
  intros p1 p2 more [= <- <- _]. discriminate.
Defined.

(** ** Replies of the protocol server *)

(** The loops of lines 225-229 and 235-244 store one entry per item under
    its int key and leave the string keys alone. *)
Lemma fold_set_str {V : Type} (f : V -> pyval) (d : dict Z V)
  (acc : reply_dict) (s : string) :
  dict_get (KStr s)
    (fold_left (fun acc (item : Z * V) =>
                  dict_set (KInt (fst item)) (f (snd item)) acc) d acc)
  = dict_get (KStr s) acc.
Proof.
  revert acc. induction d as [|[k v] d IH]; intros acc; simpl; [reflexivity|].
  rewrite IH. apply dict_get_set_other. discriminate.
Qed.

Lemma fold_set_int {V : Type} (f : V -> pyval) (d : dict Z V)
  (acc : reply_dict) (k : Z) :
  NoDup (dict_keys d) ->
  dict_get (KInt k)
    (fold_left (fun acc (item : Z * V) =>
                  dict_set (KInt (fst item)) (f (snd item)) acc) d acc)
  = match dict_get k d with
    | Some v => Some (f v)
    | None => dict_get (KInt k) acc
    end.
Proof.
  revert acc. induction d as [|[k0 v0] d IH]; intros acc Hnd; simpl;
    [reflexivity|].
  inversion Hnd as [|? ? Hnotin Hnd']; subst.
  rewrite (IH _ Hnd'). destruct (Z.eqb_spec k k0) as [-> | Hne].
  - rewrite (dict_get_not_in k0 d Hnotin). apply dict_get_set_same.
  - destruct (dict_get k d); [reflexivity|].
    apply dict_get_set_other. congruence.
Qed.

(** The neighbour pass keeps the keys of every [neighbours] dictionary
    distinct. *)
Lemma sense_neighbours_NoDup (rs : dict Z Robot.t) (p : Z * Z) :
  (forall k r, dict_get k rs = Some r ->
               NoDup (dict_keys (Robot.neighbours r))) ->
  forall k r, dict_get k (sense rs p) = Some r ->
              NoDup (dict_keys (Robot.neighbours r)).
Proof.
  intros Hall k r. destruct p as [a b].
  destruct (dict_get a rs) as [ra|] eqn:Ha;
    [|rewrite sense_absent by (now left); apply Hall].
  destruct (dict_get b rs) as [rb|] eqn:Hb;
    [|rewrite sense_absent by (now right); apply Hall].
  rewrite (sense_present rs a b ra rb Ha Hb).
  destruct (negb (a =? b)); [|apply Hall].
  destruct (Rlt_dec _ _); [|apply Hall].
  destruct (Z.eq_dec a k) as [<- | Hne].
  - rewrite dict_get_set_same. intros [= <-]. simpl.
    apply dict_set_NoDup. now apply (Hall a ra).
  - rewrite dict_get_set_other by exact Hne. apply Hall.
Qed.

Lemma fold_sense_neighbours_NoDup (ps : list (Z * Z)) (rs : dict Z Robot.t) :
  (forall k r, dict_get k rs = Some r ->
               NoDup (dict_keys (Robot.neighbours r))) ->
  forall k r, dict_get k (fold_left sense ps rs) = Some r ->
              NoDup (dict_keys (Robot.neighbours r)).
Proof.
  revert rs. induction ps as [|p ps IH]; intros rs Hall; simpl; [exact Hall|].
  apply IH. now apply sense_neighbours_NoDup.
Qed.

Lemma run_cycle_neighbours_NoDup (st : Tracker.t) (frame : list detection)
  (k : Z) (r : Robot.t) :
  dict_get k (Tracker.robots (state_of (run_cycle st frame))) = Some r ->
  NoDup (dict_keys (Robot.neighbours r)).
Proof.
  assert (forall rs, fresh_robots rs ->
            forall k r, dict_get k rs = Some r ->
                        NoDup (dict_keys (Robot.neighbours r))) as Hfresh.
  { intros rs Hrs k' r' Hk'. destruct (Hrs k' r' Hk') as (_ & _ & ->).
    constructor. }
  destruct (run_cycle_robots st frame) as [Hf | (st1 & _ & _ & Hf & ->)].
  - now apply Hfresh.
  - simpl. unfold neighbour_pass. apply fold_sense_neighbours_NoDup.
    now apply Hfresh.
Qed.

(** A reply to [get_robot] carries one entry per reading of the robot: for
    every robot at the end of a cycle, the neighbours object built by lines
    225-229 has under each neighbour id the range, bearing and orientation
    of the reading, and nothing under any other key. *)
Theorem neighbours_reply_entries (st : Tracker.t) (frame : list detection)
  (k : Z) (r : Robot.t) :
  dict_get k (Tracker.robots (state_of (run_cycle st frame))) = Some r ->
  (forall b,
     dict_get (KInt b) (neighbours_reply (Robot.neighbours r)) =
     match dict_get b (Robot.neighbours r) with
     | Some n =>
         Some (VDict [(KStr "range", VFloat (SensorReading.range n));
                      (KStr "bearing", VFloat (SensorReading.bearing n));
                      (KStr "orientation",
                       VFloat (SensorReading.orientation n))])
     | None => None
     end) /\
  (forall s, dict_get (KStr s) (neighbours_reply (Robot.neighbours r)) = None).
Proof.
  intros Hk. pose proof (run_cycle_neighbours_NoDup st frame k r Hk) as Hnd.
  split.
  - intros b. unfold neighbours_reply.
    rewrite (fold_set_int reading_reply _ [] b Hnd).
    destruct (dict_get b (Robot.neighbours r)); reflexivity.
  - intros s. unfold neighbours_reply. now rewrite fold_set_str.
Qed.

Lemma neighbours_reply_entries_witness :
  dict_get 5 (Tracker.robots (state_of (run_cycle tracker_500 pair_frame)))
    = Some (Robot.set_neighbours (robot_at 5 0 0)
              [(6, reading_of (robot_at 5 0 0) (robot_at 6 100 0))]) /\
  dict_get (KInt 6)
    (neighbours_reply [(6, reading_of (robot_at 5 0 0) (robot_at 6 100 0))])
  = Some (reading_reply (reading_of (robot_at 5 0 0) (robot_at 6 100 0))).
Proof.
  assert (dict_get 5
            (Tracker.robots (state_of (run_cycle tracker_500 pair_frame)))
          = Some (Robot.set_neighbours (robot_at 5 0 0)
                    [(6, reading_of (robot_at 5 0 0) (robot_at 6 100 0))]))
    as H5 by (rewrite pair_cycle; reflexivity).
  split; [exact H5|].
  exact (proj1 (neighbours_reply_entries tracker_500 pair_frame 5 _ H5) 6).
Defined.

Lemma get_robot_Ok (robots : dict Z Robot.t) (fields : dict string json)
  (id : json) (r : Robot.t) (reply : reply_dict) :
  dict_get "get_robot"%string fields = Some id ->
  robots_getitem robots id = Ok r ->
  get_robot robots (JObj fields) reply =
  Ok (dict_set (KStr "neighbours")
        (VDict (neighbours_reply (Robot.neighbours r)))
        (dict_set (KStr "neighbours") (VDict [])
           (dict_set (KStr "orientation") (VFloat (Robot.orientation r))
              reply))).
Proof.
  intros Hid Hr. unfold get_robot. simpl. unfold dict_getitem.
  rewrite Hid. simpl. now rewrite Hr.
Qed.



Lemma run_cycle_ids_NoDup (st : Tracker.t) (frame : list detection) :
  NoDup (dict_keys (Tracker.robots (state_of (run_cycle st frame)))).
Proof.
  destruct (run_cycle_shape st frame)
    as (rs0 & ps & (_ & _ & Hnd & _) & _ & Hkeys & _).
  simpl in Hkeys. now rewrite Hkeys.
Qed.

(** A reply to [get_robots] on the mapping at the end of a cycle holds,
    under each tracked id, that robot's orientation and neighbours object,
    and nothing under any other int key; without [get_robots] a reply has
    no int key at all. *)
Theorem get_robots_entries (st : Tracker.t) (frame : list detection)
  (fields : dict string json) :
  let robots := Tracker.robots (state_of (run_cycle st frame)) in
  (forall id, dict_get "get_robot"%string fields = Some id ->
              exists r, robots_getitem robots id = Ok r) ->
  exists reply,
    handle_packet robots (JSON (JObj fields))
      = Ok (if recognized fields then Some reply else None) /\
    forall k,
      dict_get (KInt k) reply =
      if dict_mem "get_robots"%string fields then
        match dict_get k robots with
        | Some r =>
            Some (VDict [(KStr "orientation", VFloat (Robot.orientation r));
                         (KStr "neighbours",
                          VDict (neighbours_reply (Robot.neighbours r)))])
        | None => None
        end
      else None.
Proof.
  intros robots Htracked.
  pose proof (run_cycle_ids_NoDup st frame) as Hnd. fold robots in Hnd.
  unfold handle_packet, recognized, get_robots. simpl.
  assert (dict_mem "get_robot"%string fields =
          match dict_get "get_robot"%string fields with
          | Some _ => true
          | None => false
          end) as Hmem by reflexivity.
  destruct (dict_get "get_robot"%string fields) as [id|] eqn:Hid;
    rewrite Hmem.
  - destruct (Htracked id eq_refl) as (r & Hr).
    rewrite (get_robot_Ok robots fields id r _ Hid Hr). simpl.
    match goal with
    | |- exists reply, Ok (if _ then Some ?R else None) = _ /\ _ => exists R
    end.
    destruct (dict_mem "check_awake"%string fields),
             (dict_mem "get_ids"%string fields),
             (dict_mem "get_robots"%string fields); simpl;
      (split; [reflexivity|]; intros k;
       rewrite ?(fold_set_int robot_reply robots _ k Hnd);
       try destruct (dict_get k robots); reflexivity).
  - simpl.
    match goal with
    | |- exists reply, Ok (if _ then Some ?R else None) = _ /\ _ => exists R
    end.
    destruct (dict_mem "check_awake"%string fields),
             (dict_mem "get_ids"%string fields),
             (dict_mem "get_robots"%string fields); simpl;
      (split; [reflexivity|]; intros k;
       rewrite ?(fold_set_int robot_reply robots _ k Hnd);
       try destruct (dict_get k robots); reflexivity).
Qed.

Lemma get_robots_entries_witness :
  exists reply,
    handle_packet (Tracker.robots (state_of (run_cycle tracker_500 pair_frame)))
      (JSON (JObj all_robots_request)) = Ok (Some reply) /\
    dict_get (KInt 6) reply
      = Some (robot_reply
                (Robot.set_neighbours (robot_at 6 100 0)
                   [(5, reading_of (robot_at 6 100 0) (robot_at 5 0 0))])) /\
    dict_get (KInt 7) reply = None.
Proof.
  destruct (get_robots_entries tracker_500 pair_frame all_robots_request)
    as (reply & Hreply & Hentries).
  { intros id [=]. }
  exists reply. split; [exact Hreply|].
  pose proof (Hentries 6) as H6. pose proof (Hentries 7) as H7.
  rewrite pair_cycle in H6, H7. split; [exact H6 | exact H7].
Defined.

(** One connection as a whole: the handler sends at most one reply per
    packet received, and it ends without an exception exactly when no
    packet of the connection makes [handle_packet] raise. *)
Theorem handler_outcome (conn : list (dict Z Robot.t * packet)) :
  (List.length (fst (handler conn)) <= List.length conn)%nat /\
  (snd (handler conn) = None <->
   forall robots p, In (robots, p) conn ->
     exists answer, handle_packet robots p = Ok answer).
Proof.
  induction conn as [|[robots p] conn [IHlen IHend]]; simpl.
  - split; [lia|]. split; [intros _ ? ? [] | reflexivity].
  - destruct (handle_packet robots p) as [[reply|]|e] eqn:Hp.
    + destruct (handler conn) as [sent ending]. simpl in *.
      split; [lia|]. rewrite IHend. split.
      * intros Hall robots' p' [[= <- <-] | Hin]; eauto.
      * intros Hall robots' p' Hin. apply Hall. now right.
    + split; [lia|]. rewrite IHend. split.
      * intros Hall robots' p' [[= <- <-] | Hin]; eauto.
      * intros Hall robots' p' Hin. apply Hall. now right.
    + simpl. split; [lia|]. split; [discriminate|].
      intros Hall. destruct (Hall robots p (or_introl eq_refl)) as (a & Ha).
      congruence.
Qed.

(** ** How the tracker thread can die *)

Lemma process_detection_crash (st s : Tracker.t) (d : detection) (e : exn) :
  calibration_ok st ->
  process_detection st d = Crashed e s ->
  s = st /\
  (e = IndexError /\ well_formed d = false \/
   e = ZeroDivisionError /\ Tracker.calibrated st = true /\
   Tracker.scale_factor st = 0%R /\ well_formed d = true /\ fst d <> 0).
Proof.
  intros Hok. destruct d as [id raw]. unfold process_detection, well_formed.
  simpl. destruct (Tag_init id raw) as [t|e0] eqn:Et.
  - destruct (Tracker.calibrated st) eqn:Hc.
    + unfold track, truediv. destruct (negb (Tag.id t =? 0)) eqn:Hid;
        [|discriminate].
      destruct (Req_dec_T (Tracker.scale_factor st) 0) as [Hz | Hnz];
        [|discriminate].
      simpl. intros [= <- <-]. split; [reflexivity|]. right.
      apply Tag_init_Ok in Et as (_ & _ & _ & _ & _ & _ & _ & Htid & _).
      apply negb_true_iff, Z.eqb_neq in Hid. repeat split; congruence.
    + destruct (Tag.id t =? 0); [|discriminate].
      unfold calibrate. destruct (Tracker.num_corner_tags st =? 0);
        [discriminate|].
      simpl. destruct Hok as (Hm & _). rewrite Hm, truediv_metres.
      discriminate.
  - intros [= <- <-]. split; [reflexivity|]. left.
    split; [now apply (Tag_init_raises id raw) | reflexivity].
Qed.

Lemma process_tags_crash (ds : list detection) (st s : Tracker.t) (e : exn) :
  calibration_ok st ->
  process_tags st ds = Crashed e s ->
  e = IndexError /\ (exists d, In d ds /\ well_formed d = false) \/
  e = ZeroDivisionError /\ Tracker.calibrated s = true /\
  Tracker.scale_factor s = 0%R /\
  exists d, In d ds /\ well_formed d = true /\ fst d <> 0.
Proof.
  revert st. induction ds as [|d ds IH]; intros st Hok; simpl; [discriminate|].
  pose proof (process_detection_calibration_ok st d Hok) as Hok'.
  destruct (process_detection st d) as [st'|e' s'] eqn:Ed.
  - intros Hcrash.
    destruct (IH st' Hok' Hcrash)
      as [(He & d' & Hin & Hwf) | (He & Hc & Hz & d' & Hin & Hwf)].
    + left. split; [exact He|]. exists d'. split; [now right | exact Hwf].
    + right. split; [exact He|]. split; [exact Hc|]. split; [exact Hz|].
      exists d'. split; [now right | exact Hwf].
  - intros [= <- <-].
    destruct (process_detection_crash st s' d e' Hok Ed)
      as (-> & [(He & Hwf) | (He & Hc & Hz & Hwf & Hid)]).
    + left. split; [exact He|]. exists d. split; [now left | exact Hwf].
    + right. split; [exact He|]. split; [exact Hc|]. split; [exact Hz|].
      exists d. split; [now left|]. split; [exact Hwf | exact Hid].
Qed.

(** The tracker thread started by [Tracker.__init__] can die in two ways
    only: of [IndexError], on a detection from which no tag can be built,
    or of [ZeroDivisionError], on a well-formed robot detection met while
    calibrated with a scale factor of 0. *)
Theorem run_crash_causes (frames : list (list detection)) (e : exn)
  (s : Tracker.t) :
  run Tracker_init frames = Crashed e s ->
  e = IndexError /\
  (exists d, In d (List.concat frames) /\ well_formed d = false) \/
  e = ZeroDivisionError /\ Tracker.calibrated s = true /\
  Tracker.scale_factor s = 0%R /\
  exists d, In d (List.concat frames) /\ well_formed d = true /\ fst d <> 0.
Proof.
  assert (calibration_ok Tracker_init) as Hinit.
  { unfold calibration_ok. simpl. repeat split; try lra; try lia.
    left. auto. }
  revert Hinit. generalize Tracker_init as st.
  induction frames as [|f fs IH]; intros st Hok; simpl; [discriminate|].
  pose proof (run_cycle_calibration_ok st f Hok) as Hok'.
  destruct (run_cycle st f) as [st'|e' s'] eqn:Ef.
  - intros Hcrash.
    destruct (IH st' Hok' Hcrash)
      as [(He & d & Hin & Hwf) | (He & Hc & Hz & d & Hin & Hwf)].
    + left. split; [exact He|]. exists d.
      split; [apply in_app_iff; now right | exact Hwf].
    + right. split; [exact He|]. split; [exact Hc|]. split; [exact Hz|].
      exists d.
      split; [apply in_app_iff; now right | exact Hwf].
  - intros [= <- <-]. unfold run_cycle in Ef.
    destruct f as [|d0 ds]; [discriminate|].
    assert (calibration_ok (Tracker.set_robots st [])) as Hok0
      by (apply (calibration_ok_same st);
          [apply same_calibration_set_robots | exact Hok]).
    destruct (process_tags (Tracker.set_robots st []) (d0 :: ds))
      as [st1|e1 s1] eqn:Ep.
    { destruct (Tracker.calibrated st1); discriminate. }
    injection Ef as <- <-.
    destruct (process_tags_crash _ _ _ _ Hok0 Ep)
      as [(He & d & Hin & Hwf) | (He & Hc & Hz & d & Hin & Hwf)].
    + left. split; [exact He|]. exists d.
      split; [apply in_app_iff; now left | exact Hwf].
    + right. split; [exact He|]. split; [exact Hc|]. split; [exact Hz|].
      exists d.
      split; [apply in_app_iff; now left | exact Hwf].
Qed.

Lemma run_crash_causes_witness :
  run Tracker_init (stuck_frames ++ [[(7, unit_square)]])
    = Crashed ZeroDivisionError
        (Tracker.set_robots (state_of (run Tracker_init stuck_frames)) []) /\
  Tracker.scale_factor
    (Tracker.set_robots (state_of (run Tracker_init stuck_frames)) []) = 0%R.
Proof.
  assert (run Tracker_init (stuck_frames ++ [[(7, unit_square)]])
          = Crashed ZeroDivisionError
              (Tracker.set_robots (state_of (run Tracker_init stuck_frames)) []))
    as Hrun.
  { unfold stuck_frames, run, run_cycle, process_tags, process_detection,
      calibrate, track. evaluate_cycle.
    rewrite truediv_metres. evaluate_cycle.
    replace (math_dist (3, 4) (3, 4) / (206 / 100))%R with 0%R.
    - unfold truediv. destruct (Req_dec_T 0 0) as [_ | Hne];
        [reflexivity | now destruct Hne].
    - unfold math_dist. simpl.
      replace ((3 - 3) * (3 - 3) + (4 - 4) * (4 - 4))%R with 0%R by ring.
      rewrite sqrt_0. lra. }
  split; [exact Hrun|].
  destruct (run_crash_causes _ _ _ Hrun)
    as [(He & _) | (_ & _ & Hz & _)]; [discriminate He | exact Hz].
Defined.

(** ** Messages that are not objects *)






(** ** No detection is lost *)

Lemma process_tags_ids (ds : list detection) (st : Tracker.t) :
  Tracker.calibrated st = true -> Tracker.scale_factor st <> 0%R ->
  forallb well_formed ds = true ->
  exists st',
    process_tags st ds = Done st' /\ Tracker.calibrated st' = true /\
    forall k, In k (dict_keys (Tracker.robots st')) <->
              In k (dict_keys (Tracker.robots st)) \/
              k <> 0 /\ In k (map fst ds).
Proof.
  revert st. induction ds as [|[id raw] ds IH]; intros st Hc Hsf Hwf; simpl.
  - exists st. split; [reflexivity|]. split; [exact Hc|]. intros k. tauto.
  - simpl in Hwf. apply andb_true_iff in Hwf as [Hd Hds].
    unfold well_formed in Hd. simpl in Hd.
    destruct (Tag_init id raw) as [t|] eqn:Et; [|discriminate].
    rewrite Hc. unfold track, truediv.
    apply Tag_init_Ok in Et as (_ & _ & _ & _ & _ & _ & _ & Htid & _).
    rewrite Htid.
    destruct (Req_dec_T (Tracker.scale_factor st) 0) as [Hz | _];
      [contradiction|].
    destruct (Z.eqb_spec id 0) as [Hid | Hid]; simpl.
    + destruct (IH st Hc Hsf Hds) as (st' & Hrun & Hc' & Hkeys).
      exists st'. split; [exact Hrun|]. split; [exact Hc'|].
      intros k. rewrite Hkeys. split; [tauto|].
      intros [Hk | (Hk0 & [Hk | Hk])]; [tauto | congruence | tauto].
    + destruct (IH (Tracker.set_robots st
                      (dict_set id
                         (Robot_init t
                            (Vector2D.mk
                               (IZR (Vector2D.x (Tag.centre t))
                                / Tracker.scale_factor st)%R
                               (IZR (Vector2D.y (Tag.centre t))
                                / Tracker.scale_factor st)%R))
                         (Tracker.robots st))) Hc Hsf Hds)
        as (st' & Hrun & Hc' & Hkeys).
      exists st'. split; [exact Hrun|]. split; [exact Hc'|].
      intros k. rewrite Hkeys. simpl. rewrite dict_keys_set_in. split.
      * intros [[-> | Hk] | (Hk0 & Hk)]; auto.
      * intros [Hk | (Hk0 & [<- | Hk])]; auto.
Qed.

(** In a tracker calibrated with a scale factor other than zero, a cycle
    on well-formed detections completes and tracks exactly the ids detected
    other than the corner id 0: no robot detection is lost and no other id
    appears. *)
Theorem every_robot_detection_tracked (st : Tracker.t)
  (frame : list detection) :
  Tracker.calibrated st = true -> Tracker.scale_factor st <> 0%R ->
  forallb well_formed frame = true ->
  exists st',
    run_cycle st frame = Done st' /\
    forall k, In k (dict_keys (Tracker.robots st')) <->
              k <> 0 /\ In k (map fst frame).
Proof.
  intros Hc Hsf Hwf. unfold run_cycle. destruct frame as [|d ds].
  - eexists. split; [reflexivity|]. simpl. intros k. tauto.
  - destruct (process_tags_ids (d :: ds) (Tracker.set_robots st []) Hc Hsf Hwf)
      as (st1 & -> & -> & Hkeys).
    eexists. split; [reflexivity|]. simpl. intros k.
    unfold neighbour_pass. rewrite fold_sense_keys, Hkeys. simpl. tauto.
Qed.

Lemma every_robot_detection_tracked_witness :
  Tracker.calibrated tracker_500 = true /\
  Tracker.scale_factor tracker_500 <> 0%R /\
  forallb well_formed ((0, point_tag 3 4) :: pair_frame) = true /\
  exists st',
    run_cycle tracker_500 ((0, point_tag 3 4) :: pair_frame) = Done st' /\
    In 6 (dict_keys (Tracker.robots st')) /\
    ~ In 0 (dict_keys (Tracker.robots st')).
Proof.
  assert (Tracker.scale_factor tracker_500 <> 0%R) as Hsf by (simpl; lra).
  split; [reflexivity|]. split; [exact Hsf|]. split; [reflexivity|].
  destruct (every_robot_detection_tracked tracker_500
              ((0, point_tag 3 4) :: pair_frame) eq_refl Hsf eq_refl)
    as (st' & Hrun & Hkeys).
  exists st'. split; [exact Hrun|]. split.
  - apply Hkeys. split; [discriminate | simpl; tauto].
  - intros H0. apply Hkeys in H0 as (Hne & _). now destruct Hne.
Defined.
